(** * ATS resume analyzer: the resume parser and the explainable scorer

    A shallow embedding of [src/ai_scorer.py] (class [AIScorer]) and of the
    parts of [src/resume_parser.py] (class [ResumeParser]) that decide the
    extracted years of experience and the file-format dispatch.

    Modelling conventions.
    - A Python [str] is a [string] of 7-bit characters; [lower], [strip] and
      the regular-expression classes [\d], [\s], [\w] are the ASCII ones.
    - A Python [float] is an exact rational ([Q]); equality of scores is
      [Qeq].  [round(x, 2)] is rounding to the nearest hundredth, ties to the
      even neighbour.
    - A Python [int] is a [Z].
    - A [dict] used as a mapping from component names to weights is a
      [gmap string Q]; a [dict] that is iterated in insertion order is an
      association list.
    - [raise] is the left injection of a sum; every function that can raise
      returns [exn + _].
    - The sentence encoder ([SentenceTransformer.encode]) and
      [cosine_similarity] are parameters of the scorer: a type of
      embeddings, a function from texts to embeddings and a function from
      two embeddings to a rational. *)

From Stdlib Require Import QArith Qround Qminmax Lqa ZArith Lia List Ascii String Bool.
From Stdlib Require Import DecimalString.
From stdpp Require Import gmap strings.
Import ListNotations.

Local Open Scope string_scope.

(** ** Python strings *)

Module PyStr.

Definition chars (s : string) : list ascii := list_ascii_of_string s.
Definition of_chars (l : list ascii) : string := string_of_list_ascii l.

Definition code (c : ascii) : N := N_of_ascii c.

Definition is_upper (c : ascii) : bool := ((65 <=? code c) && (code c <=? 90))%N.
Definition is_lower (c : ascii) : bool := ((97 <=? code c) && (code c <=? 122))%N.
Definition is_digit (c : ascii) : bool := ((48 <=? code c) && (code c <=? 57))%N.

(** [str.isspace] on one character: TAB, LF, VT, FF, CR, FS, GS, RS, US
    and the space. *)
Definition is_space (c : ascii) : bool :=
  (((9 <=? code c) && (code c <=? 13)) || ((28 <=? code c) && (code c <=? 32)))%N.

(** [\w] of the [re] module, restricted to ASCII. *)
Definition is_word (c : ascii) : bool :=
  is_upper c || is_lower c || is_digit c || (code c =? 95)%N.

Definition lower_char (c : ascii) : ascii :=
  if is_upper c then ascii_of_N (code c + 32) else c.

Definition lower_chars (l : list ascii) : list ascii := List.map lower_char l.

(** [s.lower()] *)
Definition lower (s : string) : string := of_chars (lower_chars (chars s)).

Fixpoint lstrip_chars (l : list ascii) : list ascii :=
  match l with
  | c :: l' => if is_space c then lstrip_chars l' else l
  | [] => []
  end.

Definition rstrip_chars (l : list ascii) : list ascii :=
  rev (lstrip_chars (rev l)).

Definition strip_chars (l : list ascii) : list ascii :=
  rstrip_chars (lstrip_chars l).

(** [s.strip()] *)
Definition strip (s : string) : string := of_chars (strip_chars (chars s)).

Fixpoint starts_with (p l : list ascii) : bool :=
  match p, l with
  | [], _ => true
  | _ :: _, [] => false
  | a :: p', b :: l' => Ascii.eqb a b && starts_with p' l'
  end.

Fixpoint contains_chars (p l : list ascii) : bool :=
  starts_with p l ||
  match l with
  | [] => false
  | _ :: l' => contains_chars p l'
  end.

(** [p in s] for two strings. *)
Definition contains (p s : string) : bool := contains_chars (chars p) (chars s).

(** [sep.join(items)] *)
Fixpoint join (sep : string) (items : list string) : string :=
  match items with
  | [] => ""
  | [x] => x
  | x :: rest => x ++ sep ++ join sep rest
  end.

End PyStr.

(** ** Python numbers *)

Module PyNum.

Local Open Scope Q_scope.

Definition of_int (z : Z) : Q := inject_Z z.
Definition of_len (n : nat) : Q := inject_Z (Z.of_nat n).

(** Nearest integer, ties to even. *)
Definition round_half_even (q : Q) : Z :=
  let f := Qfloor q in
  match Qcompare (q - inject_Z f) (1 # 2) with
  | Lt => f
  | Gt => (f + 1)%Z
  | Eq => if Z.even f then f else (f + 1)%Z
  end.

(** [round(x, 2)] *)
Definition round2 (x : Q) : Q := inject_Z (round_half_even (x * 100)) / 100.

Fixpoint sum (l : list Q) : Q :=
  match l with
  | [] => 0
  | x :: l' => x + sum l'
  end.

(** [np.mean(l)] for a non-empty [l]. *)
Definition mean (l : list Q) : Q := sum l / of_len (List.length l).

(** [str(n)] for an [int]. *)
Definition str_of_int (z : Z) : string := NilZero.string_of_int (Z.to_int z).

(** [str(n)] for a length. *)
Definition str_of_len (n : nat) : string := NilEmpty.string_of_uint (Nat.to_uint n).

End PyNum.

(** ** Exceptions *)

Inductive exn : Type :=
| KeyError (key : string)
| ValueError (msg : string).

Definition result (A : Type) : Type := (exn + A)%type.

Definition ok {A : Type} (a : A) : result A := inr a.
Definition raise {A : Type} (e : exn) : result A := inl e.

Definition bind {A B : Type} (m : result A) (k : A -> result B) : result B :=
  match m with
  | inl e => inl e
  | inr a => k a
  end.

Notation "'let*' x ':=' m 'in' k" := (bind m (fun x => k))
  (at level 10, x name, m at level 100, k at level 200).

(** ** The data the parser produces and the scorer consumes *)

(** The dictionaries below are read with [.get(key, default)] only; a field
    holds the value [.get] returns. *)

Record ExperienceEntry : Type := {
  exp_title : string;
  exp_duration : option string
}.

Record EducationEntry : Type := {
  edu_degree : string;
  edu_details : string
}.

Record ProjectEntry : Type := {
  proj_title : string;
  proj_description : string
}.

Record ResumeData : Type := {
  raw_text : string;
  candidate_name : option string;
  candidate_email : option string;
  skills : list string;
  experience_years : Z;
  experience_details : list ExperienceEntry;
  education : list EducationEntry;
  projects : list ProjectEntry;
  certifications : list string
}.

Record JobRole : Type := {
  job_title : string;
  job_description : string;
  required_skills : list string;
  required_experience : Z
}.

(** ** The scorer *)

Module AIScorer.

Local Open Scope Q_scope.

(** *** Explanations, as the dictionaries the code builds *)

Record SkillsExplanation : Type := {
  matched : list string;
  missing : list string;
  extra : list string;
  match_ratio : option string
}.

(** [calculate_experience_score] returns one of two dictionaries: a bare
    message, or the comparison with its [meets_requirement] key. *)
Inductive ExperienceExplanation : Type :=
| ExpMessage (message : string)
| ExpCompared (resume_years required_years : Z) (meets_requirement : bool).

Inductive EducationExplanation : Type :=
| EduMessage (message : string)
| EduCompared (found_education required_levels : list string)
              (meets_requirement : bool).

Inductive ProjectsExplanation : Type :=
| ProjMessage (message : string)
| ProjCompared (total_projects relevant_projects : nat)
               (top_projects : list (string * Q)).

(** [explanation.get('meets_requirement')] *)
Definition exp_get_meets_requirement (e : ExperienceExplanation) : option bool :=
  match e with
  | ExpMessage _ => None
  | ExpCompared _ _ m => Some m
  end.

(** [explanation.get('required_years', 0)] *)
Definition exp_get_required_years (e : ExperienceExplanation) : Z :=
  match e with
  | ExpMessage _ => 0%Z
  | ExpCompared _ r _ => r
  end.

Definition edu_get_meets_requirement (e : EducationExplanation) : option bool :=
  match e with
  | EduMessage _ => None
  | EduCompared _ _ m => Some m
  end.

(** Truth value of what [.get] returned: [None] and [False] are false. *)
Definition truthy (o : option bool) : bool :=
  match o with
  | Some b => b
  | None => false
  end.

(** *** Default weights, [self.weights] *)

Definition default_weights : gmap string Q :=
  <["semantic" := 40 # 100]> (
  <["skills" := 30 # 100]> (
  <["experience" := 15 # 100]> (
  <["education" := 10 # 100]> (
  <["projects" := 5 # 100]> ∅)))).

(** *** calculate_skills_score *)

(** [s.lower().strip()] *)
Definition normalize (s : string) : string := PyStr.strip (PyStr.lower s).

(** The inner loop over the normalised resume skills, with its [break]. *)
Fixpoint skill_found (req_skill : string) (resume_skills_normalized : list string) : bool :=
  match resume_skills_normalized with
  | [] => false
  | res_skill :: rest =>
      if PyStr.contains req_skill res_skill || PyStr.contains res_skill req_skill
      then true
      else skill_found req_skill rest
  end.

(** The outer loop: the lists [matched] and [missing], in order. *)
Fixpoint match_skills (resume_skills_normalized required_skills_normalized : list string)
  : list string * list string :=
  match required_skills_normalized with
  | [] => ([], [])
  | req_skill :: rest =>
      let '(m, mi) := match_skills resume_skills_normalized rest in
      if skill_found req_skill resume_skills_normalized
      then (req_skill :: m, mi)
      else (m, req_skill :: mi)
  end.

(** [s in l] for a list of strings. *)
Definition mem (s : string) (l : list string) : bool :=
  existsb (String.eqb s) l.

Definition calculate_skills_score (resume_skills required_skills : list string)
  : Q * SkillsExplanation :=
  match required_skills with
  | [] => (50, {| matched := []; missing := []; extra := resume_skills;
                  match_ratio := None |})
  | _ :: _ =>
      let resume_skills_normalized := List.map normalize resume_skills in
      let required_skills_normalized := List.map normalize required_skills in
      let '(m, mi) := match_skills resume_skills_normalized required_skills_normalized in
      let ratio :=
        match required_skills_normalized with
        | [] => 0
        | _ :: _ => PyNum.of_len (List.length m)
                    / PyNum.of_len (List.length required_skills_normalized)
        end in
      let score := ratio * 100 in
      let ex := List.filter (fun s => negb (mem s m)) resume_skills_normalized in
      (score, {| matched := m; missing := mi; extra := firstn 5 ex;
                 match_ratio :=
                   Some (PyNum.str_of_len (List.length m) ++ "/" ++
                         PyNum.str_of_len (List.length required_skills_normalized)) |})
  end.

(** *** calculate_experience_score *)

Definition calculate_experience_score (resume_years required_years : Z)
  : Q * ExperienceExplanation :=
  if (required_years =? 0)%Z
  then (100, ExpMessage "No experience requirement")
  else
    let score :=
      if (resume_years >=? required_years)%Z
      then 100
      else Qmin 100 (PyNum.of_int resume_years / PyNum.of_int required_years * 100) in
    (score, ExpCompared resume_years required_years
                        (resume_years >=? required_years)%Z).

(** *** calculate_education_score *)

(** The table [role_requirements], in the order the code writes it. *)
Definition role_requirements : list (string * list string) :=
  [ ("engineer", ["bachelor"; "b.tech"; "b.e"; "master"; "m.tech"]);
    ("scientist", ["master"; "m.tech"; "phd"; "ph.d"]);
    ("developer", ["bachelor"; "b.tech"; "diploma"]);
    ("data", ["bachelor"; "master"; "phd"]) ].

(** The loop over the table, with its [break] at the first key found. *)
Fixpoint lookup_levels (job_lower : string) (table : list (string * list string))
  : list string :=
  match table with
  | [] => []
  | (key, levels) :: rest =>
      if PyStr.contains key job_lower then levels else lookup_levels job_lower rest
  end.

Definition required_levels_of (job_role : string) : list string :=
  match lookup_levels (PyStr.lower job_role) role_requirements with
  | [] => ["bachelor"; "b.tech"; "b.e"]
  | levels => levels
  end.

(** [edu.get('degree', '').lower() + ' ' + edu.get('details', '').lower()] *)
Definition edu_text (edu : EducationEntry) : string :=
  PyStr.lower (edu_degree edu) ++ " " ++ PyStr.lower (edu_details edu).

Definition found_levels_of (resume_education : list EducationEntry)
           (required_levels : list string) : list string :=
  List.flat_map
    (fun edu => List.filter (fun level => PyStr.contains level (edu_text edu)) required_levels)
    resume_education.

Definition calculate_education_score (resume_education : list EducationEntry)
           (job_role : string) : Q * EducationExplanation :=
  match resume_education with
  | [] => (30, EduMessage "No education information found")
  | _ :: _ =>
      let required_levels := required_levels_of job_role in
      let found_levels := found_levels_of resume_education required_levels in
      let score := match found_levels with [] => 60 | _ :: _ => 100 end in
      (score, EduCompared (List.map edu_degree resume_education) required_levels
                          (0 <? List.length found_levels)%nat)
  end.

(** *** _generate_recommendations *)

Definition ltb (x y : Q) : bool := negb (Qle_bool y x).
Definition geb (x y : Q) : bool := Qle_bool y x.

Definition missing_skills_line (missing_skills : list string) : string :=
  "Missing key skills: " ++ PyStr.join ", " (firstn 3 missing_skills).

Definition experience_line (required_years : Z) : string :=
  "Need more experience: " ++ PyNum.str_of_int required_years ++ " years required".

Definition education_line : string :=
  "Consider highlighting relevant education credentials".

Definition strong_line : string :=
  "Strong candidate! Well-matched for the role.".

Definition _generate_recommendations (overall_score : Q)
           (skills_explanation : SkillsExplanation)
           (experience_explanation : ExperienceExplanation)
           (education_explanation : EducationExplanation) : list string :=
  if ltb overall_score 70
  then
    (match missing skills_explanation with
     | [] => []
     | _ :: _ => [missing_skills_line (missing skills_explanation)]
     end) ++
    (if negb (truthy (exp_get_meets_requirement experience_explanation))
     then [experience_line (exp_get_required_years experience_explanation)]
     else []) ++
    (if negb (truthy (edu_get_meets_requirement education_explanation))
     then [education_line]
     else [])
  else [strong_line].

(** *** The result dictionaries *)

Record Component (D : Type) : Type := {
  score : Q;
  weight : Q;
  contribution : Q;
  component_details : D
}.
Arguments score {D}.
Arguments weight {D}.
Arguments contribution {D}.
Arguments component_details {D}.

Record Breakdown : Type := {
  semantic : Component Q;
  skills_component : Component SkillsExplanation;
  experience : Component ExperienceExplanation;
  education_component : Component EducationExplanation;
  projects_component : Component ProjectsExplanation
}.

Record Explanation : Type := {
  expl_overall_score : Q;
  breakdown : Breakdown;
  recommendations : list string;
  expl_is_shortlisted : bool
}.

Record ScoreResult : Type := {
  overall_score : Q;
  semantic_score : Q;
  skills_score : Q;
  experience_score : Q;
  education_score : Q;
  projects_score : Q;
  explanation : Explanation;
  is_shortlisted : bool
}.

(** [weights[key]] *)
Definition getitem (weights : gmap string Q) (key : string) : result Q :=
  match weights !! key with
  | Some v => ok v
  | None => raise (KeyError key)
  end.

(** [custom_weights or self.weights]: [None] and the empty dictionary
    are false. *)
Definition weights_or_default (custom_weights : option (gmap string Q))
  : gmap string Q :=
  match custom_weights with
  | None => default_weights
  | Some w => if decide (w = ∅) then default_weights else w
  end.

Section Encoder.

(** [self.model.encode] and [cosine_similarity]. *)
Variable Embedding : Type.
Variable encode : string -> Embedding.
Variable cosine_similarity : Embedding -> Embedding -> Q.

Definition calculate_semantic_similarity (resume_text job_description : string) : Q :=
  let resume_embedding := encode resume_text in
  let job_embedding := encode job_description in
  let similarity := cosine_similarity resume_embedding job_embedding in
  Qmax 0 (Qmin 1 similarity).

Definition project_text (project : ProjectEntry) : string :=
  proj_title project ++ " " ++ proj_description project.

(** The loop over the projects: the lists [project_scores] and
    [relevant_projects], in order. *)
Fixpoint score_projects (job_embedding : Embedding) (resume_projects : list ProjectEntry)
  : list Q * list (string * Q) :=
  match resume_projects with
  | [] => ([], [])
  | project :: rest =>
      let '(project_scores, relevant_projects) := score_projects job_embedding rest in
      if (String.length (PyStr.strip (project_text project)) <? 10)%nat
      then (project_scores, relevant_projects)
      else
        let project_embedding := encode (project_text project) in
        let similarity := cosine_similarity project_embedding job_embedding in
        (similarity :: project_scores,
         if ltb (3 # 10) similarity
         then (proj_title project, PyNum.round2 (similarity * 100)) :: relevant_projects
         else relevant_projects)
  end.

Definition calculate_projects_score (resume_projects : list ProjectEntry)
           (job_description : string) : Q * ProjectsExplanation :=
  match resume_projects with
  | [] => (0, ProjMessage "No projects found")
  | _ :: _ =>
      let job_embedding := encode job_description in
      let '(project_scores, relevant_projects) :=
        score_projects job_embedding resume_projects in
      match project_scores with
      | [] => (0, ProjMessage "No valid projects found")
      | _ :: _ =>
          let avg_similarity := PyNum.mean project_scores in
          let score := Qmin 100 (avg_similarity * 100) in
          (score, ProjCompared (List.length resume_projects)
                               (List.length relevant_projects)
                               (firstn 3 relevant_projects))
      end
  end.

(** The weighted sum before rounding. *)
Definition weighted_sum (ws wk we wd wp s k e d p : Q) : Q :=
  ws * s + wk * k + we * e + wd * d + wp * p.

Definition calculate_overall_score (resume_data : ResumeData) (job_role : JobRole)
           (custom_weights : option (gmap string Q)) : result ScoreResult :=
  let weights := weights_or_default custom_weights in
  let resume_text := raw_text resume_data in
  let description := job_description job_role in
  let semantic_similarity := calculate_semantic_similarity resume_text description in
  let semantic_score := semantic_similarity * 100 in
  let '(skills_score, skills_explanation) :=
    calculate_skills_score (skills resume_data) (required_skills job_role) in
  let '(experience_score, experience_explanation) :=
    calculate_experience_score (experience_years resume_data)
                               (required_experience job_role) in
  let '(education_score, education_explanation) :=
    calculate_education_score (education resume_data) (job_title job_role) in
  let '(projects_score, projects_explanation) :=
    calculate_projects_score (projects resume_data) description in
  let* ws := getitem weights "semantic" in
  let* wk := getitem weights "skills" in
  let* we := getitem weights "experience" in
  let* wd := getitem weights "education" in
  let* wp := getitem weights "projects" in
  let overall_score :=
    PyNum.round2 (weighted_sum ws wk we wd wp semantic_score skills_score
                               experience_score education_score projects_score) in
  let is_shortlisted := geb overall_score 70 in
  let component {D} (s w : Q) (d : D) : Component D :=
    {| score := PyNum.round2 s; weight := w;
       contribution := PyNum.round2 (w * s); component_details := d |} in
  let explanation :=
    {| expl_overall_score := overall_score;
       breakdown :=
         {| semantic := component semantic_score ws
                          (PyNum.round2 (semantic_similarity * 100));
            skills_component := component skills_score wk skills_explanation;
            experience := component experience_score we experience_explanation;
            education_component := component education_score wd education_explanation;
            projects_component := component projects_score wp projects_explanation |};
       recommendations :=
         _generate_recommendations overall_score skills_explanation
                                   experience_explanation education_explanation;
       expl_is_shortlisted := is_shortlisted |} in
  ok {| overall_score := overall_score;
        semantic_score := PyNum.round2 semantic_score;
        skills_score := PyNum.round2 skills_score;
        experience_score := PyNum.round2 experience_score;
        education_score := PyNum.round2 education_score;
        projects_score := PyNum.round2 projects_score;
        explanation := explanation;
        is_shortlisted := is_shortlisted |}.

End Encoder.

End AIScorer.

(** ** Regular expressions, as the [re] module runs them

    A backtracking matcher: [run r caps s] lists, in the order the engine
    tries them, the ways [r] matches a prefix of [s]; each way is the
    captured groups and the rest of the input.  The first element is the
    match [re] reports. *)

Module Re.

Inductive regex : Type :=
| Eps
| Chr (p : ascii -> bool)
| Seq (r1 r2 : regex)
| Alt (r1 r2 : regex)
| Star (greedy : bool) (r : regex)
| Group (n : nat) (r : regex)
| Eol.

Definition captures : Type := list (nat * list ascii).
Definition state : Type := (captures * list ascii)%type.

Fixpoint star_loop (step : captures -> list ascii -> list state) (greedy : bool)
         (fuel : nat) (caps : captures) (s : list ascii) : list state :=
  match fuel with
  | O => [(caps, s)]
  | S fuel' =>
      let more :=
        List.flat_map
          (fun st : state =>
             if (List.length (snd st) <? List.length s)%nat
             then star_loop step greedy fuel' (fst st) (snd st)
             else [])
          (step caps s) in
      if greedy then more ++ [(caps, s)] else (caps, s) :: more
  end.

Definition newline : ascii := ascii_of_N 10.

Fixpoint run (r : regex) : captures -> list ascii -> list state :=
  fun caps s =>
  match r with
  | Eps => [(caps, s)]
  | Chr p =>
      match s with
      | c :: s' => if p c then [(caps, s')] else []
      | [] => []
      end
  | Seq r1 r2 =>
      List.flat_map (fun st : state => run r2 (fst st) (snd st)) (run r1 caps s)
  | Alt r1 r2 => (run r1 caps s ++ run r2 caps s)%list
  | Star greedy r1 => star_loop (run r1) greedy (List.length s) caps s
  | Group n r1 =>
      List.map
        (fun st : state =>
           ((n, firstn (List.length s - List.length (snd st)) s) :: fst st, snd st))
        (run r1 caps s)
  | Eol =>
      match s with
      | [] => [(caps, s)]
      | [c] => if Ascii.eqb c newline then [(caps, s)] else []
      | _ => []
      end
  end.

(** The match at the start of [s], if any. *)
Definition match_here (r : regex) (s : list ascii) : option state :=
  hd_error (run r [] s).

(** [re.search]: the first position with a match. *)
Fixpoint search (r : regex) (s : list ascii) : option state :=
  match match_here r s with
  | Some st => Some st
  | None =>
      match s with
      | [] => None
      | _ :: s' => search r s'
      end
  end.

(** [re.findall]: the matches from left to right, without overlap.  After a
    match that consumed nothing the scan moves one character on. *)
Fixpoint findall_from (fuel : nat) (r : regex) (s : list ascii) : list captures :=
  match fuel with
  | O => []
  | S fuel' =>
      let next :=
        match s with
        | [] => []
        | _ :: s' => findall_from fuel' r s'
        end in
      match match_here r s with
      | Some (caps, rest) =>
          caps :: (if (List.length rest <? List.length s)%nat
                   then findall_from fuel' r rest
                   else next)
      | None => next
      end
  end.

Definition findall (r : regex) (s : list ascii) : list captures :=
  findall_from (S (List.length s)) r s.

(** [m.group(n)] *)
Fixpoint group (n : nat) (caps : captures) : list ascii :=
  match caps with
  | [] => []
  | (k, v) :: rest => if (k =? n)%nat then v else group n rest
  end.

(** *** Building patterns *)

Definition opt (r : regex) : regex := Alt r Eps.
Definition plus (r : regex) : regex := Seq r (Star true r).
Definition plus_lazy (r : regex) : regex := Seq r (Star false r).

Fixpoint seqs (rs : list regex) : regex :=
  match rs with
  | [] => Eps
  | [r] => r
  | r :: rest => Seq r (seqs rest)
  end.

Fixpoint alts (rs : list regex) : regex :=
  match rs with
  | [] => Chr (fun _ => false)
  | [r] => r
  | r :: rest => Alt r (alts rest)
  end.

Fixpoint times (n : nat) (r : regex) : regex :=
  match n with
  | O => Eps
  | S n' => Seq r (times n' r)
  end.

Definition chr (c : ascii) : regex := Chr (Ascii.eqb c).

(** A literal character under [re.IGNORECASE]. *)
Definition chr_ci (c : ascii) : regex :=
  Chr (fun x => Ascii.eqb (PyStr.lower_char x) (PyStr.lower_char c)).

Definition lit (s : string) : regex := seqs (List.map chr (PyStr.chars s)).
Definition lit_ci (s : string) : regex := seqs (List.map chr_ci (PyStr.chars s)).

Definition digit : regex := Chr PyStr.is_digit.
Definition space : regex := Chr PyStr.is_space.
Definition word : regex := Chr PyStr.is_word.
Definition one_of (s : string) : regex :=
  Chr (fun x => existsb (Ascii.eqb x) (PyStr.chars s)).
(** [.] without and with [re.DOTALL]. *)
Definition dot : regex := Chr (fun x => negb (Ascii.eqb x newline)).
Definition dot_all : regex := Chr (fun _ => true).
(** [[A-Z]] under [re.IGNORECASE]: a letter of either case. *)
Definition letter_ci : regex := Chr (fun x => PyStr.is_upper x || PyStr.is_lower x).

End Re.

(** ** The parser *)

Module ResumeParser.

Import Re.

(** First pattern of [_extract_experience_years]: group 1 is one or more
    digits; then an optional plus sign, white space, "year", "years", "yr"
    or "yrs", white space, an optional "of" with white space, and
    "experience" or "exp". *)
Definition years_of_experience_pattern : regex :=
  seqs [ Group 1 (plus digit); opt (chr "+"); Star true space;
         Alt (Seq (lit "year") (opt (chr "s"))) (Seq (lit "yr") (opt (chr "s")));
         Star true space;
         opt (Seq (lit "of") (Star true space));
         Alt (lit "experience") (lit "exp") ].

(** Second pattern: "experience" or "exp", an optional colon or semicolon,
    white space, group 1 of one or more digits, an optional plus sign,
    white space, and "year", "years", "yr" or "yrs". *)
Definition experience_years_pattern : regex :=
  seqs [ Alt (lit "experience") (lit "exp"); opt (one_of ":;"); Star true space;
         Group 1 (plus digit); opt (chr "+"); Star true space;
         Alt (Seq (lit "year") (opt (chr "s"))) (Seq (lit "yr") (opt (chr "s"))) ].

Definition patterns : list regex :=
  [years_of_experience_pattern; experience_years_pattern].

(** The section pattern of [_extract_experience], under
    [re.IGNORECASE | re.DOTALL]: one of four headings, an optional colon or
    semicolon, white space, group 1 of one or more characters (as few as
    possible), and then three newlines, or a newline and three or more
    letters, or the end of the text. *)
Definition exp_pattern : regex :=
  seqs [ alts [ lit_ci "experience"; lit_ci "work experience"; lit_ci "employment";
                lit_ci "professional experience" ];
         opt (one_of ":;"); Star true space;
         Group 1 (plus_lazy dot_all);
         alts [ times 3 (chr newline);
                seqs [ chr newline; times 3 letter_ci; Star true letter_ci ];
                Eol ] ].

(** The job pattern, under [re.IGNORECASE]: group 1 of one or more
    characters of a line (as few as possible), a dash, group 2 of four
    digits or of a word and four digits, a dash, and "present", "current"
    or four digits, with optional white space around the dashes.  The en
    dash of the dash class is outside the 7-bit alphabet of this model,
    which leaves the hyphen. *)
Definition job_pattern : regex :=
  seqs [ Group 1 (plus_lazy dot); Star true space; chr "-"; Star true space;
         Group 2 (Alt (times 4 digit)
                      (seqs [ plus word; plus space; times 4 digit ]));
         Star true space; chr "-"; Star true space;
         alts [ lit_ci "present"; lit_ci "current"; times 4 digit ] ].

(** [int(s)] for a string of decimal digits. *)
Definition int_of_digits (l : list ascii) : Z :=
  fold_left (fun acc c => (acc * 10 + Z.of_N (PyStr.code c - 48))%Z) l 0%Z.

Definition _extract_experience (text : string) : list ExperienceEntry :=
  match search exp_pattern (PyStr.chars text) with
  | Some (caps, _) =>
      let exp_text := group 1 caps in
      let jobs := findall job_pattern exp_text in
      List.map
        (fun job =>
           {| exp_title := PyStr.strip (PyStr.of_chars (group 1 job));
              exp_duration := Some (PyStr.of_chars (group 2 job)) |})
        jobs
  | None => []
  end.

(** The loop over [patterns]: [years] after the patterns in [ps]. *)
Fixpoint scan_patterns (ps : list regex) (lowered : list ascii) (years : Z) : Z :=
  match ps with
  | [] => years
  | pattern :: rest =>
      let matches := findall pattern lowered in
      match matches with
      | first :: _ =>
          scan_patterns rest lowered (Z.max years (int_of_digits (group 1 first)))
      | [] => scan_patterns rest lowered years
      end
  end.

Definition _extract_experience_years (text : string) : Z :=
  let years := scan_patterns patterns (PyStr.chars (PyStr.lower text)) 0%Z in
  if (years =? 0)%Z
  then
    match _extract_experience text with
    | [] => years
    | exp_entries => Z.of_nat (List.length exp_entries)
    end
  else years.

(** *** parse *)

(** [p.rfind(c)], with -1 when [c] does not occur. *)
Fixpoint rfind_from (c : ascii) (l : list ascii) (i : Z) (last : Z) : Z :=
  match l with
  | [] => last
  | x :: l' => rfind_from c l' (i + 1)%Z (if Ascii.eqb x c then i else last)
  end.

Definition rfind (c : ascii) (l : list ascii) : Z := rfind_from c l 0%Z (-1)%Z.

(** The loop of [genericpath._splitext] that skips the leading dots of the
    file name: [n] positions from [filenameIndex] up to [dotIndex]. *)
Fixpoint skip_leading_dots (n : nat) (p : list ascii) (filenameIndex dotIndex : nat)
  : list ascii * list ascii :=
  match n with
  | O => (p, [])
  | S n' =>
      match nth_error p filenameIndex with
      | Some x =>
          if negb (Ascii.eqb x ".")
          then (firstn dotIndex p, skipn dotIndex p)
          else skip_leading_dots n' p (S filenameIndex) dotIndex
      | None => (p, [])
      end
  end.

(** [os.path.splitext], with the POSIX separator. *)
Definition splitext (path : string) : string * string :=
  let p := PyStr.chars path in
  let sepIndex := rfind "/" p in
  let dotIndex := rfind "." p in
  let '(root, ext) :=
    if (sepIndex <? dotIndex)%Z
    then skip_leading_dots (Z.to_nat (dotIndex - (sepIndex + 1))) p
                           (Z.to_nat (sepIndex + 1)) (Z.to_nat dotIndex)
    else (p, []) in
  (PyStr.of_chars root, PyStr.of_chars ext).

Definition file_ext_of (file_path : string) : string :=
  PyStr.lower (snd (splitext file_path)).

Section Extractors.

(** The two text extractors read the file through [pdfplumber] and
    [python-docx]; each catches every exception and returns the text it
    has, so each is a function from the path to a text. *)
Variable _extract_from_pdf : string -> string.
Variable _extract_from_docx : string -> string.

(** The field extractors the claims do not depend on. *)
Variable _extract_name : string -> option string.
Variable _extract_email : string -> option string.
Variable _extract_skills : string -> list string.
Variable _extract_education : string -> list EducationEntry.
Variable _extract_projects : string -> list ProjectEntry.
Variable _extract_certifications : string -> list string.

(** The dispatch on the extension, lines 41 to 48. *)
Definition extract_text (file_path : string) : result string :=
  let file_ext := file_ext_of file_path in
  if String.eqb file_ext ".pdf"
  then ok (_extract_from_pdf file_path)
  else if AIScorer.mem file_ext [".docx"; ".doc"]
  then ok (_extract_from_docx file_path)
  else raise (ValueError ("Unsupported file format: " ++ file_ext)).

Definition parse (file_path : string) : result ResumeData :=
  let* text := extract_text file_path in
  ok {| raw_text := text;
        candidate_name := _extract_name text;
        candidate_email := _extract_email text;
        skills := _extract_skills text;
        experience_years := _extract_experience_years text;
        experience_details := _extract_experience text;
        education := _extract_education text;
        projects := _extract_projects text;
        certifications := _extract_certifications text |}.

End Extractors.

End ResumeParser.

(** * The field extractors of [src/resume_parser.py] *)

Module ResumeFields.

Import Re.

(** [text.split('\n')] *)
Fixpoint split_lines (l : list ascii) : list (list ascii) :=
  match l with
  | [] => [[]]
  | c :: l' =>
      if Ascii.eqb c newline
      then [] :: split_lines l'
      else
        match split_lines l' with
        | first :: rest => (c :: first) :: rest
        | [] => [[c]]
        end
  end.

(** The end of a section, as the section patterns write it: three newlines,
    or a newline and three letters or more, or the end of the text. *)
Definition section_end : regex :=
  alts [ times 3 (chr newline);
         seqs [ chr newline; times 3 letter_ci; Star true letter_ci ];
         Eol ].

(** A section pattern under [re.IGNORECASE | re.DOTALL]: one of the
    headings, an optional colon or semicolon, white space, group 1 of one or
    more characters (as few as possible), and the end of the section. *)
Definition section_pattern (headings : regex) (ending : regex) : regex :=
  seqs [ headings; opt (one_of ":;"); Star true space;
         Group 1 (plus_lazy dot_all); ending ].

(** *** _extract_name *)

(** The pattern of a name: a capital, small letters, a space, a capital,
    small letters. *)
Definition name_pattern : regex :=
  seqs [ Chr PyStr.is_upper; plus (Chr PyStr.is_lower); chr " ";
         Chr PyStr.is_upper; plus (Chr PyStr.is_lower) ].

(** The loop over the first five lines. *)
Fixpoint first_name_line (lines : list (list ascii)) : option string :=
  match lines with
  | [] => None
  | line :: rest =>
      let line := PyStr.strip_chars line in
      if ((3 <? List.length line) && (List.length line <? 50))%nat
      then
        match match_here name_pattern line with
        | Some _ => Some (PyStr.of_chars line)
        | None => first_name_line rest
        end
      else first_name_line rest
  end.

Definition _extract_name (text : string) : option string :=
  first_name_line (firstn 5 (split_lines (PyStr.chars text))).

(** *** _extract_email *)

Definition email_local : regex :=
  Chr (fun c => PyStr.is_upper c || PyStr.is_lower c || PyStr.is_digit c
                || existsb (Ascii.eqb c) (PyStr.chars "._%+-")).

Definition email_domain : regex :=
  Chr (fun c => PyStr.is_upper c || PyStr.is_lower c || PyStr.is_digit c
                || existsb (Ascii.eqb c) (PyStr.chars ".-")).

(** The class of the last part, written with a bar between its two ranges,
    holds the letters and the bar. *)
Definition email_tld : regex :=
  Chr (fun c => PyStr.is_upper c || PyStr.is_lower c || Ascii.eqb c "|").

(** The pattern between its two word boundaries. *)
Definition email_body : regex :=
  seqs [ plus email_local; chr "@"; plus email_domain; chr ".";
         times 2 email_tld; Star true email_tld ].

Definition is_word_at (c : option ascii) : bool :=
  match c with
  | Some c => PyStr.is_word c
  | None => false
  end.

(** A word boundary lies between two places of which exactly one holds a
    word character; the two ends of the text hold none. *)
Definition word_boundary (before after : option ascii) : bool :=
  xorb (is_word_at before) (is_word_at after).

Definition last_char (l : list ascii) : option ascii :=
  match rev l with
  | c :: _ => Some c
  | [] => None
  end.

(** What a way of matching the body consumed of [s]. *)
Definition consumed (s : list ascii) (st : state) : list ascii :=
  firstn (List.length s - List.length (snd st)) s.

(** The match of the whole pattern at the start of [s], with [before] the
    character in front of it: the first way of matching the body that ends
    on a word boundary, provided the match starts on one. *)
Definition email_at (before : option ascii) (s : list ascii)
  : option (list ascii * list ascii) :=
  if word_boundary before (hd_error s)
  then
    match List.find (fun st => word_boundary (last_char (consumed s st))
                                           (hd_error (snd st)))
                    (run email_body [] s) with
    | Some st => Some (consumed s st, snd st)
    | None => None
    end
  else None.

(** [re.search] of the pattern. *)
Fixpoint email_search (before : option ascii) (s : list ascii)
  : option (list ascii * list ascii) :=
  match email_at before s with
  | Some m => Some m
  | None =>
      match s with
      | [] => None
      | c :: s' => email_search (Some c) s'
      end
  end.

(** [re.findall] of the pattern: the matches, from left to right. *)
Fixpoint email_findall (fuel : nat) (before : option ascii) (s : list ascii)
  : list (list ascii) :=
  match fuel with
  | O => []
  | S fuel' =>
      match email_at before s with
      | Some (m, rest) => m :: email_findall fuel' (last_char m) rest
      | None =>
          match s with
          | [] => []
          | c :: s' => email_findall fuel' (Some c) s'
          end
      end
  end.

Definition _extract_email (text : string) : option string :=
  match email_search None (PyStr.chars text) with
  | Some (m, _) => Some (PyStr.of_chars m)
  | None => None
  end.

(** *** _extract_skills *)

Definition skills_keywords : list string :=
  [ "python"; "java"; "javascript"; "react"; "node.js"; "sql"; "mongodb";
    "postgresql"; "aws"; "docker"; "kubernetes"; "git"; "machine learning";
    "deep learning"; "tensorflow"; "pytorch"; "scikit-learn"; "pandas";
    "numpy"; "flask"; "fastapi"; "django"; "html"; "css"; "typescript";
    "angular"; "vue"; "redis"; "elasticsearch"; "kafka"; "spark";
    "hadoop"; "tableau"; "power bi"; "azure"; "gcp"; "linux"; "bash" ].

(** The skills section ends at two newlines, at a newline and a letter, or
    at the end of the text. *)
Definition skills_section_pattern : regex :=
  section_pattern
    (alts [ lit_ci "skills"; lit_ci "technical skills"; lit_ci "technologies";
            lit_ci "tools"; lit_ci "expertise" ])
    (alts [ times 2 (chr newline); Seq (chr newline) letter_ci; Eol ]).

(** The second loop: a keyword that occurs in the text joins the list unless
    it is in the list already. *)
Definition add_found (text_lower : string) (found : list string) (skill : string)
  : list string :=
  if PyStr.contains skill text_lower && negb (AIScorer.mem skill found)
  then (found ++ [skill])%list
  else found.

(** The list [found_skills] after the two loops. *)
Definition found_skills (text : string) : list string :=
  let text_lower := PyStr.lower text in
  let in_section :=
    match search skills_section_pattern (PyStr.chars text_lower) with
    | Some (caps, _) =>
        let skills_text := group 1 caps in
        List.filter (fun skill => PyStr.contains_chars (PyStr.chars skill) skills_text)
                    skills_keywords
    | None => []
    end in
  fold_left (add_found text_lower) skills_keywords in_section.

(** [list(set(found_skills))]: the skills found, in an order of the set's
    own. *)
Definition _extract_skills (text : string) : list string :=
  elements (list_to_set (found_skills text) : gset string).

(** *** _extract_certifications *)

Definition certification_keywords : list string :=
  [ "certified"; "certification"; "aws"; "google"; "microsoft" ].

Definition cert_pattern : regex :=
  section_pattern
    (alts [ Seq (lit_ci "certification") (opt (chr_ci "s"));
            Seq (lit_ci "certificate") (opt (chr_ci "s"));
            Seq (lit_ci "credential") (opt (chr_ci "s")) ])
    section_end.

Definition is_certification (entry : list ascii) : bool :=
  (5 <? List.length entry)%nat
  && existsb (fun keyword =>
                PyStr.contains_chars (PyStr.chars keyword) (PyStr.lower_chars entry))
             certification_keywords.

Definition _extract_certifications (text : string) : list string :=
  match search cert_pattern (PyStr.chars text) with
  | Some (caps, _) =>
      let cert_text := group 1 caps in
      List.map PyStr.of_chars
        (List.filter is_certification
           (List.map PyStr.strip_chars (split_lines cert_text)))
  | None => []
  end.

(** *** _extract_education *)

Definition edu_pattern : regex :=
  section_pattern
    (alts [ lit_ci "education"; lit_ci "academic"; lit_ci "qualification" ])
    section_end.

(** The degree pattern under [re.IGNORECASE]: group 1 is one of the degree
    words, where a dot between the letters of b.tech, m.tech, b.e and m.e is
    optional; the rest of the line follows. *)
Definition degree_pattern : regex :=
  Seq (Group 1
         (alts [ lit_ci "bachelor"; lit_ci "master"; lit_ci "phd";
                 seqs [ chr_ci "b"; opt (chr "."); lit_ci "tech" ];
                 seqs [ chr_ci "m"; opt (chr "."); lit_ci "tech" ];
                 seqs [ chr_ci "b"; opt (chr "."); chr_ci "e" ];
                 seqs [ chr_ci "m"; opt (chr "."); chr_ci "e" ];
                 lit_ci "diploma" ]))
      (Star true dot).

Definition _extract_education (text : string) : list EducationEntry :=
  match search edu_pattern (PyStr.chars text) with
  | Some (caps, _) =>
      let edu_text := group 1 caps in
      let degrees := findall degree_pattern edu_text in
      List.map
        (fun degree =>
           {| edu_degree := PyStr.of_chars (PyStr.strip_chars (group 1 degree));
              edu_details := PyStr.of_chars (firstn 200 edu_text) |})
        degrees
  | None => []
  end.

(** *** _extract_projects *)

Definition proj_pattern : regex :=
  section_pattern
    (alts [ Seq (lit_ci "project") (opt (chr_ci "s")); lit_ci "project experience" ])
    section_end.

(** What must follow a newline for the text to be split there: a capital,
    or digits and a dot. *)
Definition entry_start : regex :=
  Alt (Chr PyStr.is_upper) (Seq (plus digit) (chr ".")).

(** [re.split] at every newline that an entry start follows. *)
Fixpoint split_entries (l : list ascii) : list (list ascii) :=
  match l with
  | [] => [[]]
  | c :: l' =>
      if Ascii.eqb c newline
         && match match_here entry_start l' with Some _ => true | None => false end
      then [] :: split_entries l'
      else
        match split_entries l' with
        | first :: rest => (c :: first) :: rest
        | [] => [[c]]
        end
  end.

Definition _extract_projects (text : string) : list ProjectEntry :=
  match search proj_pattern (PyStr.chars text) with
  | Some (caps, _) =>
      let proj_text := group 1 caps in
      let project_entries := split_entries proj_text in
      List.map
        (fun entry =>
           {| proj_title :=
                PyStr.of_chars (PyStr.strip_chars (hd [] (split_lines entry)));
              proj_description := PyStr.of_chars (firstn 300 entry) |})
        (List.filter (fun entry => (20 <? List.length (PyStr.strip_chars entry))%nat)
                     (firstn 5 project_entries))
  | None => []
  end.

(** *** parse

    [parse] with the field extractors of this module; the two readers of
    files stay parameters. *)

Section Files.

Variable _extract_from_pdf : string -> string.
Variable _extract_from_docx : string -> string.

Definition parse (file_path : string) : result ResumeData :=
  ResumeParser.parse _extract_from_pdf _extract_from_docx
    _extract_name _extract_email _extract_skills
    _extract_education _extract_projects _extract_certifications file_path.

End Files.

End ResumeFields.

(** * The second pipeline: [src/ATS_resume_analyzer/utils.py] *)

Module Utils.

(** [s.endswith(suffix)] *)
Definition ends_with (suffix s : string) : bool :=
  PyStr.starts_with (rev (PyStr.chars suffix)) (rev (PyStr.chars s)).

Definition upper_char (c : ascii) : ascii :=
  if PyStr.is_lower c then ascii_of_N (PyStr.code c - 32) else c.

Definition is_cased (c : ascii) : bool := PyStr.is_upper c || PyStr.is_lower c.

(** [s.title()]: a letter that follows a letter is lower-cased, any other
    letter is upper-cased; [prev_cased] tells whether the character before
    was a letter. *)
Fixpoint title_chars (prev_cased : bool) (l : list ascii) : list ascii :=
  match l with
  | [] => []
  | c :: l' =>
      (if prev_cased then PyStr.lower_char c else upper_char c)
        :: title_chars (is_cased c) l'
  end.

Definition title (s : string) : string :=
  PyStr.of_chars (title_chars false (PyStr.chars s)).

Section Readers.

(** The two readers open the file with [pdfplumber] and [python-docx]; each
    catches every exception and returns the empty text then. *)
Variable extract_text_from_pdf : string -> string.
Variable extract_text_from_docx : string -> string.

Definition extract_text_from_resume (file_path : string) : string :=
  if ends_with ".pdf" (PyStr.lower file_path)
  then extract_text_from_pdf file_path
  else if ends_with ".docx" (PyStr.lower file_path)
  then extract_text_from_docx file_path
  else "".

End Readers.

Section Embeddings.

Local Open Scope Q_scope.

(** [get_embedding] (the encoder with normalised embeddings) and [np.dot]. *)
Variable Embedding : Type.
Variable get_embedding : string -> Embedding.
Variable dot : Embedding -> Embedding -> Q.

Definition compute_semantic_score (resume_text job_description : string)
           (job_embedding_cache : option Embedding) : Q :=
  let job_embedding :=
    match job_embedding_cache with
    | Some cached => cached
    | None => get_embedding job_description
    end in
  let resume_embedding := get_embedding resume_text in
  let similarity := dot resume_embedding job_embedding in
  let score := (similarity + 1) * 50 in
  PyNum.round2 score.

(** [model] is the trained classifier, or [None] when no model file was
    found. *)
Definition predict_fit (embedding : Embedding) (model : option (Embedding -> Z)) : Z :=
  match model with
  | None => 1%Z
  | Some predict => predict embedding
  end.

End Embeddings.

Definition extract_email_from_text (text : string) : option string :=
  match ResumeFields.email_findall (S (String.length text)) None (PyStr.chars text) with
  | m :: _ => Some (PyStr.of_chars m)
  | [] => None
  end.

Definition tech_keywords : list string :=
  [ "python"; "java"; "javascript"; "sql"; "react"; "angular";
    "node.js"; "aws"; "docker"; "kubernetes"; "git"; "machine learning";
    "deep learning"; "data science"; "api"; "rest"; "graphql" ].

Definition extract_skills_missing (resume_text job_description : string)
           (common_skills : option (list string)) : list string :=
  match common_skills with
  | None =>
      let job_lower := PyStr.lower job_description in
      let resume_lower := PyStr.lower resume_text in
      let missing :=
        List.map title
          (List.filter
             (fun keyword =>
                PyStr.contains keyword job_lower
                && negb (PyStr.contains keyword resume_lower))
             tech_keywords) in
      firstn 5 missing
  | Some skills =>
      let resume_lower := PyStr.lower resume_text in
      List.filter (fun skill => negb (PyStr.contains (PyStr.lower skill) resume_lower))
                  skills
  end.

End Utils.

(** * The mail service: [src/email_service.py] *)

Module EmailService.

(** The fields [__init__] reads from the environment. *)
Record Config : Type := {
  smtp_server : string;
  smtp_port : Z;
  smtp_username : string;
  smtp_password : string;
  email_from : string
}.

(** What the exchange with the mail server comes to: the message is
    delivered at some time, or one of the handlers of [send_email] catches
    an exception, whose text it reports. *)
Inductive smtp_outcome : Type :=
| Delivered (sent_at : string)
| DnsFailed (error : string)
| AuthenticationFailed (error : string)
| SmtpFailed (error : string)
| OtherFailure (error : string).

(** The dictionary a send returns. A key that a dictionary does not carry
    is [None]; the key [email] carries the candidate's address, which can
    itself be [None]. *)
Record SendResult : Type := {
  res_status : string;
  res_message : string;
  res_error : option string;
  res_sent_at : option string;
  res_email : option (option string);
  res_candidate_name : option string
}.

Record Candidate : Type := {
  cand_email : option string;
  cand_name : option string;
  cand_score : option Q
}.

(** Truth value of a string that may be [None]. *)
Definition truthy_str (s : option string) : bool :=
  match s with
  | None => false
  | Some s => negb (String.eqb s "")
  end.

Section Network.

(** The state of the network and of the mail server, and one exchange with
    it: the DNS lookup, the connection, the login and the sending. *)
Variable Net : Type.
Variable smtp_exchange :
  Config -> Net -> string -> string -> string -> string -> smtp_outcome * Net.

(** The two bodies of the mail, templates filled with the name shown, the
    job title, the score and the company name. *)
Variable render_html : string -> string -> Q -> string -> string.
Variable render_text : string -> string -> Q -> string -> string.

Definition not_configured_message : string :=
  "Email configuration not set. Please configure SMTP_USERNAME and SMTP_PASSWORD in .env file.".

Definition failed_result (message error : string) : SendResult :=
  {| res_status := "failed"; res_message := message; res_error := Some error;
     res_sent_at := None; res_email := None; res_candidate_name := None |}.

Definition send_email (self : Config) (net : Net)
           (recipient_email subject body_html body_text : string) : SendResult * Net :=
  if String.eqb (smtp_username self) "" || String.eqb (smtp_password self) ""
  then ({| res_status := "error"; res_message := not_configured_message;
           res_error := None; res_sent_at := None; res_email := None;
           res_candidate_name := None |}, net)
  else
    let '(outcome, net') :=
      smtp_exchange self net recipient_email subject body_html body_text in
    (match outcome with
     | Delivered sent_at =>
         {| res_status := "sent";
            res_message := "Email sent successfully to " ++ recipient_email;
            res_error := None; res_sent_at := Some sent_at; res_email := None;
            res_candidate_name := None |}
     | DnsFailed error =>
         failed_result ("DNS resolution failed for " ++ smtp_server self ++
                        ". Check your internet connection. Error: " ++ error) error
     | AuthenticationFailed error =>
         failed_result ("SMTP Authentication failed. Check username and password. Error: "
                        ++ error) error
     | SmtpFailed error => failed_result ("SMTP Error: " ++ error) error
     | OtherFailure error => failed_result ("Failed to send email: " ++ error) error
     end, net').

Definition generate_shortlist_email (candidate_name job_title : string) (score : Q)
           (company_name : string) : string * string * string :=
  let subject := "Congratulations! You've been shortlisted for " ++ job_title in
  let shown := if String.eqb candidate_name "" then "Candidate" else candidate_name in
  (subject, render_html shown job_title score company_name,
   render_text shown job_title score company_name).

(** The loop of [send_bulk_emails]: the results for [candidates], in order,
    and the network after the last exchange. *)
Fixpoint send_bulk_emails (self : Config) (net : Net) (candidates : list Candidate)
         (job_title : string) : list SendResult * Net :=
  match candidates with
  | [] => ([], net)
  | candidate :: rest =>
      let email := cand_email candidate in
      let name := match cand_name candidate with Some n => n | None => "Candidate" end in
      let score := match cand_score candidate with Some s => s | None => 0%Q end in
      match email with
      | Some address =>
          if String.eqb address ""
          then
            let '(results, net') := send_bulk_emails self net rest job_title in
            ({| res_status := "skipped"; res_message := "No email address found";
                res_error := None; res_sent_at := None; res_email := Some email;
                res_candidate_name := None |} :: results, net')
          else
            let '(subject, html_body, text_body) :=
              generate_shortlist_email name job_title score "Our Company" in
            let '(result, net1) :=
              send_email self net address subject html_body text_body in
            let result' :=
              {| res_status := res_status result; res_message := res_message result;
                 res_error := res_error result; res_sent_at := res_sent_at result;
                 res_email := Some email; res_candidate_name := Some name |} in
            let '(results, net') := send_bulk_emails self net1 rest job_title in
            (result' :: results, net')
      | None =>
          let '(results, net') := send_bulk_emails self net rest job_title in
          ({| res_status := "skipped"; res_message := "No email address found";
              res_error := None; res_sent_at := None; res_email := Some email;
              res_candidate_name := None |} :: results, net')
      end
  end.

End Network.

End EmailService.

(** * Conversion of numpy values: [convert_numpy_types] of [src/ai_scorer.py] *)

Module PyObj.

(** A numpy scalar, and an array of them with one or more dimensions. *)
Inductive npscalar : Type :=
| NpInt (z : Z)
| NpFloat (q : Q)
| NpBoolean (b : bool).

#[warnings="-register-all"]
Inductive ndarray : Type :=
| NpItems (items : list npscalar)
| NpRows (rows : list ndarray).

(** The values the function can meet: the four numpy kinds it tests for,
    dictionaries with string keys, lists, and the values it returns as they
    are (among them tuples, whatever they hold). *)
#[warnings="-register-all"]
Inductive pyobj : Type :=
| NpInteger (z : Z)
| NpFloating (q : Q)
| NpBool (b : bool)
| NpArray (a : ndarray)
| PyDict (items : list (string * pyobj))
| PyList (items : list pyobj)
| PyTuple (items : list pyobj)
| PyInt (z : Z)
| PyFloat (q : Q)
| PyBoolean (b : bool)
| PyString (s : string)
| PyNone.

Definition item (s : npscalar) : pyobj :=
  match s with
  | NpInt z => PyInt z
  | NpFloat q => PyFloat q
  | NpBoolean b => PyBoolean b
  end.

(** [a.tolist()] *)
Fixpoint tolist (a : ndarray) : pyobj :=
  match a with
  | NpItems items => PyList (List.map item items)
  | NpRows rows => PyList (List.map tolist rows)
  end.

Fixpoint convert_numpy_types (obj : pyobj) : pyobj :=
  match obj with
  | NpInteger z => PyInt z
  | NpFloating q => PyFloat q
  | NpBool b => PyBoolean b
  | NpArray a => tolist a
  | PyDict items =>
      PyDict (List.map (fun kv => match kv with
                                  | (key, value) => (key, convert_numpy_types value)
                                  end) items)
  | PyList items => PyList (List.map convert_numpy_types items)
  | _ => obj
  end.

(** No numpy value anywhere, tuples included. *)
Fixpoint native (obj : pyobj) : bool :=
  match obj with
  | NpInteger _ | NpFloating _ | NpBool _ | NpArray _ => false
  | PyDict items => forallb (fun kv => native (snd kv)) items
  | PyList items => forallb native items
  | PyTuple items => forallb native items
  | _ => true
  end.

(** Every tuple, at any depth of dictionaries and lists, is free of numpy
    values. *)
Fixpoint tuples_native (obj : pyobj) : bool :=
  match obj with
  | PyDict items => forallb (fun kv => tuples_native (snd kv)) items
  | PyList items => forallb tuples_native items
  | PyTuple items => forallb native items
  | _ => true
  end.

End PyObj.

(** * The upload endpoints: [src/main.py]

    [analyze_resume] and [analyze_resumes_bulk] check the type of an uploaded
    file and build the path it is saved under in the same way, and hand that
    path to [ResumeParser.parse]. *)

Module Main.

Import ResumeParser.

Definition UPLOAD_DIR : string := "uploads/resumes".

(** [os.path.splitext(file.filename)[1].lower() in ['.pdf', '.docx', '.doc']] *)
Definition supported_file_type (filename : string) : bool :=
  AIScorer.mem (file_ext_of filename) [".pdf"; ".docx"; ".doc"].

(** The name the file is saved under; [token] is [uuid.uuid4().hex[:8]]. *)
Definition unique_filename (token filename : string) : string :=
  token ++ "_" ++ filename.

(** [str(UPLOAD_DIR / unique_filename)], for a file name that holds no
    separator. *)
Definition file_path (token filename : string) : string :=
  UPLOAD_DIR ++ "/" ++ unique_filename token filename.

End Main.

(** * Vocabulary of the statements and concrete inputs *)

Module Vocabulary.

Import AIScorer.
Local Open Scope Q_scope.

(** Some education entry names one of the levels. *)
Definition has_required_level (resume_education : list EducationEntry)
           (levels : list string) : Prop :=
  exists edu level,
    In edu resume_education /\ In level levels /\
    PyStr.contains level (edu_text edu) = true.

(** A list that does not start with white space. *)
Definition no_lead (l : list ascii) : Prop :=
  match l with
  | [] => True
  | c :: _ => PyStr.is_space c = false
  end.

(** The test of the inner loop of [calculate_skills_score], on two
    normalised skills. *)
Definition skill_matches (req_skill res_skill : string) : bool :=
  PyStr.contains req_skill res_skill || PyStr.contains res_skill req_skill.

(** A required skill counts as matched: some resume skill matches it, both
    normalised. *)
Definition is_matched (resume_skills : list string) (req_skill : string) : bool :=
  existsb (fun res_skill => skill_matches (normalize req_skill) (normalize res_skill))
          resume_skills.

Definition matched_count (resume_skills required_skills : list string) : nat :=
  List.length (List.filter (is_matched resume_skills) required_skills).

(** The keys [calculate_overall_score] reads, in the order it reads them. *)
Definition component_keys : list string :=
  ["semantic"; "skills"; "experience"; "education"; "projects"].

(** The first of these keys that a mapping lacks. *)
Definition first_missing (weights : gmap string Q) : option string :=
  List.find (fun key => match weights !! key with None => true | Some _ => false end)
            component_keys.

(** The numbers a pattern captures in a lower-cased text, one for each of
    its occurrences from left to right. *)
Definition years_found (pattern : Re.regex) (lowered : list ascii) : list Z :=
  List.map (fun caps => ResumeParser.int_of_digits (Re.group 1 caps))
           (Re.findall pattern lowered).

(** The numbers of all occurrences of the two patterns in a text. *)
Definition occurrences (text : string) : list Z :=
  (years_found ResumeParser.years_of_experience_pattern
               (PyStr.chars (PyStr.lower text)) ++
   years_found ResumeParser.experience_years_pattern
               (PyStr.chars (PyStr.lower text)))%list.

Definition max_of (l : list Z) : Z := fold_right Z.max 0%Z l.

End Vocabulary.

(** ** Concrete inputs *)

Module Examples.

Import AIScorer.
Local Open Scope Q_scope.

(** A sentence encoder into unit vectors of the plane; the cosine of two
    unit vectors is their dot product. *)
Definition Vec : Type := (Q * Q)%type.

Definition dot (u v : Vec) : Q := fst u * fst v + snd u * snd v.

Definition backend_description : string :=
  "Backend engineer: Python services, SQL and AWS".

Definition plane_encode (text : string) : Vec :=
  if String.eqb text backend_description then (1, 0)
  else if PyStr.contains "Knitting" text then (- (3 # 5), 4 # 5)
  else (4 # 5, 3 # 5).

Definition backend_role : JobRole :=
  {| job_title := "Backend Engineer";
     job_description := backend_description;
     required_skills := ["python"; "sql"; "aws"];
     required_experience := 10 |}.

(** The same role with no experience requirement. *)
Definition entry_role : JobRole :=
  {| job_title := "Backend Engineer";
     job_description := backend_description;
     required_skills := ["python"; "sql"; "aws"];
     required_experience := 0 |}.

Definition empty_resume (text : string) (years : Z) : ResumeData :=
  {| raw_text := text;
     candidate_name := None;
     candidate_email := None;
     skills := [];
     experience_years := years;
     experience_details := [];
     education := [];
     projects := [];
     certifications := [] |}.

(** A resume whose text is the job description itself. *)
Definition mirror_resume : ResumeData := empty_resume backend_description 0.

Definition seven_years_resume : ResumeData := empty_resume "Seven years of support work" 7.

Definition knitting_project : ProjectEntry :=
  {| proj_title := "Knitting pattern blog";
     proj_description := "Hand-made scarves and weekly patterns" |}.

Definition knitting_resume : ResumeData :=
  {| raw_text := "Seven years of support work";
     candidate_name := None;
     candidate_email := None;
     skills := ["python"];
     experience_years := 7;
     experience_details := [];
     education := [];
     projects := [knitting_project];
     certifications := [] |}.

Definition make_weights (ws wk we wd wp : Q) : gmap string Q :=
  <["semantic" := ws]> (
  <["skills" := wk]> (
  <["experience" := we]> (
  <["education" := wd]> (
  <["projects" := wp]> ∅)))).

(** Weights that sum to 1 with a negative entry. *)
Definition skewed_weights : gmap string Q := make_weights 2 (- (1)) 0 0 0.

Definition experience_only_weights : gmap string Q := make_weights 0 0 1 0 0.

Definition negative_projects_weights : gmap string Q :=
  make_weights (5 # 10) (4 # 10) (2 # 10) (1 # 10) (- (2 # 10)).

(** A mapping without the key "projects". *)
Definition four_weights : gmap string Q :=
  <["semantic" := 4 # 10]> (
  <["skills" := 3 # 10]> (
  <["experience" := 2 # 10]> (
  <["education" := 1 # 10]> ∅))).

(** Two mentions of years: the first is the smaller. *)
Definition two_mentions : string :=
  "2 years of experience in sales and 10 years of experience in support".

(** No mention of years; two jobs under the heading. *)
Definition two_jobs : string :=
  "Experience: Engineer - 2019 - 2021, Analyst - 2017 - 2019".

(** A legacy Word document is not a DOCX package: the DOCX extractor fails
    to open it, reports the error and returns the empty text. *)
Definition docx_of_legacy_doc (file_path : string) : string := "".

Definition pdf_unread (file_path : string) : string := "".

End Examples.

(** ** Further vocabulary of the statements *)

Module MoreVocabulary.

(** A resume with another number of years and everything else unchanged. *)
Definition with_years (resume_data : ResumeData) (years : Z) : ResumeData :=
  {| raw_text := raw_text resume_data;
     candidate_name := candidate_name resume_data;
     candidate_email := candidate_email resume_data;
     skills := skills resume_data;
     experience_years := years;
     experience_details := experience_details resume_data;
     education := education resume_data;
     projects := projects resume_data;
     certifications := certifications resume_data |}.

End MoreVocabulary.

(** ** Further concrete inputs *)

Module MoreExamples.

Import AIScorer.
Local Open Scope Q_scope.

(** An encoder with two embeddings: whether the text mentions Python. Two
    texts on the same side have the cosine 1, two on different sides 1/4. *)
Definition mentions_python (text : string) : bool :=
  PyStr.contains "python" (PyStr.lower text).

Definition agreement (a b : bool) : Q := if Bool.eqb a b then 1 else 1 # 4.

Definition python_role : JobRole :=
  {| job_title := "Python Developer";
     job_description := "Python developer for data pipelines";
     required_skills := ["python"; "sql"];
     required_experience := 2 |}.

Definition etl_project : ProjectEntry :=
  {| proj_title := "ETL pipeline";
     proj_description := "Nightly batch jobs written in Python" |}.

Definition garden_project : ProjectEntry :=
  {| proj_title := "Community garden";
     proj_description := "Planning beds and a watering rota" |}.

(** A project with fewer than ten characters of text. *)
Definition short_project : ProjectEntry :=
  {| proj_title := "App"; proj_description := "demo" |}.

Definition python_resume : ResumeData :=
  {| raw_text := "Python and SQL developer, 3 years of experience";
     candidate_name := None;
     candidate_email := None;
     skills := ["python"; "sql"];
     experience_years := 3;
     experience_details := [];
     education := [ {| edu_degree := "Bachelor"; edu_details := "Bachelor of Science" |} ];
     projects := [etl_project; garden_project; short_project];
     certifications := [] |}.

End MoreExamples.

(** ** Vocabulary and inputs for the mail service *)

Module MailVocabulary.

Import EmailService.

(** How a candidate and the result for it are related. *)
Definition answers (c : Candidate) (r : SendResult) : Prop :=
  res_email r = Some (cand_email c) /\
  (truthy_str (cand_email c) = false ->
   res_status r = "skipped" /\ res_candidate_name r = None /\
   res_sent_at r = None /\ res_error r = None) /\
  (truthy_str (cand_email c) = true ->
   res_candidate_name r
     = Some (match cand_name c with Some n => n | None => "Candidate" end) /\
   ((res_status r = "error" /\ res_sent_at r = None /\ res_error r = None) \/
    (res_status r = "failed" /\ res_sent_at r = None /\ res_error r <> None) \/
    (res_status r = "sent" /\ res_sent_at r <> None /\ res_error r = None))).

(** A network that counts the exchanges and delivers every message. *)
Definition counting_exchange (self : Config) (exchanges : nat)
           (recipient subject html text : string) : smtp_outcome * nat :=
  (Delivered "2024-01-01T00:00:00", S exchanges).

Definition plain_body (shown job_title : string) (score : Q) (company : string) : string :=
  "Dear " ++ shown ++ ", you are shortlisted for " ++ job_title.

Definition online_config : Config :=
  {| smtp_server := "smtp.example.org"; smtp_port := 587;
     smtp_username := "hr@example.org"; smtp_password := "secret";
     email_from := "hr@example.org" |}.

(** The same account with an empty password. *)
Definition offline_config : Config :=
  {| smtp_server := "smtp.example.org"; smtp_port := 587;
     smtp_username := "hr@example.org"; smtp_password := "";
     email_from := "hr@example.org" |}.

Definition three_candidates : list Candidate :=
  [ {| cand_email := Some "ada@example.org"; cand_name := Some "Ada";
       cand_score := Some (82 # 1) |};
    {| cand_email := None; cand_name := Some "Bob"; cand_score := Some (75 # 1) |};
    {| cand_email := Some "cy@example.org"; cand_name := None;
       cand_score := Some (71 # 1) |} ].

End MailVocabulary.

(** ** Vocabulary for the field extractors *)

Module FieldVocabulary.

Import Re.

(** A part of a text: some characters in front of it, some behind. *)
Definition part_of (v s : list ascii) : Prop :=
  exists a b, s = (a ++ v ++ b)%list.

(** What a run keeps: the rest is an end of the input, and a group it
    captured is a part of the input. *)
Definition run_ok (caps : captures) (s : list ascii) (st : state) : Prop :=
  (exists w, s = (w ++ snd st)%list) /\
  forall n v, In (n, v) (fst st) -> In (n, v) caps \/ part_of v s.

End FieldVocabulary.

(** ** Vocabulary of the upload endpoints *)

Module UploadVocabulary.

(** A digit of [uuid4().hex]. *)
Definition is_hex_digit (c : ascii) : bool :=
  PyStr.is_digit c || ((97 <=? PyStr.code c) && (PyStr.code c <=? 102))%N.

Definition hex_token (token : string) : Prop :=
  forallb is_hex_digit (PyStr.chars token) = true.

(** A file name without a directory in front. *)
Definition plain_name (filename : string) : Prop :=
  ~ In "/"%char (PyStr.chars filename).

End UploadVocabulary.

(** ** A resume file *)

Module FileExamples.

Definition resume_text : string :=
  PyStr.join (String Re.newline EmptyString)
    [ "Asha Verma"; "asha.verma@example.org"; "5 years of experience";
      "Skills: python, sql"; "";
      "Education"; "Bachelor of Science in Physics"; "";
      "";
      "Projects"; "1. Billing pipeline in python with nightly loads"; "";
      "";
      "Certifications"; "AWS Certified Developer" ].

Definition read_file (file_path : string) : string := resume_text.

End FileExamples.

(** * Properties *)

Import Vocabulary.

(** ** The model on small inputs *)

Example lower_example : PyStr.lower "Data Scientist" = "data scientist".
Proof. reflexivity. Qed.

Example strip_example : PyStr.strip "  power bi " = "power bi".
Proof. reflexivity. Qed.

Example contains_example : PyStr.contains "java" "javascript" = true.
Proof. reflexivity. Qed.

Example round2_down : (PyNum.round2 (66666 # 1000) == 6667 # 100)%Q.
Proof. reflexivity. Qed.

Example round2_tie_even : (PyNum.round2 (125 # 1000) == 12 # 100)%Q.
Proof. reflexivity. Qed.

Example round2_neg : (PyNum.round2 (- (12347 # 1000)) == - (1235 # 100))%Q.
Proof. reflexivity. Qed.


Section ExperienceScore.

Import AIScorer.
Local Open Scope Q_scope.

Lemma of_int_pos (z : Z) : (0 < z)%Z -> 0 < PyNum.of_int z.
Proof.
  intros H. unfold PyNum.of_int. replace 0 with (inject_Z 0) by reflexivity.
  rewrite <- Zlt_Qlt. exact H.
Qed.

Lemma ratio_monotone (a b d : Z) :
  (0 < d)%Z -> (a <= b)%Z ->
  PyNum.of_int a / PyNum.of_int d * 100 <= PyNum.of_int b / PyNum.of_int d * 100.
Proof.
  intros Hd Hab.
  apply Qmult_le_compat_r; [| discriminate].
  unfold Qdiv. apply Qmult_le_compat_r.
  - unfold PyNum.of_int. rewrite <- Zle_Qle. exact Hab.
  - apply Qlt_le_weak, Qinv_lt_0_compat, of_int_pos, Hd.
Qed.

Lemma experience_score_le_100 (resume_years required_years : Z) :
  fst (calculate_experience_score resume_years required_years) <= 100.
Proof.
  unfold calculate_experience_score.
  destruct (required_years =? 0)%Z; simpl; [apply Qle_refl |].
  destruct (resume_years >=? required_years)%Z; [apply Qle_refl |].
  apply Q.le_min_l.
Qed.

(** C5. For non-negative candidate and required years: a requirement of 0
    gives 100 whatever the candidate has; otherwise a candidate with at
    least the required years gets 100, and one with fewer gets
    min(100, candidate / required * 100); and more candidate years for the
    same requirement never give a lower score. *)
Theorem experience_score_spec (resume_years required_years : Z) :
  (0 <= resume_years)%Z -> (0 <= required_years)%Z ->
  let score := fst (calculate_experience_score resume_years required_years) in
  (required_years = 0%Z -> score == 100) /\
  (required_years <> 0%Z -> (required_years <= resume_years)%Z -> score == 100) /\
  (required_years <> 0%Z -> (resume_years < required_years)%Z ->
   score == Qmin 100 (PyNum.of_int resume_years / PyNum.of_int required_years * 100)) /\
  (forall more_years : Z, (resume_years <= more_years)%Z ->
     score <= fst (calculate_experience_score more_years required_years)).
Proof.
  intros Hres Hreq score. subst score. unfold calculate_experience_score.
  repeat split.
  - intros ->. reflexivity.
  - intros Hne Hge.
    destruct (Z.eqb_spec required_years 0) as [E | _]; [contradiction |].
    destruct (Z.geb_spec resume_years required_years) as [_ | Hlt]; [reflexivity | lia].
  - intros Hne Hlt.
    destruct (Z.eqb_spec required_years 0) as [E | _]; [contradiction |].
    destruct (Z.geb_spec resume_years required_years) as [Hge | _]; [lia | reflexivity].
  - intros more Hmore.
    destruct (Z.eqb_spec required_years 0) as [E | Hne]; [apply Qle_refl |].
    simpl.
    destruct (Z.geb_spec resume_years required_years) as [Hge | Hlt].
    + destruct (Z.geb_spec more required_years) as [_ | Hlt']; [apply Qle_refl | lia].
    + destruct (Z.geb_spec more required_years) as [_ | Hlt'].
      * apply Q.le_min_l.
      * apply Q.min_le_compat_l. apply ratio_monotone; lia.
Qed.

Lemma experience_score_spec_witness :
  let score := fst (calculate_experience_score 3 10) in
  (10%Z = 0%Z -> score == 100) /\
  (10%Z <> 0%Z -> (10 <= 3)%Z -> score == 100) /\
  (10%Z <> 0%Z -> (3 < 10)%Z ->
   score == Qmin 100 (PyNum.of_int 3 / PyNum.of_int 10 * 100)) /\
  (forall more_years : Z, (3 <= more_years)%Z ->
     score <= fst (calculate_experience_score more_years 10)).
Proof. apply (experience_score_spec 3 10); lia. Defined.

Example experience_partial_credit :
  fst (calculate_experience_score 3 10) == 30.
Proof. reflexivity. Qed.

Example experience_no_requirement :
  fst (calculate_experience_score 0 0) == 100.
Proof. reflexivity. Qed.

End ExperienceScore.

Section EducationScore.

Import AIScorer.
Local Open Scope Q_scope.

Lemma found_levels_spec (resume_education : list EducationEntry) (levels : list string) :
  found_levels_of resume_education levels <> [] <->
  has_required_level resume_education levels.
Proof.
  unfold found_levels_of, has_required_level. split.
  - intros Hne.
    destruct (flat_map _ resume_education) as [| level rest] eqn:E; [congruence |].
    assert (Hin : In level (level :: rest)) by (left; reflexivity).
    rewrite <- E in Hin. apply in_flat_map in Hin as (edu & Hedu & Hlevel).
    apply filter_In in Hlevel as [Hl Hc]. exists edu, level. auto.
  - intros (edu & level & Hedu & Hl & Hc) E.
    assert (Hin : In level (flat_map
      (fun edu => List.filter (fun level => PyStr.contains level (edu_text edu)) levels)
      resume_education)).
    { apply in_flat_map. exists edu. split; [exact Hedu |]. apply filter_In. auto. }
    rewrite E in Hin. destruct Hin.
Qed.

(** C6. The education score is 30 for an empty list of entries, 100 when
    some entry's text (degree and details, lower-cased) contains one of the
    levels required for the title, and 60 when there are entries and none
    does; the title "Data Scientist" takes its levels from the key
    "scientist". *)
Theorem education_score_spec (resume_education : list EducationEntry) (job_role : string) :
  let score := fst (calculate_education_score resume_education job_role) in
  let levels := required_levels_of job_role in
  (resume_education = [] -> score == 30) /\
  (has_required_level resume_education levels -> score == 100) /\
  (resume_education <> [] -> ~ has_required_level resume_education levels ->
   score == 60) /\
  required_levels_of "Data Scientist" = ["master"; "m.tech"; "phd"; "ph.d"].
Proof.
  intros score levels. subst score levels.
  split; [| split; [| split]].
  - intros ->. reflexivity.
  - intros Hhas.
    destruct resume_education as [| e es].
    + destruct Hhas as (edu & _ & [] & _).
    + apply found_levels_spec in Hhas. unfold calculate_education_score.
      destruct (found_levels_of (e :: es) (required_levels_of job_role));
        [congruence | reflexivity].
  - intros Hne Hnone.
    destruct resume_education as [| e es]; [congruence |].
    unfold calculate_education_score.
    destruct (found_levels_of (e :: es) (required_levels_of job_role)) eqn:E;
      [reflexivity |].
    exfalso. apply Hnone, found_levels_spec. rewrite E. discriminate.
  - reflexivity.
Qed.

Lemma education_score_spec_witness :
  let resume_education :=
    [ {| edu_degree := "M.Tech Computer Science"; edu_details := "IIT 2019" |} ] in
  let score := fst (calculate_education_score resume_education "Data Scientist") in
  has_required_level resume_education (required_levels_of "Data Scientist") /\
  score == 100.
Proof.
  intros resume_education score.
  assert (Hhas : has_required_level resume_education (required_levels_of "Data Scientist")).
  { exists {| edu_degree := "M.Tech Computer Science"; edu_details := "IIT 2019" |}, "m.tech".
    repeat split; [left; reflexivity | right; left; reflexivity]. }
  split; [exact Hhas |].
  exact (proj1 (proj2 (education_score_spec resume_education "Data Scientist")) Hhas).
Defined.

Example education_no_entries :
  fst (calculate_education_score [] "Data Scientist") == 30.
Proof. reflexivity. Qed.

Example education_level_not_matched :
  fst (calculate_education_score
         [ {| edu_degree := "Bachelor of Arts"; edu_details := "" |} ]
         "Data Scientist") == 60.
Proof. reflexivity. Qed.

End EducationScore.

Section Rounding.

Local Open Scope Q_scope.

Lemma round_half_even_floor (q : Q) :
  PyNum.round_half_even q = Qfloor q \/ PyNum.round_half_even q = (Qfloor q + 1)%Z.
Proof.
  unfold PyNum.round_half_even.
  destruct (Qcompare _ _); [destruct (Z.even _) | |]; auto.
Qed.

Lemma round_half_even_lower (q : Q) (a : Z) :
  inject_Z a <= q -> (a <= PyNum.round_half_even q)%Z.
Proof.
  intros H. apply Qfloor_resp_le in H. rewrite Qfloor_Z in H.
  destruct (round_half_even_floor q) as [-> | ->]; lia.
Qed.

Lemma round_half_even_upper (q : Q) (b : Z) :
  q <= inject_Z b -> (PyNum.round_half_even q <= b)%Z.
Proof.
  intros H.
  assert (Hf : (Qfloor q <= b)%Z).
  { apply Qfloor_resp_le in H. rewrite Qfloor_Z in H. exact H. }
  destruct (Z.eq_dec (Qfloor q) b) as [E | Hne].
  - unfold PyNum.round_half_even.
    assert (Hlt : q - inject_Z (Qfloor q) < 1 # 2).
    { rewrite E. apply Qle_lt_trans with 0; [| reflexivity].
      apply (Qplus_le_l _ _ (inject_Z b)). ring_simplify. exact H. }
    destruct (Qcompare_spec (q - inject_Z (Qfloor q)) (1 # 2)) as [He | _ | Hg];
      [lra | lia | lra].
  - destruct (round_half_even_floor q) as [-> | ->]; lia.
Qed.

Lemma round2_bounds (x : Q) (a b : Z) :
  inject_Z a <= x * 100 -> x * 100 <= inject_Z b ->
  inject_Z a / 100 <= PyNum.round2 x /\ PyNum.round2 x <= inject_Z b / 100.
Proof.
  intros Ha Hb. unfold PyNum.round2, Qdiv.
  split; (apply Qmult_le_compat_r; [| discriminate]); rewrite <- Zle_Qle.
  - apply round_half_even_lower, Ha.
  - apply round_half_even_upper, Hb.
Qed.

Lemma round2_percent (x : Q) :
  0 <= x <= 100 -> 0 <= PyNum.round2 x <= 100.
Proof.
  intros [H0 H100].
  destruct (round2_bounds x 0 10000) as [Hl Hu].
  - change (inject_Z 0) with 0. apply Qmult_le_0_compat; [exact H0 | discriminate].
  - change (inject_Z 10000) with (100 * 100).
    apply Qmult_le_compat_r; [exact H100 | discriminate].
  - split.
    + apply Qle_trans with (inject_Z 0 / 100); [discriminate | exact Hl].
    + apply Qle_trans with (inject_Z 10000 / 100); [exact Hu | discriminate].
Qed.

End Rounding.

(** ** Substrings, lower-casing and stripping *)

Section Strings.

Import PyStr.

Lemma chars_of_chars (l : list ascii) : chars (of_chars l) = l.
Proof. apply list_ascii_of_string_of_list_ascii. Qed.

Lemma starts_with_spec (p l : list ascii) :
  starts_with p l = true <-> exists b, l = (p ++ b)%list.
Proof.
  revert l. induction p as [| a p IH]; intros l; simpl.
  - split; [intros _; exists l; reflexivity | reflexivity].
  - destruct l as [| x l]; simpl.
    + split; [discriminate | intros [b Hb]; discriminate].
    + rewrite andb_true_iff, IH. split.
      * intros [Hax [b ->]]. apply Ascii.eqb_eq in Hax. subst. exists b. reflexivity.
      * intros [b Hb]. injection Hb as -> ->. split; [apply Ascii.eqb_refl | eauto].
Qed.

Lemma contains_chars_spec (p l : list ascii) :
  contains_chars p l = true <-> exists a b, l = (a ++ p ++ b)%list.
Proof.
  induction l as [| x l IH]; simpl.
  - rewrite orb_false_r, starts_with_spec. split.
    + intros [b Hb]. exists [], b. exact Hb.
    + intros [a [b Hab]]. destruct a; [exists b; exact Hab | discriminate].
  - rewrite orb_true_iff, starts_with_spec, IH. split.
    + intros [[b Hb] | [a [b Hab]]].
      * exists [], b. exact Hb.
      * exists (x :: a), b. simpl. rewrite Hab. reflexivity.
    + intros [a [b Hab]]. destruct a as [| y a].
      * left. exists b. exact Hab.
      * right. injection Hab as _ Hab. exists a, b. exact Hab.
Qed.

Lemma contains_chars_nil (l : list ascii) : contains_chars [] l = true.
Proof. destruct l; reflexivity. Qed.

Lemma contains_chars_refl (l : list ascii) : contains_chars l l = true.
Proof. apply contains_chars_spec. exists [], []. simpl. rewrite app_nil_r. reflexivity. Qed.

Lemma lower_char_idempotent (c : ascii) : lower_char (lower_char c) = lower_char c.
Proof. destruct c as [[] [] [] [] [] [] [] []]; reflexivity. Qed.

Lemma lower_chars_idempotent (l : list ascii) : lower_chars (lower_chars l) = lower_chars l.
Proof.
  unfold lower_chars. rewrite List.map_map. apply List.map_ext.
  intros c. apply lower_char_idempotent.
Qed.

Lemma contains_chars_lower (p l : list ascii) :
  contains_chars p l = true -> contains_chars (lower_chars p) (lower_chars l) = true.
Proof.
  rewrite !contains_chars_spec. intros [a [b ->]].
  exists (lower_chars a), (lower_chars b). unfold lower_chars.
  rewrite !List.map_app. reflexivity.
Qed.

Lemma lstrip_no_lead (l : list ascii) : no_lead (lstrip_chars l).
Proof.
  induction l as [| c l IH]; simpl; [exact I |].
  destruct (is_space c) eqn:E; [exact IH | exact E].
Qed.

Lemma lstrip_fixed (l : list ascii) : no_lead l -> lstrip_chars l = l.
Proof. destruct l as [| c l]; simpl; [reflexivity | intros ->; reflexivity]. Qed.

Lemma lstrip_app (x core : list ascii) :
  no_lead core -> lstrip_chars (x ++ core) = (lstrip_chars x ++ core)%list.
Proof.
  intros Hcore. induction x as [| c x IH]; simpl.
  - apply lstrip_fixed, Hcore.
  - destruct (is_space c); [exact IH | reflexivity].
Qed.

Lemma lstrip_suffix (l : list ascii) : exists w, l = (w ++ lstrip_chars l)%list.
Proof.
  induction l as [| c l [w IH]]; simpl.
  - exists []. reflexivity.
  - destruct (is_space c).
    + exists (c :: w). simpl. rewrite <- IH. reflexivity.
    + exists []. reflexivity.
Qed.

Lemma rstrip_prefix (l : list ascii) : exists w, l = (rstrip_chars l ++ w)%list.
Proof.
  unfold rstrip_chars. destruct (lstrip_suffix (rev l)) as [w Hw].
  exists (rev w). rewrite <- rev_app_distr, <- Hw, rev_involutive. reflexivity.
Qed.

Lemma rstrip_app (core y : list ascii) :
  no_lead (rev core) -> exists z, rstrip_chars (core ++ y) = (core ++ z)%list.
Proof.
  intros Hcore. unfold rstrip_chars.
  rewrite rev_app_distr, (lstrip_app _ _ Hcore), rev_app_distr, rev_involutive.
  eexists. reflexivity.
Qed.

Lemma no_lead_app (x y : list ascii) : x <> [] -> no_lead x -> no_lead (x ++ y).
Proof. destruct x; [congruence | intros _ H; exact H]. Qed.

Lemma strip_no_trail (l : list ascii) : no_lead (rev (strip_chars l)).
Proof.
  unfold strip_chars, rstrip_chars. rewrite rev_involutive. apply lstrip_no_lead.
Qed.

Lemma strip_no_lead (l : list ascii) : no_lead (strip_chars l).
Proof.
  unfold strip_chars.
  destruct (rstrip_prefix (lstrip_chars l)) as [w Hw].
  pose proof (lstrip_no_lead l) as Hl. rewrite Hw in Hl.
  destruct (rstrip_chars (lstrip_chars l)); [exact I | exact Hl].
Qed.

Lemma strip_middle (l : list ascii) :
  exists w1 w2, l = (w1 ++ strip_chars l ++ w2)%list.
Proof.
  destruct (lstrip_suffix l) as [w1 H1].
  destruct (rstrip_prefix (lstrip_chars l)) as [w2 H2].
  exists w1, w2. unfold strip_chars. rewrite <- H2. exact H1.
Qed.

(** Stripping both sides keeps a substring a substring. *)
Lemma contains_chars_strip (p l : list ascii) :
  contains_chars p l = true ->
  contains_chars (strip_chars p) (strip_chars l) = true.
Proof.
  intros H. apply contains_chars_spec in H as [a [b ->]].
  destruct (strip_chars p) as [| c core] eqn:Ecore.
  { apply contains_chars_nil. }
  destruct (strip_middle p) as [w1 [w2 Hp]]. rewrite Ecore in Hp.
  pose proof (strip_no_lead p) as Hlead. pose proof (strip_no_trail p) as Htrail.
  rewrite Ecore in Hlead, Htrail.
  set (k := c :: core) in *.
  assert (Hk : k <> []) by (subst k; discriminate).
  replace (a ++ p ++ b)%list with ((a ++ w1) ++ (k ++ (w2 ++ b)))%list
    by (rewrite Hp, <- !app_assoc; reflexivity).
  unfold strip_chars.
  rewrite lstrip_app by (apply no_lead_app; assumption).
  rewrite app_assoc.
  assert (Hrev : no_lead (rev (lstrip_chars (a ++ w1) ++ k))).
  { rewrite rev_app_distr. apply no_lead_app; [| exact Htrail].
    intros E. apply Hk. apply (f_equal (@rev ascii)) in E.
    rewrite rev_involutive in E. exact E. }
  destruct (rstrip_app _ (w2 ++ b) Hrev) as [z ->].
  apply contains_chars_spec. exists (lstrip_chars (a ++ w1)), z.
  rewrite <- app_assoc. reflexivity.
Qed.

End Strings.

Section SkillsScore.

Import AIScorer.
Local Open Scope Q_scope.

Lemma skill_found_existsb (req_skill : string) (rs : list string) :
  skill_found req_skill rs = existsb (skill_matches req_skill) rs.
Proof.
  induction rs as [| res rs IH]; simpl; [reflexivity |].
  unfold skill_matches at 1. rewrite IH.
  destruct (PyStr.contains req_skill res || PyStr.contains res req_skill); reflexivity.
Qed.

Lemma match_skills_filter (rs rq : list string) :
  match_skills rs rq =
  (List.filter (fun r => skill_found r rs) rq,
   List.filter (fun r => negb (skill_found r rs)) rq).
Proof.
  induction rq as [| r rq IH]; simpl; [reflexivity |].
  rewrite IH. destruct (skill_found r rs); reflexivity.
Qed.

Lemma skill_found_normalized (resume_skills : list string) (req : string) :
  skill_found (normalize req) (List.map normalize resume_skills) =
  is_matched resume_skills req.
Proof.
  rewrite skill_found_existsb. unfold is_matched.
  induction resume_skills as [| res rest IH]; simpl; [reflexivity |].
  rewrite IH. reflexivity.
Qed.

Lemma filter_map_normalize (resume_skills required_skills : list string) :
  List.filter (fun r => skill_found r (List.map normalize resume_skills))
              (List.map normalize required_skills) =
  List.map normalize (List.filter (is_matched resume_skills) required_skills).
Proof.
  induction required_skills as [| r rq IH]; simpl; [reflexivity |].
  rewrite skill_found_normalized, IH.
  destruct (is_matched resume_skills r); reflexivity.
Qed.

(** The score and the list [matched] of a call with required skills. *)
Lemma skills_score_nonempty (resume_skills required_skills : list string) :
  required_skills <> [] ->
  fst (calculate_skills_score resume_skills required_skills) =
    PyNum.of_len (matched_count resume_skills required_skills)
    / PyNum.of_len (List.length required_skills) * 100 /\
  matched (snd (calculate_skills_score resume_skills required_skills)) =
    List.map normalize (List.filter (is_matched resume_skills) required_skills).
Proof.
  intros Hne. destruct required_skills as [| r rq]; [congruence |].
  unfold calculate_skills_score.
  rewrite match_skills_filter, filter_map_normalize.
  unfold matched_count. cbn [List.map fst snd matched List.length].
  rewrite !length_map. split; reflexivity.
Qed.

Lemma normalize_chars (s : string) :
  PyStr.chars (normalize s) = PyStr.strip_chars (PyStr.lower_chars (PyStr.chars s)).
Proof.
  unfold normalize, PyStr.strip, PyStr.lower. rewrite !chars_of_chars. reflexivity.
Qed.

(** A lower-cased required skill that is a substring of a resume skill as
    written still is one after both are normalised. *)
Lemma normalize_contains (req res : string) :
  PyStr.contains (PyStr.lower req) res = true ->
  PyStr.contains (normalize req) (normalize res) = true.
Proof.
  unfold PyStr.contains. rewrite !normalize_chars.
  unfold PyStr.lower. rewrite chars_of_chars. intros H.
  apply contains_chars_strip. apply contains_chars_lower in H.
  rewrite lower_chars_idempotent in H. exact H.
Qed.

Lemma normalize_contained (req res : string) :
  PyStr.contains res (PyStr.lower req) = true ->
  PyStr.contains (normalize res) (normalize req) = true.
Proof.
  unfold PyStr.contains. rewrite !normalize_chars.
  unfold PyStr.lower. rewrite chars_of_chars. intros H.
  apply contains_chars_strip. apply contains_chars_lower in H.
  rewrite lower_chars_idempotent in H. exact H.
Qed.

Lemma is_matched_intro (resume_skills : list string) (req res : string) :
  In res resume_skills ->
  skill_matches (normalize req) (normalize res) = true ->
  is_matched resume_skills req = true.
Proof.
  intros Hin Hm. unfold is_matched. apply existsb_exists. exists res. auto.
Qed.

Lemma is_matched_verbatim (resume_skills : list string) (req : string) :
  In req resume_skills -> is_matched resume_skills req = true.
Proof.
  intros Hin. apply (is_matched_intro _ _ req Hin).
  unfold skill_matches, PyStr.contains. rewrite contains_chars_refl. reflexivity.
Qed.

Lemma filter_all {A : Type} (f : A -> bool) (l : list A) :
  (forall x, In x l -> f x = true) -> List.filter f l = l.
Proof.
  induction l as [| a l IH]; simpl; intros H; [reflexivity |].
  rewrite (H a) by (left; reflexivity). f_equal. apply IH. intros x Hx. apply H. right. exact Hx.
Qed.

Lemma of_len_pos (n : nat) : n <> 0%nat -> 0 < PyNum.of_len n.
Proof.
  intros Hn. unfold PyNum.of_len. change 0 with (inject_Z 0).
  rewrite <- Zlt_Qlt. lia.
Qed.

(** C4. With no required skill the score is 50.  Otherwise the score is
    the number of matched required skills over the number of required
    skills, times 100, where a required skill is matched when, after
    lower-casing and stripping, it is a substring of some resume skill or
    contains one; a required skill whose lower-cased form is a substring of,
    or contains, a resume skill as written is matched; and when every
    required skill occurs verbatim among the resume skills the score is
    100. *)
Theorem skills_score_spec (resume_skills required_skills : list string) :
  let score := fst (calculate_skills_score resume_skills required_skills) in
  (required_skills = [] -> score == 50) /\
  (required_skills <> [] ->
   score == PyNum.of_len (matched_count resume_skills required_skills)
            / PyNum.of_len (List.length required_skills) * 100 /\
   matched (snd (calculate_skills_score resume_skills required_skills)) =
     List.map normalize (List.filter (is_matched resume_skills) required_skills)) /\
  (forall req_skill, In req_skill required_skills ->
     (exists res_skill, In res_skill resume_skills /\
        (PyStr.contains (PyStr.lower req_skill) res_skill = true \/
         PyStr.contains res_skill (PyStr.lower req_skill) = true)) ->
     is_matched resume_skills req_skill = true) /\
  (required_skills <> [] ->
   (forall req_skill, In req_skill required_skills -> In req_skill resume_skills) ->
   score == 100).
Proof.
  intros score. subst score. split; [| split; [| split]].
  - intros ->. reflexivity.
  - intros Hne. destruct (skills_score_nonempty resume_skills required_skills Hne) as [Hs Hm].
    rewrite Hs. split; [reflexivity | exact Hm].
  - intros req _ (res & Hin & [H | H]); apply (is_matched_intro _ _ res Hin);
      unfold skill_matches.
    + rewrite (normalize_contains _ _ H). reflexivity.
    + rewrite (normalize_contained _ _ H). apply orb_true_r.
  - intros Hne Hall.
    destruct (skills_score_nonempty resume_skills required_skills Hne) as [Hs _].
    rewrite Hs. unfold matched_count.
    rewrite filter_all by (intros x Hx; apply is_matched_verbatim, Hall, Hx).
    assert (Hpos : 0 < PyNum.of_len (List.length required_skills)).
    { apply of_len_pos. destruct required_skills; [congruence | discriminate]. }
    field. intros E. rewrite E in Hpos. discriminate.
Qed.

Lemma skills_score_spec_witness :
  let resume_skills := ["python"; "react"] in
  let required_skills := ["Python"; "react"; "aws"] in
  fst (calculate_skills_score resume_skills required_skills)
  == PyNum.of_len (matched_count resume_skills required_skills)
     / PyNum.of_len (List.length required_skills) * 100 /\
  matched_count resume_skills required_skills = 2%nat.
Proof.
  intros resume_skills required_skills. split; [| reflexivity].
  assert (Hne : required_skills <> []) by discriminate.
  exact (proj1 (proj1 (proj2 (skills_score_spec resume_skills required_skills)) Hne)).
Defined.

Example skills_two_of_three :
  PyNum.round2 (fst (calculate_skills_score ["python"; "react"] ["python"; "react"; "aws"]))
  == 6667 # 100 /\
  missing (snd (calculate_skills_score ["python"; "react"] ["python"; "react"; "aws"]))
  = ["aws"].
Proof. split; reflexivity. Qed.

Example skills_java_matches_javascript :
  fst (calculate_skills_score ["javascript"] ["java"]) == 100.
Proof. reflexivity. Qed.

End SkillsScore.

(** ** The weighted sum and its components *)

Section OverallScore.

Import AIScorer.
Local Open Scope Q_scope.

Variable Embedding : Type.
Variable encode : string -> Embedding.
Variable cosine_similarity : Embedding -> Embedding -> Q.

Local Abbreviation semantic_similarity_of resume_data job_role :=
  (calculate_semantic_similarity Embedding encode cosine_similarity
     (raw_text resume_data) (job_description job_role)).
Local Abbreviation skills_of resume_data job_role :=
  (calculate_skills_score (skills resume_data) (required_skills job_role)).
Local Abbreviation experience_of resume_data job_role :=
  (calculate_experience_score (experience_years resume_data)
                              (required_experience job_role)).
Local Abbreviation education_of resume_data job_role :=
  (calculate_education_score (education resume_data) (job_title job_role)).
Local Abbreviation projects_of resume_data job_role :=
  (calculate_projects_score Embedding encode cosine_similarity
     (projects resume_data) (job_description job_role)).
Local Abbreviation overall_of resume_data job_role custom_weights :=
  (calculate_overall_score Embedding encode cosine_similarity
     resume_data job_role custom_weights).

(** What a successful call returns, field by field. *)
Lemma calculate_overall_score_inv (resume_data : ResumeData) (job_role : JobRole)
      (custom_weights : option (gmap string Q)) (r : ScoreResult) :
  overall_of resume_data job_role custom_weights = inr r ->
  exists ws wk we wd wp : Q,
    weights_or_default custom_weights !! "semantic" = Some ws /\
    weights_or_default custom_weights !! "skills" = Some wk /\
    weights_or_default custom_weights !! "experience" = Some we /\
    weights_or_default custom_weights !! "education" = Some wd /\
    weights_or_default custom_weights !! "projects" = Some wp /\
    overall_score r =
      PyNum.round2
        (weighted_sum ws wk we wd wp
           (semantic_similarity_of resume_data job_role * 100)
           (fst (skills_of resume_data job_role))
           (fst (experience_of resume_data job_role))
           (fst (education_of resume_data job_role))
           (fst (projects_of resume_data job_role))) /\
    is_shortlisted r = geb (overall_score r) 70 /\
    semantic_score r = PyNum.round2 (semantic_similarity_of resume_data job_role * 100) /\
    skills_score r = PyNum.round2 (fst (skills_of resume_data job_role)) /\
    experience_score r = PyNum.round2 (fst (experience_of resume_data job_role)) /\
    education_score r = PyNum.round2 (fst (education_of resume_data job_role)) /\
    projects_score r = PyNum.round2 (fst (projects_of resume_data job_role)) /\
    recommendations (explanation r) =
      _generate_recommendations (overall_score r)
        (snd (skills_of resume_data job_role))
        (snd (experience_of resume_data job_role))
        (snd (education_of resume_data job_role)).
Proof.
  unfold calculate_overall_score.
  destruct (skills_of resume_data job_role) as [sk skx].
  destruct (experience_of resume_data job_role) as [ex exx].
  destruct (education_of resume_data job_role) as [ed edx].
  destruct (projects_of resume_data job_role) as [pr prx].
  unfold getitem.
  destruct (weights_or_default custom_weights !! "semantic") as [ws |]; [| discriminate].
  destruct (weights_or_default custom_weights !! "skills") as [wk |]; [| discriminate].
  destruct (weights_or_default custom_weights !! "experience") as [we |]; [| discriminate].
  destruct (weights_or_default custom_weights !! "education") as [wd |]; [| discriminate].
  destruct (weights_or_default custom_weights !! "projects") as [wp |]; [| discriminate].
  cbn [bind ok]. intros H. injection H as <-.
  exists ws, wk, we, wd, wp. cbn. repeat split; reflexivity.
Qed.

(** A call whose weights carry the five keys returns a result. *)
Lemma calculate_overall_score_total (resume_data : ResumeData) (job_role : JobRole)
      (custom_weights : option (gmap string Q)) :
  is_Some (weights_or_default custom_weights !! "semantic") ->
  is_Some (weights_or_default custom_weights !! "skills") ->
  is_Some (weights_or_default custom_weights !! "experience") ->
  is_Some (weights_or_default custom_weights !! "education") ->
  is_Some (weights_or_default custom_weights !! "projects") ->
  exists r, overall_of resume_data job_role custom_weights = inr r.
Proof.
  intros [ws Hs] [wk Hk] [we He] [wd Hd] [wp Hp].
  unfold calculate_overall_score.
  destruct (skills_of resume_data job_role) as [sk skx].
  destruct (experience_of resume_data job_role) as [ex exx].
  destruct (education_of resume_data job_role) as [ed edx].
  destruct (projects_of resume_data job_role) as [pr prx].
  unfold getitem. rewrite Hs, Hk, He, Hd, Hp. cbn [bind ok]. eexists. reflexivity.
Qed.

(** *** The range of each component *)

Lemma semantic_similarity_range (resume_text description : string) :
  0 <= calculate_semantic_similarity Embedding encode cosine_similarity
         resume_text description <= 1.
Proof.
  unfold calculate_semantic_similarity. split.
  - apply Q.le_max_l.
  - apply Q.max_lub; [discriminate | apply Q.le_min_l].
Qed.

Lemma semantic_score_range (resume_text description : string) :
  0 <= calculate_semantic_similarity Embedding encode cosine_similarity
         resume_text description * 100 <= 100.
Proof.
  destruct (semantic_similarity_range resume_text description) as [H0 H1]. lra.
Qed.

Lemma skills_score_range (resume_skills required_skills : list string) :
  0 <= fst (calculate_skills_score resume_skills required_skills) <= 100.
Proof.
  destruct required_skills as [| r rq] eqn:E.
  - split; discriminate.
  - rewrite <- E.
    assert (Hne : required_skills <> []) by (rewrite E; discriminate).
    destruct (skills_score_nonempty resume_skills required_skills Hne) as [-> _].
    assert (Hlen : (matched_count resume_skills required_skills
                    <= List.length required_skills)%nat)
      by apply List.filter_length_le.
    assert (Hpos : 0 < PyNum.of_len (List.length required_skills)).
    { apply of_len_pos. rewrite E. discriminate. }
    assert (H0 : 0 <= PyNum.of_len (matched_count resume_skills required_skills)).
    { unfold PyNum.of_len. change 0 with (inject_Z 0). rewrite <- Zle_Qle. lia. }
    assert (Hle : PyNum.of_len (matched_count resume_skills required_skills)
                  <= PyNum.of_len (List.length required_skills)).
    { unfold PyNum.of_len. rewrite <- Zle_Qle. lia. }
    split.
    + apply Qmult_le_0_compat; [| discriminate].
      apply Qle_shift_div_l; [exact Hpos |]. lra.
    + apply Qle_trans with (1 * 100); [| discriminate].
      apply Qmult_le_compat_r; [| discriminate].
      apply Qle_shift_div_r; [exact Hpos |]. lra.
Qed.

Lemma experience_score_range (resume_years required_years : Z) :
  (0 <= resume_years)%Z ->
  0 <= fst (calculate_experience_score resume_years required_years) <= 100.
Proof.
  intros Hres. split; [| apply experience_score_le_100].
  unfold calculate_experience_score.
  destruct (Z.eqb_spec required_years 0) as [_ | Hne]; [discriminate |].
  cbn [fst].
  destruct (Z.geb_spec resume_years required_years) as [_ | Hlt]; [discriminate |].
  apply Q.min_glb; [discriminate |].
  apply Qmult_le_0_compat; [| discriminate].
  apply Qle_shift_div_l; [apply of_int_pos; lia |].
  unfold PyNum.of_int. rewrite Qmult_0_l. change 0 with (inject_Z 0).
  rewrite <- Zle_Qle. exact Hres.
Qed.

Lemma education_score_range (resume_education : list EducationEntry) (title : string) :
  0 <= fst (calculate_education_score resume_education title) <= 100.
Proof.
  unfold calculate_education_score.
  destruct resume_education; [split; discriminate |].
  destruct (found_levels_of _ _); split; discriminate.
Qed.

Lemma projects_score_le_100 (resume_projects : list ProjectEntry) (description : string) :
  fst (calculate_projects_score Embedding encode cosine_similarity
         resume_projects description) <= 100.
Proof.
  unfold calculate_projects_score.
  destruct resume_projects as [| p ps]; [discriminate |].
  destruct (score_projects _ _ _ _ (p :: ps)) as [[| s ss] rel]; [discriminate |].
  apply Q.le_min_l.
Qed.

Lemma weighted_sum_range (ws wk we wd wp s k e d p : Q) :
  0 <= ws -> 0 <= wk -> 0 <= we -> 0 <= wd -> 0 <= wp ->
  ws + wk + we + wd + wp == 1 ->
  0 <= s <= 100 -> 0 <= k <= 100 -> 0 <= e <= 100 -> 0 <= d <= 100 -> 0 <= p <= 100 ->
  0 <= weighted_sum ws wk we wd wp s k e d p <= 100.
Proof.
  intros Hs Hk He Hd Hp Hsum [Hs0 Hs1] [Hk0 Hk1] [He0 He1] [Hd0 Hd1] [Hp0 Hp1].
  unfold weighted_sum.
  pose proof (Qmult_le_0_compat _ _ Hs Hs0).
  pose proof (Qmult_le_0_compat _ _ Hk Hk0).
  pose proof (Qmult_le_0_compat _ _ He He0).
  pose proof (Qmult_le_0_compat _ _ Hd Hd0).
  pose proof (Qmult_le_0_compat _ _ Hp Hp0).
  assert (ws * s <= ws * 100) by (rewrite !(Qmult_comm ws); apply Qmult_le_compat_r; assumption).
  assert (wk * k <= wk * 100) by (rewrite !(Qmult_comm wk); apply Qmult_le_compat_r; assumption).
  assert (we * e <= we * 100) by (rewrite !(Qmult_comm we); apply Qmult_le_compat_r; assumption).
  assert (wd * d <= wd * 100) by (rewrite !(Qmult_comm wd); apply Qmult_le_compat_r; assumption).
  assert (wp * p <= wp * 100) by (rewrite !(Qmult_comm wp); apply Qmult_le_compat_r; assumption).
  split; lra.
Qed.


(** *** The overall score *)

(** C1, as amended. When the five weights are non-negative and sum to 1,
    the candidate's years of experience are non-negative and the projects
    component is not negative, the call returns a result whose overall score
    lies between 0 and 100. *)
Theorem overall_score_in_range (resume_data : ResumeData) (job_role : JobRole)
        (custom_weights : option (gmap string Q)) (ws wk we wd wp : Q) :
  weights_or_default custom_weights !! "semantic" = Some ws ->
  weights_or_default custom_weights !! "skills" = Some wk ->
  weights_or_default custom_weights !! "experience" = Some we ->
  weights_or_default custom_weights !! "education" = Some wd ->
  weights_or_default custom_weights !! "projects" = Some wp ->
  0 <= ws -> 0 <= wk -> 0 <= we -> 0 <= wd -> 0 <= wp ->
  ws + wk + we + wd + wp == 1 ->
  (0 <= experience_years resume_data)%Z ->
  0 <= fst (projects_of resume_data job_role) ->
  exists r,
    overall_of resume_data job_role custom_weights = inr r /\
    0 <= overall_score r <= 100.
Proof.
  intros Ls Lk Le Ld Lp Hs Hk He Hd Hp Hsum Hyears Hproj.
  destruct (calculate_overall_score_total resume_data job_role custom_weights)
    as [r Hr]; try (eexists; eassumption).
  exists r. split; [exact Hr |].
  apply calculate_overall_score_inv in Hr
    as (ws' & wk' & we' & wd' & wp' & Ls' & Lk' & Le' & Ld' & Lp' & Ho & _).
  rewrite Ls in Ls'. rewrite Lk in Lk'. rewrite Le in Le'.
  rewrite Ld in Ld'. rewrite Lp in Lp'.
  injection Ls' as <-. injection Lk' as <-. injection Le' as <-.
  injection Ld' as <-. injection Lp' as <-.
  rewrite Ho. apply round2_percent.
  apply weighted_sum_range; try assumption.
  - apply semantic_score_range.
  - apply skills_score_range.
  - apply experience_score_range, Hyears.
  - apply education_score_range.
  - split; [exact Hproj | apply projects_score_le_100].
Qed.

(** C2. A call whose weights carry the five keys returns a result, and in
    every result the flag [is_shortlisted] is true exactly when the overall
    score is at least 70; an overall score of exactly 70 is shortlisted. *)
Theorem shortlisted_iff_threshold (resume_data : ResumeData) (job_role : JobRole)
        (custom_weights : option (gmap string Q)) :
  ((forall key, In key ["semantic"; "skills"; "experience"; "education"; "projects"] ->
      is_Some (weights_or_default custom_weights !! key)) ->
   exists r, overall_of resume_data job_role custom_weights = inr r) /\
  (forall r, overall_of resume_data job_role custom_weights = inr r ->
     (is_shortlisted r = true <-> 70 <= overall_score r) /\
     (overall_score r == 70 -> is_shortlisted r = true)).
Proof.
  split.
  - intros Hkeys. apply calculate_overall_score_total; apply Hkeys; simpl; tauto.
  - intros r Hr.
    apply calculate_overall_score_inv in Hr
      as (ws & wk & we & wd & wp & _ & _ & _ & _ & _ & _ & Hshort & _).
    assert (Hiff : is_shortlisted r = true <-> 70 <= overall_score r).
    { rewrite Hshort. unfold geb. apply Qle_bool_iff. }
    split; [exact Hiff |].
    intros E. apply Hiff. rewrite E. apply Qle_refl.
Qed.


(** Four of the five component scores of a result lie between 0 and 100,
    and the fifth, for the projects, is at most 100. *)
Lemma component_scores_range (resume_data : ResumeData) (job_role : JobRole)
      (custom_weights : option (gmap string Q)) (r : ScoreResult) :
  overall_of resume_data job_role custom_weights = inr r ->
  (0 <= experience_years resume_data)%Z ->
  0 <= semantic_score r <= 100 /\
  0 <= skills_score r <= 100 /\
  0 <= experience_score r <= 100 /\
  0 <= education_score r <= 100 /\
  projects_score r <= 100.
Proof.
  intros Hr Hyears.
  apply calculate_overall_score_inv in Hr
    as (ws & wk & we & wd & wp & _ & _ & _ & _ & _ & _ & _ & -> & -> & -> & -> & -> & _).
  repeat split;
    try (apply round2_percent;
         first [ apply semantic_score_range | apply skills_score_range
               | apply experience_score_range, Hyears | apply education_score_range ]).
  destruct (round2_bounds (fst (projects_of resume_data job_role))
              (Qfloor (fst (projects_of resume_data job_role) * 100)) 10000) as [_ Hu].
  - apply Qfloor_le.
  - apply Qle_trans with (100 * 100); [| discriminate].
    apply Qmult_le_compat_r; [apply projects_score_le_100 | discriminate].
  - apply Qle_trans with (inject_Z 10000 / 100); [exact Hu | discriminate].
Qed.

(** C10, as amended. The weights a caller supplies are not validated. An
    empty mapping is replaced by the default weights, as an absent one is.
    A non-empty mapping with the five keys is used as it is, whatever the
    sign of its values: the call returns a result whose overall score is the
    rounded weighted sum with these values. A non-empty mapping that lacks
    a key fails with the key error of the first key it lacks. *)
Theorem weights_not_validated (resume_data : ResumeData) (job_role : JobRole) :
  overall_of resume_data job_role (Some ∅) = overall_of resume_data job_role None /\
  (forall (weights : gmap string Q) (ws wk we wd wp : Q),
     weights <> ∅ ->
     weights !! "semantic" = Some ws ->
     weights !! "skills" = Some wk ->
     weights !! "experience" = Some we ->
     weights !! "education" = Some wd ->
     weights !! "projects" = Some wp ->
     exists r,
       overall_of resume_data job_role (Some weights) = inr r /\
       overall_score r =
         PyNum.round2
           (weighted_sum ws wk we wd wp
              (semantic_similarity_of resume_data job_role * 100)
              (fst (skills_of resume_data job_role))
              (fst (experience_of resume_data job_role))
              (fst (education_of resume_data job_role))
              (fst (projects_of resume_data job_role)))) /\
  (forall (weights : gmap string Q) (key : string),
     weights <> ∅ ->
     first_missing weights = Some key ->
     overall_of resume_data job_role (Some weights) = inl (KeyError key)).
Proof.
  split; [reflexivity | split].
  - intros weights ws wk we wd wp Hne Ls Lk Le Ld Lp.
    assert (Hw : weights_or_default (Some weights) = weights).
    { unfold weights_or_default. destruct (decide (weights = ∅)); [contradiction | reflexivity]. }
    destruct (calculate_overall_score_total resume_data job_role (Some weights))
      as [r Hr]; try (rewrite Hw; eexists; eassumption).
    exists r. split; [exact Hr |].
    apply calculate_overall_score_inv in Hr
      as (ws' & wk' & we' & wd' & wp' & Ls' & Lk' & Le' & Ld' & Lp' & Ho & _).
    rewrite Hw in Ls', Lk', Le', Ld', Lp'.
    rewrite Ls in Ls'. rewrite Lk in Lk'. rewrite Le in Le'.
    rewrite Ld in Ld'. rewrite Lp in Lp'.
    injection Ls' as <-. injection Lk' as <-. injection Le' as <-.
    injection Ld' as <-. injection Lp' as <-.
    exact Ho.
  - intros weights key Hne Hmiss.
    unfold calculate_overall_score.
    destruct (skills_of resume_data job_role) as [sk skx].
    destruct (experience_of resume_data job_role) as [ex exx].
    destruct (education_of resume_data job_role) as [ed edx].
    destruct (projects_of resume_data job_role) as [pr prx].
    unfold weights_or_default. destruct (decide (weights = ∅)); [contradiction |].
    unfold first_missing, component_keys in Hmiss. cbn [List.find] in Hmiss.
    unfold getitem.
    destruct (weights !! "semantic"); [| injection Hmiss as <-; reflexivity].
    destruct (weights !! "skills"); [| injection Hmiss as <-; reflexivity].
    destruct (weights !! "experience"); [| injection Hmiss as <-; reflexivity].
    destruct (weights !! "education"); [| injection Hmiss as <-; reflexivity].
    destruct (weights !! "projects"); [| injection Hmiss as <-; reflexivity].
    discriminate.
Qed.

End OverallScore.

(** ** The scorer on concrete inputs *)

Section ScorerExamples.

Import AIScorer Examples.
Local Open Scope Q_scope.

Local Abbreviation score_with :=
  (calculate_overall_score Vec plane_encode dot).

Lemma overall_score_in_range_witness :
  exists r,
    score_with seven_years_resume backend_role None = inr r /\
    0 <= overall_score r <= 100.
Proof.
  apply (overall_score_in_range Vec plane_encode dot seven_years_resume backend_role None
           (40 # 100) (30 # 100) (15 # 100) (10 # 100) (5 # 100));
    try reflexivity; try discriminate.
Defined.

(** C1 fails as stated: the weights 2, -1, 0, 0, 0 sum to 1, and the resume
    whose text is the job description, with none of the required skills,
    gets the overall score 200. *)
Lemma overall_score_above_100 :
  skewed_weights !! "semantic" = Some 2 /\
  skewed_weights !! "skills" = Some (- (1)) /\
  skewed_weights !! "experience" = Some 0 /\
  skewed_weights !! "education" = Some 0 /\
  skewed_weights !! "projects" = Some 0 /\
  2 + - (1) + 0 + 0 + 0 == 1 /\
  exists r,
    score_with mirror_resume backend_role (Some skewed_weights) = inr r /\
    overall_score r == 200 /\
    ~ (0 <= overall_score r <= 100).
Proof.
  repeat (split; [reflexivity |]).
  eexists. split; [vm_compute; reflexivity |].
  split; [reflexivity |].
  intros [_ H]. vm_compute in H. apply H. reflexivity.
Qed.

Lemma shortlisted_iff_threshold_witness :
  exists r,
    score_with seven_years_resume backend_role (Some experience_only_weights) = inr r /\
    overall_score r == 70 /\
    is_shortlisted r = true.
Proof.
  destruct (shortlisted_iff_threshold Vec plane_encode dot seven_years_resume backend_role
              (Some experience_only_weights)) as [Htotal Hflag].
  destruct Htotal as [r Hr].
  { intros key Hin. simpl in Hin.
    repeat (destruct Hin as [<- | Hin]; [eexists; reflexivity |]).
    destruct Hin. }
  exists r. split; [exact Hr |].
  assert (E : overall_score r == 70).
  { vm_compute in Hr. injection Hr as <-. reflexivity. }
  split; [exact E | exact (proj2 (Hflag r Hr) E)].
Defined.

(** C3, at the failing input: one project whose embedding has the cosine
    -3/5 with the job description. The projects score is -60, below 0, in
    the component and in the result. *)
Theorem projects_score_negative :
  (10 <= String.length
           (PyStr.strip (project_text knitting_project)))%nat /\
  dot (plane_encode (project_text knitting_project))
      (plane_encode backend_description) == - (3 # 5) /\
  fst (calculate_projects_score Vec plane_encode dot [knitting_project]
         backend_description) == - (60) /\
  exists r,
    score_with knitting_resume backend_role None = inr r /\
    projects_score r == - (60) /\
    ~ (0 <= projects_score r).
Proof.
  split; [vm_compute; lia |].
  split; [reflexivity |].
  split; [reflexivity |].
  eexists. split; [vm_compute; reflexivity |].
  split; [reflexivity |].
  intros H. vm_compute in H. apply H. reflexivity.
Qed.

(** The line about experience is written whenever the role asks for no
    experience and the overall score is below 70. *)
Lemma experience_line_without_requirement (overall : Q) (resume_years : Z)
      (skills_explanation : SkillsExplanation)
      (education_explanation : EducationExplanation) :
  overall < 70 ->
  In (experience_line 0)
     (_generate_recommendations overall skills_explanation
        (snd (calculate_experience_score resume_years 0)) education_explanation).
Proof.
  intros Hlt. unfold _generate_recommendations, ltb.
  destruct (Qle_bool 70 overall) eqn:E.
  - apply Qle_bool_iff in E. exfalso. apply (Qlt_not_le _ _ Hlt E).
  - cbn. apply in_or_app. right. left. reflexivity.
Qed.

(** With a requirement of at least one year the recommendations are as
    the specification lists them: below 70, a line for the missing skills
    when there are some, a line for the experience when the candidate has
    fewer years than required, a line for the education when it is not met,
    in this order; from 70 on, the single line for a strong candidate. *)
Lemma recommendations_with_requirement (overall : Q) (resume_years required_years : Z)
      (skills_explanation : SkillsExplanation)
      (education_explanation : EducationExplanation) :
  required_years <> 0%Z ->
  _generate_recommendations overall skills_explanation
    (snd (calculate_experience_score resume_years required_years))
    education_explanation =
  if ltb overall 70
  then
    ((match missing skills_explanation with
      | [] => []
      | _ :: _ => [missing_skills_line (missing skills_explanation)]
      end) ++
     (if (resume_years <? required_years)%Z then [experience_line required_years] else []) ++
     (if truthy (edu_get_meets_requirement education_explanation)
      then [] else [education_line]))%list
  else [strong_line].
Proof.
  intros Hne. unfold _generate_recommendations, calculate_experience_score.
  destruct (Z.eqb_spec required_years 0) as [E | _]; [contradiction |].
  cbn [snd exp_get_meets_requirement exp_get_required_years truthy].
  rewrite Z.geb_leb, Z.ltb_antisym.
  destruct (ltb overall 70); [| reflexivity].
  destruct (required_years <=? resume_years)%Z;
    destruct (truthy (edu_get_meets_requirement education_explanation)); reflexivity.
Qed.

(** C8, at the failing input: the role asks for no experience, so that the
    experience score is 100, the overall score is below 70, and the
    recommendations still carry the line about experience. *)
Theorem recommendation_without_requirement :
  exists r,
    score_with seven_years_resume entry_role None = inr r /\
    experience_score r == 100 /\
    overall_score r < 70 /\
    recommendations (explanation r) =
      [ "Missing key skills: python, sql, aws";
        "Need more experience: 0 years required";
        "Consider highlighting relevant education credentials" ].
Proof.
  eexists. split; [vm_compute; reflexivity |].
  split; [reflexivity |]. split; reflexivity.
Qed.

(** C10 fails as stated: a mapping with a negative weight is accepted and
    scored, and the empty mapping is scored with the default weights. *)
Lemma negative_weight_accepted :
  negative_projects_weights !! "projects" = Some (- (2 # 10)) /\
  (exists r,
     score_with seven_years_resume backend_role (Some negative_projects_weights) = inr r /\
     overall_score r == 57) /\
  score_with seven_years_resume backend_role (Some ∅) =
  score_with seven_years_resume backend_role None.
Proof.
  split; [reflexivity |]. split; [| reflexivity].
  eexists. split; [vm_compute; reflexivity | reflexivity].
Qed.

Lemma weights_not_validated_witness :
  (exists r,
     score_with seven_years_resume backend_role (Some negative_projects_weights) = inr r) /\
  score_with seven_years_resume backend_role (Some four_weights) = inl (KeyError "projects").
Proof.
  destruct (weights_not_validated Vec plane_encode dot seven_years_resume backend_role)
    as (_ & Hused & Hmissing).
  split.
  - destruct (Hused negative_projects_weights (5 # 10) (4 # 10) (2 # 10) (1 # 10)
                    (- (2 # 10))) as [r [Hr _]]; try reflexivity.
    + intros E. apply (f_equal (fun m : gmap string Q => m !! "projects")) in E.
      vm_compute in E. discriminate.
    + exists r. exact Hr.
  - apply Hmissing; [| reflexivity].
    intros E. apply (f_equal (fun m : gmap string Q => m !! "semantic")) in E.
    vm_compute in E. discriminate.
Defined.

End ScorerExamples.

(** ** The parser *)

Section ExperienceYears.

Import ResumeParser.

Lemma int_of_digits_nonneg (l : list ascii) : (0 <= int_of_digits l)%Z.
Proof.
  unfold int_of_digits.
  assert (H : forall acc, (0 <= acc)%Z ->
            (0 <= fold_left (fun acc c => acc * 10 + Z.of_N (PyStr.code c - 48)) l acc)%Z).
  { induction l as [| c l IH]; intros acc Hacc; simpl; [exact Hacc |].
    apply IH. lia. }
  apply H. lia.
Qed.

Lemma years_found_head_nonneg (pattern : Re.regex) (lowered : list ascii) :
  (0 <= hd 0%Z (years_found pattern lowered))%Z.
Proof.
  unfold years_found. destruct (Re.findall pattern lowered); simpl;
    [lia | apply int_of_digits_nonneg].
Qed.

(** One turn of the loop over the patterns. *)
Lemma scan_patterns_cons (pattern : Re.regex) (rest : list Re.regex)
      (lowered : list ascii) (years : Z) :
  (0 <= years)%Z ->
  scan_patterns (pattern :: rest) lowered years =
  scan_patterns rest lowered (Z.max years (hd 0%Z (years_found pattern lowered))).
Proof.
  intros Hy. unfold years_found. simpl.
  destruct (Re.findall pattern lowered); simpl; [| reflexivity].
  f_equal. lia.
Qed.

Lemma scan_patterns_two (lowered : list ascii) :
  scan_patterns patterns lowered 0%Z =
  Z.max (hd 0%Z (years_found years_of_experience_pattern lowered))
        (hd 0%Z (years_found experience_years_pattern lowered)).
Proof.
  unfold patterns.
  pose proof (years_found_head_nonneg years_of_experience_pattern lowered) as H1.
  rewrite scan_patterns_cons by lia.
  rewrite scan_patterns_cons by lia.
  simpl. f_equal. lia.
Qed.


End ExperienceYears.

Section Parse.

Import ResumeParser.

Variable _extract_from_pdf : string -> string.
Variable _extract_from_docx : string -> string.
Variable _extract_name : string -> option string.
Variable _extract_email : string -> option string.
Variable _extract_skills : string -> list string.
Variable _extract_education : string -> list EducationEntry.
Variable _extract_projects : string -> list ProjectEntry.
Variable _extract_certifications : string -> list string.

Local Abbreviation parse_with :=
  (parse _extract_from_pdf _extract_from_docx _extract_name _extract_email
         _extract_skills _extract_education _extract_projects
         _extract_certifications).


End Parse.

Section ParserExamples.

Import ResumeParser Examples.



Local Abbreviation parse_legacy :=
  (parse pdf_unread docx_of_legacy_doc (fun _ => None) (fun _ => None)
         (fun _ => []) (fun _ => []) (fun _ => []) (fun _ => [])).



End ParserExamples.

(** * Further properties of the scorer *)

Section SkillsScoreMore.

Import AIScorer.
Local Open Scope Q_scope.

Lemma skills_explanation_nonempty (resume_skills required_skills : list string) :
  required_skills <> [] ->
  let rs := List.map normalize resume_skills in
  let rq := List.map normalize required_skills in
  let e := snd (calculate_skills_score resume_skills required_skills) in
  matched e = List.filter (fun r => skill_found r rs) rq /\
  missing e = List.filter (fun r => negb (skill_found r rs)) rq /\
  extra e = firstn 5 (List.filter (fun s => negb (mem s (matched e))) rs).
Proof.
  intros Hne. destruct required_skills as [| r rq]; [congruence |].
  unfold calculate_skills_score. rewrite match_skills_filter.
  cbn [snd matched missing extra]. repeat split; reflexivity.
Qed.

Lemma filter_partition_perm {A : Type} (f : A -> bool) (l : list A) :
  Permutation (List.filter f l ++ List.filter (fun x => negb (f x)) l) l.
Proof.
  induction l as [| a l IH]; simpl; [constructor |].
  destruct (f a); simpl.
  - constructor. exact IH.
  - symmetry. apply Permutation_cons_app. symmetry. exact IH.
Qed.

Lemma in_firstn {A : Type} (n : nat) (l : list A) (x : A) :
  In x (firstn n l) -> In x l.
Proof.
  revert l. induction n as [| n IH]; intros [| a l]; simpl; try tauto.
  intros [-> | H]; [left; reflexivity | right; apply IH, H].
Qed.

(** The lists [matched] and [missing] split the normalised required skills:
    together they are a rearrangement of them, so that every required skill
    is counted once, as matched or as missing. With required skills the list
    [extra] holds at most five normalised resume skills, none of them a
    member of [matched]; without required skills it is the list of resume
    skills as given. *)
Theorem skills_explanation_partition (resume_skills required_skills : list string) :
  let e := snd (calculate_skills_score resume_skills required_skills) in
  Permutation (matched e ++ missing e) (List.map normalize required_skills) /\
  (List.length (matched e) + List.length (missing e)
   = List.length required_skills)%nat /\
  (required_skills <> [] ->
   (List.length (extra e) <= 5)%nat /\
   forall s, In s (extra e) ->
     In s (List.map normalize resume_skills) /\ ~ In s (matched e)) /\
  (required_skills = [] -> extra e = resume_skills).
Proof.
  intros e. subst e.
  set (e := snd (calculate_skills_score resume_skills required_skills)).
  assert (Hperm : Permutation (matched e ++ missing e) (List.map normalize required_skills)).
  { subst e. destruct required_skills as [| r rq] eqn:E; [simpl; constructor |].
    rewrite <- E in *. assert (Hne : required_skills <> []) by (rewrite E; discriminate).
    destruct (skills_explanation_nonempty resume_skills required_skills Hne) as (-> & -> & _).
    apply filter_partition_perm. }
  split; [exact Hperm |]. split.
  - apply Permutation_length in Hperm.
    rewrite length_app, length_map in Hperm. exact Hperm.
  - split.
    + intros Hne.
      destruct (skills_explanation_nonempty resume_skills required_skills Hne) as (_ & _ & Hx).
      fold e in Hx. rewrite Hx. split; [apply firstn_le_length |].
      intros s Hs. apply in_firstn in Hs. apply filter_In in Hs as [Hin Hmem].
      split; [exact Hin |]. intros Hm.
      unfold mem in Hmem. apply negb_true_iff in Hmem.
      assert (Ht : existsb (String.eqb s) (matched e) = true).
      { apply existsb_exists. exists s. split; [exact Hm | apply String.eqb_refl]. }
      rewrite Ht in Hmem. discriminate.
    + intros ->. reflexivity.
Qed.

Lemma is_matched_incl (small large : list string) (req_skill : string) :
  (forall s, In s small -> In s large) ->
  is_matched small req_skill = true -> is_matched large req_skill = true.
Proof.
  intros Hincl H. unfold is_matched in *. apply existsb_exists in H as [s [Hin Hs]].
  apply existsb_exists. exists s. auto.
Qed.

Lemma filter_length_mono {A : Type} (f g : A -> bool) (l : list A) :
  (forall x, f x = true -> g x = true) ->
  (List.length (List.filter f l) <= List.length (List.filter g l))%nat.
Proof.
  intros H. induction l as [| a l IH]; simpl; [lia |].
  destruct (f a) eqn:Ef.
  - rewrite (H a Ef). simpl. lia.
  - destruct (g a); simpl; lia.
Qed.

(** More resume skills never lower the skills score: when every skill of one
    resume is a skill of another, the other scores at least as much against
    the same required skills. *)
Theorem skills_score_monotone (small large required_skills : list string) :
  (forall s, In s small -> In s large) ->
  fst (calculate_skills_score small required_skills)
  <= fst (calculate_skills_score large required_skills).
Proof.
  intros Hincl. destruct required_skills as [| r rq] eqn:E; [apply Qle_refl |].
  rewrite <- E. assert (Hne : required_skills <> []) by (rewrite E; discriminate).
  destruct (skills_score_nonempty small required_skills Hne) as [-> _].
  destruct (skills_score_nonempty large required_skills Hne) as [-> _].
  apply Qmult_le_compat_r; [| discriminate].
  unfold Qdiv. apply Qmult_le_compat_r.
  - unfold PyNum.of_len. rewrite <- Zle_Qle. apply Nat2Z.inj_le.
    unfold matched_count. apply filter_length_mono.
    intros x. apply is_matched_incl, Hincl.
  - apply Qlt_le_weak, Qinv_lt_0_compat, of_len_pos. rewrite E. discriminate.
Qed.

Lemma skills_score_monotone_witness :
  fst (calculate_skills_score ["python"] ["python"; "sql"])
  <= fst (calculate_skills_score ["sql"; "python"] ["python"; "sql"]).
Proof.
  apply (skills_score_monotone ["python"] ["sql"; "python"] ["python"; "sql"]).
  intros s [<- | []]. right. left. reflexivity.
Defined.

(** With required skills, the skills score is 100 exactly when the list
    [missing] is empty. *)
Theorem skills_score_full_iff_none_missing (resume_skills required_skills : list string) :
  required_skills <> [] ->
  (fst (calculate_skills_score resume_skills required_skills) == 100 <->
   missing (snd (calculate_skills_score resume_skills required_skills)) = []).
Proof.
  intros Hne.
  destruct (skills_explanation_partition resume_skills required_skills) as (_ & Hlen & _).
  destruct (skills_score_nonempty resume_skills required_skills Hne) as [Hs Hm].
  rewrite Hm, length_map in Hlen.
  change (List.length (List.filter (is_matched resume_skills) required_skills))
    with (matched_count resume_skills required_skills) in Hlen.
  rewrite Hs.
  assert (Hpos : 0 < PyNum.of_len (List.length required_skills)).
  { apply of_len_pos. destruct required_skills; [congruence | discriminate]. }
  assert (Hnz : ~ PyNum.of_len (List.length required_skills) == 0).
  { intros E. rewrite E in Hpos. discriminate. }
  split.
  - intros H.
    assert (Heq : PyNum.of_len (matched_count resume_skills required_skills)
                  == PyNum.of_len (List.length required_skills)).
    { assert (H1 : PyNum.of_len (matched_count resume_skills required_skills)
                   / PyNum.of_len (List.length required_skills) == 1).
      { apply (Qmult_inj_r _ 1 100); [discriminate | rewrite H; reflexivity]. }
      rewrite <- (Qmult_1_l (PyNum.of_len (List.length required_skills))), <- H1.
      field. exact Hnz. }
    unfold PyNum.of_len, Qeq in Heq. simpl in Heq.
    apply length_zero_iff_nil. lia.
  - intros Hnil. rewrite Hnil in Hlen. simpl in Hlen.
    replace (matched_count resume_skills required_skills)
      with (List.length required_skills) by lia.
    field. exact Hnz.
Qed.

Lemma skills_score_full_iff_none_missing_witness :
  fst (calculate_skills_score ["postgresql"; "python"] ["Python "; "sql"]) == 100 <->
  missing (snd (calculate_skills_score ["postgresql"; "python"] ["Python "; "sql"])) = [].
Proof.
  apply (skills_score_full_iff_none_missing ["postgresql"; "python"] ["Python "; "sql"]).
  discriminate.
Defined.

End SkillsScoreMore.

Section ComponentsMore.

Import AIScorer.
Local Open Scope Q_scope.



(** The education score takes one of three values. It is 30 exactly when
    there is no education entry, and then the explanation is a bare message;
    otherwise the explanation lists the degrees in order and its flag
    [meets_requirement] is set exactly when the score is 100. *)
Theorem education_score_values (resume_education : list EducationEntry) (title : string) :
  let r := calculate_education_score resume_education title in
  (fst r == 30 \/ fst r == 60 \/ fst r == 100) /\
  (fst r == 30 <-> resume_education = []) /\
  (resume_education = [] -> exists message, snd r = EduMessage message) /\
  (resume_education <> [] ->
   exists meets,
     snd r = EduCompared (List.map edu_degree resume_education)
                         (required_levels_of title) meets /\
     (meets = true <-> fst r == 100)).
Proof.
  intros r. subst r. unfold calculate_education_score.
  destruct resume_education as [| e es].
  - repeat split; try (left; reflexivity); try reflexivity; try congruence.
    intros _. eexists. reflexivity.
  - destruct (found_levels_of (e :: es) (required_levels_of title)) as [| l ls];
      cbn [fst snd List.length].
    + repeat split; try discriminate; try congruence.
      * right. left. reflexivity.
      * intros _. eexists. split; [reflexivity |]. split; discriminate.
    + repeat split; try discriminate; try congruence.
      * right. right. reflexivity.
      * intros _. eexists. split; [reflexivity |]. split; reflexivity.
Qed.

(** The required levels of a title. A title that mentions "engineer", in any
    letter case, takes the engineer levels whatever else it mentions; one
    that mentions "data" takes the data levels only when it mentions none of
    "engineer", "scientist" and "developer"; one that mentions none of the
    four keys takes the bachelor levels. *)
Theorem required_levels_precedence (title : string) :
  let t := PyStr.lower title in
  (PyStr.contains "engineer" t = true ->
   required_levels_of title = ["bachelor"; "b.tech"; "b.e"; "master"; "m.tech"]) /\
  (PyStr.contains "engineer" t = false -> PyStr.contains "scientist" t = true ->
   required_levels_of title = ["master"; "m.tech"; "phd"; "ph.d"]) /\
  (PyStr.contains "engineer" t = false -> PyStr.contains "scientist" t = false ->
   PyStr.contains "developer" t = true ->
   required_levels_of title = ["bachelor"; "b.tech"; "diploma"]) /\
  (PyStr.contains "engineer" t = false -> PyStr.contains "scientist" t = false ->
   PyStr.contains "developer" t = false -> PyStr.contains "data" t = true ->
   required_levels_of title = ["bachelor"; "master"; "phd"]) /\
  (PyStr.contains "engineer" t = false -> PyStr.contains "scientist" t = false ->
   PyStr.contains "developer" t = false -> PyStr.contains "data" t = false ->
   required_levels_of title = ["bachelor"; "b.tech"; "b.e"]).
Proof.
  intros t. subst t. unfold required_levels_of, role_requirements.
  cbn [lookup_levels].
  repeat split; intros; repeat match goal with
    | H : PyStr.contains _ _ = _ |- _ => rewrite H; clear H
    end; reflexivity.
Qed.

Lemma required_levels_precedence_witness :
  required_levels_of "Senior Data Engineer"
  = ["bachelor"; "b.tech"; "b.e"; "master"; "m.tech"].
Proof.
  apply (proj1 (required_levels_precedence "Senior Data Engineer")). reflexivity.
Defined.

End ComponentsMore.

Section EncoderMore.

Import AIScorer.
Local Open Scope Q_scope.

Variable Embedding : Type.
Variable encode : string -> Embedding.
Variable cosine_similarity : Embedding -> Embedding -> Q.

Local Abbreviation semantic_of resume_text description :=
  (calculate_semantic_similarity Embedding encode cosine_similarity
     resume_text description).
Local Abbreviation projects_score_of resume_projects description :=
  (calculate_projects_score Embedding encode cosine_similarity
     resume_projects description).
Local Abbreviation scored_projects description resume_projects :=
  (score_projects Embedding encode cosine_similarity (encode description)
     resume_projects).
Local Abbreviation overall_with resume_data job_role custom_weights :=
  (calculate_overall_score Embedding encode cosine_similarity
     resume_data job_role custom_weights).

(** The semantic similarity is the cosine of the two embeddings cut to the
    interval from 0 to 1: it lies in the interval whatever the encoder
    returns, it is the cosine itself when that lies in the interval, 0 for
    a negative cosine and 1 for a cosine above 1. *)
Theorem semantic_similarity_clamped (resume_text description : string) :
  let raw := cosine_similarity (encode resume_text) (encode description) in
  let s := calculate_semantic_similarity Embedding encode cosine_similarity
             resume_text description in
  0 <= s <= 1 /\
  (0 <= raw <= 1 -> s == raw) /\
  (raw <= 0 -> s == 0) /\
  (1 <= raw -> s == 1).
Proof.
  intros raw s. subst s. unfold calculate_semantic_similarity. fold raw.
  split; [apply (semantic_similarity_range Embedding encode cosine_similarity) |].
  repeat split.
  - intros [H0 H1]. rewrite (Q.min_r _ _ H1). apply Q.max_r, H0.
  - intros H. apply Q.max_l. apply Qle_trans with raw; [apply Q.le_min_r | exact H].
  - intros H. rewrite (Q.min_l _ _ H). apply Q.max_r. discriminate.
Qed.

Lemma sum_nonneg (l : list Q) : (forall x, In x l -> 0 <= x) -> 0 <= PyNum.sum l.
Proof.
  induction l as [| a l IH]; intros H; simpl; [apply Qle_refl |].
  assert (0 <= a) by (apply H; left; reflexivity).
  assert (0 <= PyNum.sum l) by (apply IH; intros x Hx; apply H; right; exact Hx).
  lra.
Qed.

Lemma mean_nonneg (l : list Q) : (forall x, In x l -> 0 <= x) -> 0 <= PyNum.mean l.
Proof.
  intros H. unfold PyNum.mean. destruct l as [| a l].
  - discriminate.
  - apply Qle_shift_div_l; [apply of_len_pos; discriminate |].
    rewrite Qmult_0_l. apply sum_nonneg, H.
Qed.

(** What the loop over the projects collects. *)
Lemma score_projects_spec (description : string) (resume_projects : list ProjectEntry) :
  let kept := List.filter
                (fun p => negb (String.length (PyStr.strip (project_text p)) <? 10)%nat)
                resume_projects in
  fst (scored_projects description resume_projects) =
    List.map (fun p => cosine_similarity (encode (project_text p)) (encode description)) kept /\
  snd (scored_projects description resume_projects) =
    List.map (fun p => (proj_title p,
                        PyNum.round2 (cosine_similarity (encode (project_text p))
                                                        (encode description) * 100)))
      (List.filter
         (fun p => ltb (3 # 10)
                       (cosine_similarity (encode (project_text p)) (encode description)))
         kept).
Proof.
  induction resume_projects as [| p ps [IH1 IH2]]; simpl; [split; reflexivity |].
  destruct (score_projects _ _ _ _ ps) as [scores rel]. simpl in IH1, IH2.
  destruct (String.length (PyStr.strip (project_text p)) <? 10)%nat; simpl.
  - split; assumption.
  - rewrite IH1. split; [reflexivity |].
    destruct (ltb _ _); simpl; rewrite IH2; reflexivity.
Qed.

(** The projects score is at most 100. It is 0, with a message and no
    comparison, when no project has ten characters of text or more; and it
    is not negative when no project has a negative cosine with the job
    description. *)
Theorem projects_score_bounds (resume_projects : list ProjectEntry) (description : string) :
  let r := projects_score_of resume_projects description in
  fst r <= 100 /\
  ((forall p, In p resume_projects ->
      (String.length (PyStr.strip (project_text p)) < 10)%nat) ->
   fst r == 0 /\ exists message, snd r = ProjMessage message) /\
  ((forall p, In p resume_projects ->
      0 <= cosine_similarity (encode (project_text p)) (encode description)) ->
   0 <= fst r).
Proof.
  intros r. subst r.
  split; [apply projects_score_le_100 |].
  unfold calculate_projects_score.
  destruct resume_projects as [| p0 ps] eqn:E.
  { split; [intros _; split; [reflexivity | eexists; reflexivity] | intros _; discriminate]. }
  rewrite <- E.
  destruct (score_projects_spec description resume_projects) as [H1 _].
  destruct (scored_projects description resume_projects) as [scores rel].
  cbn [fst] in H1. split.
  - intros Hshort.
    assert (Hnil : scores = []).
    { rewrite H1. replace (List.filter _ resume_projects) with (@nil ProjectEntry);
        [reflexivity |].
      symmetry. clear H1 E. induction resume_projects as [| p l IH]; [reflexivity |].
      simpl. assert (Hp := Hshort p (or_introl eq_refl)).
      apply Nat.ltb_lt in Hp. rewrite Hp. simpl.
      apply IH. intros q Hq. apply Hshort. right. exact Hq. }
    rewrite Hnil. split; [reflexivity | eexists; reflexivity].
  - intros Hpos. destruct scores as [| s ss] eqn:Es; [discriminate |].
    cbn [fst]. apply Q.min_glb; [discriminate |].
    apply Qmult_le_0_compat; [| discriminate].
    apply mean_nonneg. rewrite H1. intros x Hx.
    apply in_map_iff in Hx as [p [<- Hp]]. apply filter_In in Hp as [Hp _].
    apply Hpos, Hp.
Qed.

(** When the projects explanation is a comparison, it counts every project
    of the resume, counts as relevant no more projects than that, and lists
    at most three of the relevant ones; each listed project is a project of
    the resume whose cosine with the job description exceeds 0.3, with a
    relevance of at least 30. *)
Theorem projects_explanation_counts (resume_projects : list ProjectEntry)
        (description : string) (total relevant : nat) (top : list (string * Q)) :
  snd (projects_score_of resume_projects description) = ProjCompared total relevant top ->
  total = List.length resume_projects /\
  (relevant <= total)%nat /\
  (List.length top <= 3)%nat /\
  (List.length top <= relevant)%nat /\
  forall title relevance, In (title, relevance) top ->
    30 <= relevance /\
    exists p, In p resume_projects /\ proj_title p = title /\
      3 # 10 < cosine_similarity (encode (project_text p)) (encode description) /\
      relevance = PyNum.round2 (cosine_similarity (encode (project_text p))
                                                  (encode description) * 100).
Proof.
  unfold calculate_projects_score.
  destruct resume_projects as [| p0 ps] eqn:E; [discriminate |].
  rewrite <- E.
  destruct (score_projects_spec description resume_projects) as [_ H2].
  destruct (scored_projects description resume_projects) as [scores rel].
  cbn [snd] in H2.
  destruct scores as [| s ss]; [discriminate |].
  cbn [snd]. intros H. injection H as <- <- <-.
  assert (Hrel : (List.length rel <= List.length resume_projects)%nat).
  { rewrite H2, length_map.
    eapply Nat.le_trans; [apply List.filter_length_le |]. apply List.filter_length_le. }
  split; [reflexivity |]. split; [exact Hrel |].
  split; [apply firstn_le_length |].
  split; [rewrite length_firstn; lia |].
  intros title relevance Hin. apply in_firstn in Hin. rewrite H2 in Hin.
  apply in_map_iff in Hin as [p [Hp Hin]]. injection Hp as <- <-.
  apply filter_In in Hin as [Hin Hcos]. apply filter_In in Hin as [Hin _].
  assert (Hlt : 3 # 10 < cosine_similarity (encode (project_text p)) (encode description)).
  { unfold ltb in Hcos. apply negb_true_iff in Hcos.
    apply Qnot_le_lt. intros Hle. apply Qle_bool_iff in Hle. congruence. }
  split.
  - destruct (round2_bounds
                (cosine_similarity (encode (project_text p)) (encode description) * 100)
                3000
                (Qfloor (cosine_similarity (encode (project_text p)) (encode description)
                         * 100 * 100) + 1)) as [Hl _].
    + change (inject_Z 3000) with (30 * 100).
      apply Qmult_le_compat_r; [| discriminate]. lra.
    + apply Qlt_le_weak, Qlt_floor.
    + apply Qle_trans with (inject_Z 3000 / 100); [discriminate | exact Hl].
  - exists p. repeat split; assumption.
Qed.

Lemma round2_le_100 (x : Q) : x <= 100 -> PyNum.round2 x <= 100.
Proof.
  intros H. destruct (round2_bounds x (Qfloor (x * 100)) 10000) as [_ Hu].
  - apply Qfloor_le.
  - apply Qle_trans with (100 * 100); [| discriminate].
    apply Qmult_le_compat_r; [exact H | discriminate].
  - apply Qle_trans with (inject_Z 10000 / 100); [exact Hu | discriminate].
Qed.

(** Scoring with the default weights, asked for by no mapping or by an empty
    one, never fails, and the overall score is at most 100 for every resume,
    every role and every encoder. *)
Theorem default_weights_score (resume_data : ResumeData) (job_role : JobRole)
        (custom_weights : option (gmap string Q)) :
  custom_weights = None \/ custom_weights = Some ∅ ->
  exists r,
    overall_with resume_data job_role custom_weights = inr r /\
    overall_score r <= 100.
Proof.
  intros Hcw.
  assert (Hw : weights_or_default custom_weights = default_weights)
    by (destruct Hcw as [-> | ->]; reflexivity).
  destruct (calculate_overall_score_total Embedding encode cosine_similarity
              resume_data job_role custom_weights) as [r Hr];
    try (rewrite Hw; eexists; reflexivity).
  exists r. split; [exact Hr |].
  apply calculate_overall_score_inv in Hr
    as (ws & wk & we & wd & wp & Ls & Lk & Le & Ld & Lp & Ho & _).
  rewrite Hw in Ls, Lk, Le, Ld, Lp.
  vm_compute in Ls, Lk, Le, Ld, Lp.
  injection Ls as <-. injection Lk as <-. injection Le as <-.
  injection Ld as <-. injection Lp as <-.
  rewrite Ho. apply round2_le_100. unfold weighted_sum.
  pose proof (proj2 (semantic_score_range Embedding encode cosine_similarity
                       (raw_text resume_data) (job_description job_role))).
  pose proof (proj2 (skills_score_range (skills resume_data) (required_skills job_role))).
  pose proof (experience_score_le_100 (experience_years resume_data)
                                      (required_experience job_role)).
  pose proof (proj2 (education_score_range (education resume_data) (job_title job_role))).
  pose proof (projects_score_le_100 Embedding encode cosine_similarity
                (projects resume_data) (job_description job_role)).
  lra.
Qed.

Lemma line_lengths_differ :
  education_line <> strong_line /\
  (forall l, missing_skills_line l <> strong_line) /\
  (forall n, experience_line n <> strong_line).
Proof. repeat split; intros; discriminate. Qed.

(** The recommendations of a result. A shortlisted result carries the single
    line for a strong candidate; a result that is not shortlisted carries at
    most three lines, and never that line. *)
Theorem recommendations_shape (resume_data : ResumeData) (job_role : JobRole)
        (custom_weights : option (gmap string Q)) (r : ScoreResult) :
  overall_with resume_data job_role custom_weights = inr r ->
  (is_shortlisted r = true -> recommendations (explanation r) = [strong_line]) /\
  (is_shortlisted r = false ->
   (List.length (recommendations (explanation r)) <= 3)%nat /\
   ~ In strong_line (recommendations (explanation r))).
Proof.
  intros Hr.
  apply calculate_overall_score_inv in Hr
    as (ws & wk & we & wd & wp & _ & _ & _ & _ & _ & _ & Hshort & _ & _ & _ & _ & _ & Hrec).
  rewrite Hrec, Hshort. unfold _generate_recommendations, ltb, geb.
  destruct line_lengths_differ as (He & Hm & Hx).
  destruct (Qle_bool 70 (overall_score r)); cbn [negb]; split; try discriminate.
  - intros _. reflexivity.
  - intros _.
    destruct (missing _); destruct (negb (truthy (exp_get_meets_requirement _)));
      destruct (negb (truthy (edu_get_meets_requirement _)));
      (split; [simpl; lia |]); simpl; intros Hin;
      repeat (destruct Hin as [Hin | Hin];
              [first [ exact (He Hin) | exact (Hm _ Hin) | exact (Hx _ Hin) ] |]);
      exact Hin.
Qed.

(** With an encoder whose cosines are never negative, non-negative years of
    experience and non-negative weights that sum to 1, a result is returned
    and its overall score and its five component scores all lie between 0
    and 100. *)
Theorem scores_in_range_for_nonnegative_cosines
        (resume_data : ResumeData) (job_role : JobRole)
        (custom_weights : option (gmap string Q)) (ws wk we wd wp : Q) :
  (forall u v, 0 <= cosine_similarity u v) ->
  (0 <= experience_years resume_data)%Z ->
  weights_or_default custom_weights !! "semantic" = Some ws ->
  weights_or_default custom_weights !! "skills" = Some wk ->
  weights_or_default custom_weights !! "experience" = Some we ->
  weights_or_default custom_weights !! "education" = Some wd ->
  weights_or_default custom_weights !! "projects" = Some wp ->
  0 <= ws -> 0 <= wk -> 0 <= we -> 0 <= wd -> 0 <= wp ->
  ws + wk + we + wd + wp == 1 ->
  exists r,
    overall_with resume_data job_role custom_weights = inr r /\
    0 <= overall_score r <= 100 /\
    0 <= semantic_score r <= 100 /\
    0 <= skills_score r <= 100 /\
    0 <= experience_score r <= 100 /\
    0 <= education_score r <= 100 /\
    0 <= projects_score r <= 100.
Proof.
  intros Hcos Hyears Ls Lk Le Ld Lp Hs Hk He Hd Hp Hsum.
  destruct (calculate_overall_score_total Embedding encode cosine_similarity
              resume_data job_role custom_weights) as [r Hr];
    try (eexists; eassumption).
  exists r. split; [exact Hr |].
  assert (Hproj : 0 <= fst (projects_score_of (projects resume_data)
                                              (job_description job_role)) <= 100).
  { destruct (projects_score_bounds (projects resume_data) (job_description job_role))
      as (Hu & _ & Hl).
    split; [apply Hl; intros; apply Hcos | exact Hu]. }
  destruct (component_scores_range Embedding encode cosine_similarity
              resume_data job_role custom_weights r Hr Hyears)
    as (Csem & Csk & Cex & Ced & _).
  apply calculate_overall_score_inv in Hr
    as (ws' & wk' & we' & wd' & wp' & Ls' & Lk' & Le' & Ld' & Lp' & Ho
        & _ & _ & _ & _ & _ & Hp' & _).
  rewrite Ls in Ls'. rewrite Lk in Lk'. rewrite Le in Le'.
  rewrite Ld in Ld'. rewrite Lp in Lp'.
  injection Ls' as <-. injection Lk' as <-. injection Le' as <-.
  injection Ld' as <-. injection Lp' as <-.
  repeat split; try tauto.
  - rewrite Ho. apply round2_percent. apply weighted_sum_range; try assumption.
    + apply semantic_score_range.
    + apply skills_score_range.
    + apply experience_score_range, Hyears.
    + apply education_score_range.
  - rewrite Ho. apply round2_percent. apply weighted_sum_range; try assumption.
    + apply semantic_score_range.
    + apply skills_score_range.
    + apply experience_score_range, Hyears.
    + apply education_score_range.
  - rewrite Hp'. apply round2_percent, Hproj.
  - rewrite Hp'. apply round2_percent, Hproj.
Qed.

End EncoderMore.

Section MoreScorerExamples.

Import AIScorer MoreExamples.
Local Open Scope Q_scope.

Lemma semantic_similarity_clamped_witness :
  calculate_semantic_similarity Examples.Vec Examples.plane_encode Examples.dot
    "Knitting patterns" Examples.backend_description == 0.
Proof.
  apply (proj1 (proj2 (proj2 (semantic_similarity_clamped Examples.Vec Examples.plane_encode
                                Examples.dot "Knitting patterns"
                                Examples.backend_description)))).
  vm_compute. discriminate.
Defined.

Lemma projects_score_bounds_witness :
  fst (calculate_projects_score bool mentions_python agreement [short_project]
         (job_description python_role)) == 0 /\
  0 <= fst (calculate_projects_score bool mentions_python agreement
              (projects python_resume) (job_description python_role)).
Proof.
  split.
  - apply (proj1 (proj2 (projects_score_bounds bool mentions_python agreement
                           [short_project] (job_description python_role)))).
    intros p [<- | []]. vm_compute. lia.
  - apply (proj2 (proj2 (projects_score_bounds bool mentions_python agreement
                           (projects python_resume) (job_description python_role)))).
    intros p _. unfold agreement. destruct (Bool.eqb _ _); discriminate.
Defined.

Lemma projects_explanation_counts_witness :
  3%nat = List.length (projects python_resume) /\
  (1 <= 3)%nat /\
  forall title relevance, In (title, relevance) [("ETL pipeline", 100)] ->
    30 <= relevance.
Proof.
  destruct (projects_explanation_counts bool mentions_python agreement
              (projects python_resume) (job_description python_role)
              3 1 [("ETL pipeline", PyNum.round2 (1 * 100))])
    as (Htotal & Hrel & _ & _ & Htop); [reflexivity |].
  split; [exact Htotal |]. split; [exact Hrel |].
  intros title relevance [Hin | []]. injection Hin as <- <-.
  apply Qle_trans with (PyNum.round2 (1 * 100)); [| discriminate].
  apply (Htop "ETL pipeline" (PyNum.round2 (1 * 100))). left. reflexivity.
Defined.

Lemma default_weights_score_witness :
  exists r,
    calculate_overall_score bool mentions_python agreement python_resume python_role
      (Some ∅) = inr r /\
    overall_score r <= 100.
Proof.
  apply (default_weights_score bool mentions_python agreement python_resume python_role
           (Some ∅)).
  right. reflexivity.
Defined.

Lemma recommendations_shape_witness :
  exists r,
    calculate_overall_score bool mentions_python agreement python_resume python_role None
      = inr r /\
    is_shortlisted r = true /\
    recommendations (explanation r) = [strong_line].
Proof.
  destruct (calculate_overall_score_total bool mentions_python agreement python_resume
              python_role None) as [r Hr]; try (eexists; reflexivity).
  exists r. split; [exact Hr |].
  assert (Hs : is_shortlisted r = true).
  { vm_compute in Hr. injection Hr as <-. reflexivity. }
  split; [exact Hs |].
  exact (proj1 (recommendations_shape bool mentions_python agreement python_resume
                  python_role None r Hr) Hs).
Defined.

Lemma scores_in_range_for_nonnegative_cosines_witness :
  exists r,
    calculate_overall_score bool mentions_python agreement python_resume python_role None
      = inr r /\
    0 <= overall_score r <= 100 /\
    0 <= projects_score r <= 100.
Proof.
  destruct (scores_in_range_for_nonnegative_cosines bool mentions_python agreement
              python_resume python_role None
              (40 # 100) (30 # 100) (15 # 100) (10 # 100) (5 # 100))
    as (r & Hr & Ho & _ & _ & _ & _ & Hp);
    try reflexivity; try discriminate.
  - intros u v. unfold agreement. destruct (Bool.eqb u v); discriminate.
  - exists r. repeat split; tauto.
Defined.

End MoreScorerExamples.

Section Monotone.

Import AIScorer MoreVocabulary.
Local Open Scope Q_scope.

Lemma round_half_even_monotone (x y : Q) :
  x <= y -> (PyNum.round_half_even x <= PyNum.round_half_even y)%Z.
Proof.
  intros Hxy.
  pose proof (Qfloor_resp_le _ _ Hxy) as Hf.
  destruct (Z.eq_dec (Qfloor x) (Qfloor y)) as [E | Hne].
  - unfold PyNum.round_half_even. rewrite <- E.
    destruct (Qcompare_spec (x - inject_Z (Qfloor x)) (1 # 2)) as [Hx | Hx | Hx];
      destruct (Qcompare_spec (y - inject_Z (Qfloor x)) (1 # 2)) as [Hy | Hy | Hy];
      try destruct (Z.even (Qfloor x)); try lia; exfalso; lra.
  - destruct (round_half_even_floor x) as [-> | ->];
      destruct (round_half_even_floor y) as [-> | ->]; lia.
Qed.

Lemma round2_monotone (x y : Q) : x <= y -> PyNum.round2 x <= PyNum.round2 y.
Proof.
  intros H. unfold PyNum.round2, Qdiv.
  apply Qmult_le_compat_r; [| discriminate].
  rewrite <- Zle_Qle. apply round_half_even_monotone.
  apply Qmult_le_compat_r; [exact H | discriminate].
Qed.

Variable Embedding : Type.
Variable encode : string -> Embedding.
Variable cosine_similarity : Embedding -> Embedding -> Q.

(** More years of experience never lower the overall score: for a
    non-negative weight of the experience component, non-negative years and
    a non-negative requirement, the same resume with more years gets an
    overall score at least as high, and stays shortlisted if it was. *)
Theorem overall_score_monotone_in_years (resume_data : ResumeData) (job_role : JobRole)
        (custom_weights : option (gmap string Q)) (more_years : Z) (we : Q)
        (r r' : ScoreResult) :
  weights_or_default custom_weights !! "experience" = Some we ->
  0 <= we ->
  (0 <= experience_years resume_data <= more_years)%Z ->
  (0 <= required_experience job_role)%Z ->
  calculate_overall_score Embedding encode cosine_similarity
    resume_data job_role custom_weights = inr r ->
  calculate_overall_score Embedding encode cosine_similarity
    (with_years resume_data more_years) job_role custom_weights = inr r' ->
  overall_score r <= overall_score r' /\
  (is_shortlisted r = true -> is_shortlisted r' = true).
Proof.
  intros Le Hwe [Hy Hmore] Hreq Hr Hr'.
  apply calculate_overall_score_inv in Hr
    as (ws & wk & we1 & wd & wp & Ls & Lk & Le1 & Ld & Lp & Ho & Hs & _).
  apply calculate_overall_score_inv in Hr'
    as (ws' & wk' & we' & wd' & wp' & Ls' & Lk' & Le' & Ld' & Lp' & Ho' & Hs' & _).
  rewrite Ls in Ls'. rewrite Lk in Lk'. rewrite Le1 in Le'.
  rewrite Ld in Ld'. rewrite Lp in Lp'. rewrite Le in Le1.
  injection Ls' as <-. injection Lk' as <-. injection Le' as <-.
  injection Ld' as <-. injection Lp' as <-. injection Le1 as <-.
  cbn [with_years raw_text skills experience_years education projects] in Ho'.
  assert (Hle : overall_score r <= overall_score r').
  { rewrite Ho, Ho'. apply round2_monotone. unfold weighted_sum.
    assert (Hexp : fst (calculate_experience_score (experience_years resume_data)
                          (required_experience job_role))
                   <= fst (calculate_experience_score more_years
                             (required_experience job_role))).
    { unfold calculate_experience_score.
      destruct (Z.eqb_spec (required_experience job_role) 0) as [_ | Hne];
        [apply Qle_refl |].
      cbn [fst].
      destruct (Z.geb_spec (experience_years resume_data) (required_experience job_role));
        destruct (Z.geb_spec more_years (required_experience job_role));
        try lia; try apply Qle_refl; try apply Q.le_min_l.
      apply Q.min_le_compat_l. apply ratio_monotone; lia. }
    assert (we * fst (calculate_experience_score (experience_years resume_data)
                        (required_experience job_role))
            <= we * fst (calculate_experience_score more_years
                           (required_experience job_role))).
    { rewrite !(Qmult_comm we). apply Qmult_le_compat_r; assumption. }
    lra. }
  split; [exact Hle |].
  rewrite Hs, Hs'. unfold geb. rewrite !Qle_bool_iff. intros H.
  apply Qle_trans with (overall_score r); assumption.
Qed.

End Monotone.

Section MonotoneExamples.

Import AIScorer Examples MoreVocabulary.
Local Open Scope Q_scope.

Lemma overall_score_monotone_in_years_witness :
  exists r r',
    calculate_overall_score Vec plane_encode dot seven_years_resume backend_role None
      = inr r /\
    calculate_overall_score Vec plane_encode dot (with_years seven_years_resume 12)
      backend_role None = inr r' /\
    overall_score r <= overall_score r'.
Proof.
  destruct (calculate_overall_score_total Vec plane_encode dot seven_years_resume
              backend_role None) as [r Hr]; try (eexists; reflexivity).
  destruct (calculate_overall_score_total Vec plane_encode dot
              (with_years seven_years_resume 12) backend_role None) as [r' Hr'];
    try (eexists; reflexivity).
  exists r, r'. split; [exact Hr |]. split; [exact Hr' |].
  apply (overall_score_monotone_in_years Vec plane_encode dot seven_years_resume
           backend_role None 12 (15 # 100) r r'); try assumption;
    try reflexivity; try discriminate; simpl; lia.
Defined.

End MonotoneExamples.

(** * The second pipeline *)

Section SplitExt.

Import ResumeParser.

Lemma skip_leading_dots_concat (n : nat) (p : list ascii) (i d : nat) :
  (fst (skip_leading_dots n p i d) ++ snd (skip_leading_dots n p i d))%list = p.
Proof.
  revert i. induction n as [| n IH]; intros i; simpl; [apply app_nil_r |].
  destruct (nth_error p i) as [x |]; [| apply app_nil_r].
  destruct (negb (Ascii.eqb x ".")); [apply firstn_skipn | apply IH].
Qed.

(** The two parts [os.path.splitext] returns make up the path. *)
Lemma splitext_concat (path : string) :
  (PyStr.chars (fst (splitext path)) ++ PyStr.chars (snd (splitext path)))%list
  = PyStr.chars path.
Proof.
  unfold splitext.
  destruct (rfind "/" (PyStr.chars path) <? rfind "." (PyStr.chars path))%Z.
  - pose proof (skip_leading_dots_concat
                  (Z.to_nat (rfind "." (PyStr.chars path) - (rfind "/" (PyStr.chars path) + 1)))
                  (PyStr.chars path)
                  (Z.to_nat (rfind "/" (PyStr.chars path) + 1))
                  (Z.to_nat (rfind "." (PyStr.chars path)))) as H.
    destruct (skip_leading_dots _ _ _ _) as [root ext]. cbn [fst snd] in *.
    rewrite !chars_of_chars. exact H.
  - cbn [fst snd]. rewrite !chars_of_chars. apply app_nil_r.
Qed.

Lemma lower_ends_with_ext (path : string) :
  exists root,
    PyStr.chars (PyStr.lower path) = (root ++ PyStr.chars (file_ext_of path))%list.
Proof.
  exists (PyStr.lower_chars (PyStr.chars (fst (splitext path)))).
  unfold file_ext_of, PyStr.lower. rewrite !chars_of_chars.
  rewrite <- (splitext_concat path) at 1.
  unfold PyStr.lower_chars. apply List.map_app.
Qed.

End SplitExt.

Section UtilsReaders.

Import Utils.

Variable extract_text_from_pdf : string -> string.
Variable extract_text_from_docx : string -> string.

Lemma ends_with_app (suffix : string) (root : list ascii) (s : string) :
  PyStr.chars s = (root ++ PyStr.chars suffix)%list -> ends_with suffix s = true.
Proof.
  intros H. unfold ends_with. rewrite H, rev_app_distr.
  apply starts_with_spec. eexists. reflexivity.
Qed.

(** The two pipelines on the same path. A path that the parser of the first
    pipeline reads as PDF, or as DOCX, is read with the reader of the same
    kind by [extract_text_from_resume]; a path with the extension .doc,
    which the parser hands to its DOCX extractor, is an unsupported type
    here and yields the empty text. *)
Theorem extract_text_from_resume_and_parser (file_path : string) :
  (ResumeParser.file_ext_of file_path = ".pdf" ->
   Utils.extract_text_from_resume extract_text_from_pdf extract_text_from_docx file_path
   = extract_text_from_pdf file_path) /\
  (ResumeParser.file_ext_of file_path = ".docx" ->
   Utils.extract_text_from_resume extract_text_from_pdf extract_text_from_docx file_path
   = extract_text_from_docx file_path) /\
  (ResumeParser.file_ext_of file_path = ".doc" ->
   Utils.extract_text_from_resume extract_text_from_pdf extract_text_from_docx file_path
   = "").
Proof.
  destruct (lower_ends_with_ext file_path) as [root Hroot].
  unfold extract_text_from_resume. repeat split; intros E; rewrite E in Hroot.
  - rewrite (ends_with_app ".pdf" root _ Hroot). reflexivity.
  - assert (Hpdf : ends_with ".pdf" (PyStr.lower file_path) = false).
    { unfold ends_with. rewrite Hroot, rev_app_distr. reflexivity. }
    rewrite Hpdf, (ends_with_app ".docx" root _ Hroot). reflexivity.
  - assert (Hpdf : ends_with ".pdf" (PyStr.lower file_path) = false).
    { unfold ends_with. rewrite Hroot, rev_app_distr. reflexivity. }
    assert (Hdocx : ends_with ".docx" (PyStr.lower file_path) = false).
    { unfold ends_with. rewrite Hroot, rev_app_distr. reflexivity. }
    rewrite Hpdf, Hdocx. reflexivity.
Qed.

End UtilsReaders.

Section UtilsScore.

Import Utils.
Local Open Scope Q_scope.

Variable Embedding : Type.
Variable get_embedding : string -> Embedding.
Variable dot : Embedding -> Embedding -> Q.

(** [compute_semantic_score] maps a dot product between -1 and 1, as two
    normalised embeddings have, to a score between 0 and 100, with 50 for
    orthogonal embeddings; and a resume whose embedding has the larger dot
    product with the job embedding never gets the smaller score. *)
Theorem compute_semantic_score_range (resume_text job_description : string)
        (job_embedding_cache : option Embedding) :
  let job_embedding :=
    match job_embedding_cache with
    | Some cached => cached
    | None => get_embedding job_description
    end in
  let score := Utils.compute_semantic_score Embedding get_embedding dot
                 resume_text job_description job_embedding_cache in
  (- (1) <= dot (get_embedding resume_text) job_embedding <= 1 -> 0 <= score <= 100) /\
  (dot (get_embedding resume_text) job_embedding == 0 -> score == 50) /\
  (forall other_text,
     dot (get_embedding resume_text) job_embedding
     <= dot (get_embedding other_text) job_embedding ->
     score <= Utils.compute_semantic_score Embedding get_embedding dot
                other_text job_description job_embedding_cache).
Proof.
  intros job_embedding score. subst score. unfold compute_semantic_score.
  fold job_embedding. repeat split.
  - apply round2_percent. lra.
  - apply round2_percent. lra.
  - intros E. apply Qle_antisym.
    + apply Qle_trans with (PyNum.round2 50); [apply round2_monotone; lra | discriminate].
    + apply Qle_trans with (PyNum.round2 50); [discriminate | apply round2_monotone; lra].
  - intros other H. apply round2_monotone. lra.
Qed.

End UtilsScore.

Section UtilsSkills.

Import Utils.

Lemma contains_chars_trans (a b c : list ascii) :
  PyStr.contains_chars a b = true -> PyStr.contains_chars b c = true ->
  PyStr.contains_chars a c = true.
Proof.
  rewrite !contains_chars_spec. intros [x [y ->]] [u [v ->]].
  exists (u ++ x)%list, (y ++ v)%list. rewrite <- !app_assoc. reflexivity.
Qed.

(** Without a list of skills, [extract_skills_missing] reports at most five
    skills; each is the title-cased form of a keyword of the fixed table
    that occurs in the lower-cased job description and not in the
    lower-cased resume; and it reports nothing when the lower-cased resume
    contains the lower-cased job description. *)
Theorem extract_skills_missing_default (resume_text job_description : string) :
  let missing := Utils.extract_skills_missing resume_text job_description None in
  (List.length missing <= 5)%nat /\
  (forall skill, In skill missing ->
     exists keyword, In keyword tech_keywords /\ skill = title keyword /\
       PyStr.contains keyword (PyStr.lower job_description) = true /\
       PyStr.contains keyword (PyStr.lower resume_text) = false) /\
  (PyStr.contains (PyStr.lower job_description) (PyStr.lower resume_text) = true ->
   missing = []).
Proof.
  intros missing. subst missing. unfold extract_skills_missing.
  split; [apply firstn_le_length |]. split.
  - intros skill Hin. apply in_firstn in Hin.
    apply in_map_iff in Hin as [k [<- Hk]]. apply filter_In in Hk as [Hk Hc].
    apply andb_true_iff in Hc as [Hj Hr]. apply negb_true_iff in Hr.
    exists k. auto.
  - intros Hsub.
    replace (List.filter _ tech_keywords) with (@nil string); [reflexivity |].
    symmetry. induction tech_keywords as [| k ks IH]; [reflexivity |].
    simpl. rewrite IH.
    destruct (PyStr.contains k (PyStr.lower job_description)) eqn:Hj; [| reflexivity].
    unfold PyStr.contains in *.
    rewrite (contains_chars_trans _ _ _ Hj Hsub). reflexivity.
Qed.

(** With a list of skills, [extract_skills_missing] returns, in their order,
    the skills whose lower-cased form does not occur in the lower-cased
    resume, whatever the job description is; an empty list of skills gives
    an empty answer (it does not fall back to the keyword table), and the
    answer is empty exactly when the resume contains every skill. *)
Theorem extract_skills_missing_listed (resume_text job_description : string)
        (common_skills : list string) :
  let missing :=
    Utils.extract_skills_missing resume_text job_description (Some common_skills) in
  (forall skill, In skill missing <->
     In skill common_skills /\
     PyStr.contains (PyStr.lower skill) (PyStr.lower resume_text) = false) /\
  (missing = [] <->
   forall skill, In skill common_skills ->
     PyStr.contains (PyStr.lower skill) (PyStr.lower resume_text) = true) /\
  (List.length missing <= List.length common_skills)%nat /\
  Utils.extract_skills_missing resume_text job_description (Some []) = [].
Proof.
  intros missing. subst missing. unfold extract_skills_missing.
  split; [| split; [| split; [apply List.filter_length_le | reflexivity]]].
  - intros skill. rewrite filter_In, negb_true_iff. reflexivity.
  - split.
    + intros Hnil skill Hin.
      destruct (PyStr.contains (PyStr.lower skill) (PyStr.lower resume_text)) eqn:E;
        [reflexivity |].
      assert (Hs : In skill (List.filter
                    (fun s => negb (PyStr.contains (PyStr.lower s) (PyStr.lower resume_text)))
                    common_skills)).
      { apply filter_In. rewrite E. auto. }
      rewrite Hnil in Hs. destruct Hs.
    + intros Hall. induction common_skills as [| s l IH]; [reflexivity |].
      simpl. rewrite (Hall s (or_introl eq_refl)). simpl.
      apply IH. intros x Hx. apply Hall. right. exact Hx.
Qed.

End UtilsSkills.

(** * The mail service *)

Section MailService.

Import EmailService MailVocabulary.

Variable Net : Type.
Variable smtp_exchange :
  Config -> Net -> string -> string -> string -> string -> smtp_outcome * Net.
Variable render_html : string -> string -> Q -> string -> string.
Variable render_text : string -> string -> Q -> string -> string.

Local Abbreviation send_one self net recipient subject html text :=
  (send_email Net smtp_exchange self net recipient subject html text).
Local Abbreviation send_all self net candidates job_title :=
  (send_bulk_emails Net smtp_exchange render_html render_text
     self net candidates job_title).

(** One send returns one of three statuses, and the keys of its dictionary
    follow the status: [sent_at] comes with "sent" only and [error] with
    "failed" only. *)
Lemma send_email_status (self : Config) (net : Net)
      (recipient subject html text : string) :
  let r := fst (send_one self net recipient subject html text) in
  (res_status r = "error" /\ res_sent_at r = None /\ res_error r = None) \/
  (res_status r = "failed" /\ res_sent_at r = None /\ res_error r <> None) \/
  (res_status r = "sent" /\ res_sent_at r <> None /\ res_error r = None).
Proof.
  unfold send_email.
  destruct (String.eqb (smtp_username self) "" || String.eqb (smtp_password self) "");
    [left; repeat split |].
  destruct (smtp_exchange self net recipient subject html text) as [[t | e | e | e | e] net'];
    cbn; [right; right | right; left ..]; repeat split; discriminate.
Qed.

(** [send_bulk_emails] answers every candidate once and in order: the
    results are as many as the candidates, and the i-th result carries the
    address of the i-th candidate under the key [email]. *)
Theorem send_bulk_emails_aligned (self : Config) (net : Net)
        (candidates : list Candidate) (job_title : string) :
  List.map res_email (fst (send_all self net candidates job_title))
  = List.map (fun c => Some (cand_email c)) candidates /\
  List.length (fst (send_all self net candidates job_title)) = List.length candidates.
Proof.
  assert (H : List.map res_email (fst (send_all self net candidates job_title))
              = List.map (fun c => Some (cand_email c)) candidates).
  { revert net. induction candidates as [| c rest IH]; intros net; [reflexivity |].
    cbn [send_bulk_emails].
    destruct (cand_email c) as [address |] eqn:E.
    - destruct (String.eqb address "").
      + specialize (IH net). destruct (send_all self net rest job_title) as [results net'].
        cbn in *. rewrite E, IH. reflexivity.
      + unfold generate_shortlist_email.
        destruct (send_one self net address _ _ _) as [result net1].
        specialize (IH net1). destruct (send_all self net1 rest job_title) as [results net'].
        cbn in *. rewrite E, IH. reflexivity.
    - specialize (IH net). destruct (send_all self net rest job_title) as [results net'].
      cbn in *. rewrite E, IH. reflexivity. }
  split; [exact H |].
  apply (f_equal (@List.length _)) in H. rewrite !length_map in H. exact H.
Qed.

(** Every result of [send_bulk_emails] answers its candidate: a candidate
    with no address, or an empty one, is skipped, with no name, time or
    error in the result; any other candidate gets the result of one send,
    with the name under [candidate_name] and the status "error", "failed"
    or "sent". *)
Theorem send_bulk_emails_answers (self : Config) (net : Net)
        (candidates : list Candidate) (job_title : string) :
  Forall2 answers candidates (fst (send_all self net candidates job_title)).
Proof.
  revert net. induction candidates as [| c rest IH]; intros net; [constructor |].
  cbn [send_bulk_emails].
  destruct (cand_email c) as [address |] eqn:E.
  - destruct (String.eqb address "") eqn:Ea.
    + specialize (IH net). destruct (send_all self net rest job_title) as [results net'].
      cbn in *. constructor; [| exact IH].
      unfold answers. rewrite E. cbn. rewrite Ea. cbn.
      repeat split; try reflexivity; discriminate.
    + unfold generate_shortlist_email.
      pose proof (send_email_status self net address
                    ("Congratulations! You've been shortlisted for " ++ job_title)
                    (render_html
                       (if String.eqb (match cand_name c with Some n => n | None => "Candidate" end) ""
                        then "Candidate"
                        else match cand_name c with Some n => n | None => "Candidate" end)
                       job_title (match cand_score c with Some s => s | None => 0%Q end)
                       "Our Company")
                    (render_text
                       (if String.eqb (match cand_name c with Some n => n | None => "Candidate" end) ""
                        then "Candidate"
                        else match cand_name c with Some n => n | None => "Candidate" end)
                       job_title (match cand_score c with Some s => s | None => 0%Q end)
                       "Our Company")) as Hs.
      destruct (send_one self net address _ _ _) as [result net1].
      specialize (IH net1). destruct (send_all self net1 rest job_title) as [results net'].
      cbn in *. constructor; [| exact IH].
      unfold answers. rewrite E. cbn. rewrite Ea. cbn.
      split; [reflexivity |]. split; [intros H; discriminate H |].
      intros _. split; [reflexivity | exact Hs].
  - specialize (IH net). destruct (send_all self net rest job_title) as [results net'].
    cbn in *. constructor; [| exact IH].
    unfold answers. rewrite E. cbn. repeat split; try reflexivity; discriminate.
Qed.

(** Without a user name or without a password nothing is sent: the network
    is left as it was, and every result has the status "skipped" or "error",
    never "sent" and never "failed". *)
Theorem send_bulk_emails_not_configured (self : Config) (net : Net)
        (candidates : list Candidate) (job_title : string) :
  smtp_username self = "" \/ smtp_password self = "" ->
  snd (send_all self net candidates job_title) = net /\
  Forall (fun r => (res_status r = "skipped" \/ res_status r = "error") /\
                   res_sent_at r = None)
         (fst (send_all self net candidates job_title)).
Proof.
  intros Hcfg.
  assert (Hoff : String.eqb (smtp_username self) "" || String.eqb (smtp_password self) ""
                 = true).
  { destruct Hcfg as [-> | ->]; [reflexivity | apply orb_true_r]. }
  induction candidates as [| c rest [IHn IHr]]; [split; [reflexivity | constructor] |].
  cbn [send_bulk_emails].
  destruct (cand_email c) as [address |].
  - destruct (String.eqb address "").
    + destruct (send_all self net rest job_title) as [results net'].
      cbn in *. split; [exact IHn |]. constructor; [| exact IHr]. auto.
    + unfold generate_shortlist_email, send_email. rewrite Hoff.
      destruct (send_all self net rest job_title) as [results net'].
      cbn in *. split; [exact IHn |]. constructor; [| exact IHr]. auto.
  - destruct (send_all self net rest job_title) as [results net'].
    cbn in *. split; [exact IHn |]. constructor; [| exact IHr]. auto.
Qed.

End MailService.

Section MailExamples.

Import EmailService MailVocabulary.

Lemma send_bulk_emails_not_configured_witness :
  snd (send_bulk_emails nat counting_exchange plain_body plain_body
         offline_config 0%nat three_candidates "Backend Engineer") = 0%nat /\
  Forall (fun r => (res_status r = "skipped" \/ res_status r = "error") /\
                   res_sent_at r = None)
         (fst (send_bulk_emails nat counting_exchange plain_body plain_body
                 offline_config 0%nat three_candidates "Backend Engineer")).
Proof.
  apply (send_bulk_emails_not_configured nat counting_exchange plain_body plain_body
           offline_config 0%nat three_candidates "Backend Engineer").
  right. reflexivity.
Defined.

(** With a configured account each candidate with an address costs one
    exchange, and the candidates without one cost none. *)
Example send_bulk_emails_counts_exchanges :
  snd (send_bulk_emails nat counting_exchange plain_body plain_body
         online_config 0%nat three_candidates "Backend Engineer") = 2%nat /\
  List.map res_status
    (fst (send_bulk_emails nat counting_exchange plain_body plain_body
            online_config 0%nat three_candidates "Backend Engineer"))
  = ["sent"; "skipped"; "sent"].
Proof. split; reflexivity. Qed.

End MailExamples.

(** * Conversion of numpy values *)

Section NumpyConversion.

Import PyObj.

Section Induction.

Variable P : pyobj -> Prop.
Hypothesis Hleaf :
  forall obj,
    match obj with
    | PyDict _ | PyList _ | PyTuple _ => False
    | _ => True
    end -> P obj.
Hypothesis Hdict : forall items, Forall (fun kv => P (snd kv)) items -> P (PyDict items).
Hypothesis Hlist : forall items, Forall P items -> P (PyList items).
Hypothesis Htuple : forall items, Forall P items -> P (PyTuple items).

Lemma pyobj_induction (obj : pyobj) : P obj.
Proof.
  revert obj. fix IH 1.
  intros [z | q | b | a | items | items | items | z | q | b | s |];
    try (apply Hleaf; exact I).
  - apply Hdict. induction items as [| kv l IHl]; constructor; [apply IH | exact IHl].
  - apply Hlist. induction items as [| x l IHl]; constructor; [apply IH | exact IHl].
  - apply Htuple. induction items as [| x l IHl]; constructor; [apply IH | exact IHl].
Qed.

End Induction.

Lemma item_native (s : npscalar) : native (item s) = true.
Proof. destruct s; reflexivity. Qed.

Lemma tolist_native (a : ndarray) : native (tolist a) = true.
Proof.
  revert a. fix IH 1. intros [items | rows]; cbn.
  - induction items as [| s l IHl]; [reflexivity |].
    cbn. rewrite item_native. exact IHl.
  - induction rows as [| r l IHl]; [reflexivity |].
    cbn. rewrite (IH r). exact IHl.
Qed.

(** A value without numpy values is returned as it is. *)
Lemma convert_native_fixed (obj : pyobj) :
  native obj = true -> convert_numpy_types obj = obj.
Proof.
  induction obj as [obj Hleaf | items IH | items IH | items IH] using pyobj_induction.
  - destruct obj; try contradiction; try discriminate; reflexivity.
  - intros Hn. cbn in *. f_equal.
    induction IH as [| [k v] l Hv _ IHl]; [reflexivity |].
    cbn in *. apply andb_true_iff in Hn as [Hn1 Hn2].
    rewrite (Hv Hn1), (IHl Hn2). reflexivity.
  - intros Hn. cbn in *. f_equal.
    induction IH as [| x l Hx _ IHl]; [reflexivity |].
    cbn in *. apply andb_true_iff in Hn as [Hn1 Hn2].
    rewrite (Hx Hn1), (IHl Hn2). reflexivity.
  - reflexivity.
Qed.



Example convert_report :
  convert_numpy_types
    (PyDict [ ("score", NpFloating (8233 # 100));
              ("top", PyList [ NpInteger 3; PyString "x" ]);
              ("grid", NpArray (NpRows [ NpItems [NpInt 1; NpInt 2]; NpItems [] ]));
              ("pair", PyTuple [ NpBool true ]) ])
  = PyDict [ ("score", PyFloat (8233 # 100));
             ("top", PyList [ PyInt 3; PyString "x" ]);
             ("grid", PyList [ PyList [PyInt 1; PyInt 2]; PyList [] ]);
             ("pair", PyTuple [ NpBool true ]) ].
Proof. reflexivity. Qed.

End NumpyConversion.

(** * The field extractors *)

Section RegexRuns.

Import Re FieldVocabulary.

Lemma part_of_refl (s : list ascii) : part_of s s.
Proof. exists [], []. simpl. rewrite app_nil_r. reflexivity. Qed.

Lemma part_of_nil (s : list ascii) : part_of [] s.
Proof. exists [], s. reflexivity. Qed.

Lemma part_of_trans (u v s : list ascii) : part_of u v -> part_of v s -> part_of u s.
Proof.
  intros [a [b ->]] [c [d ->]]. exists (c ++ a)%list, (b ++ d)%list.
  rewrite <- !app_assoc. reflexivity.
Qed.

Lemma part_of_suffix (v w s : list ascii) : part_of v s -> part_of v (w ++ s).
Proof.
  intros [a [b ->]]. exists (w ++ a)%list, b. rewrite <- app_assoc. reflexivity.
Qed.

Lemma part_of_firstn (n : nat) (s : list ascii) : part_of (firstn n s) s.
Proof. exists [], (skipn n s). simpl. apply eq_sym, firstn_skipn. Qed.

Lemma part_of_contains (v s : list ascii) :
  part_of v s <-> PyStr.contains_chars v s = true.
Proof. symmetry. apply contains_chars_spec. Qed.

Lemma run_ok_refl (caps : captures) (s : list ascii) : run_ok caps s (caps, s).
Proof. split; [exists []; reflexivity | intros n v H; left; exact H]. Qed.

Lemma run_ok_trans (caps : captures) (s : list ascii) (st1 st : state) :
  run_ok caps s st1 -> run_ok (fst st1) (snd st1) st -> run_ok caps s st.
Proof.
  intros [[w1 E1] C1] [[w2 E2] C2]. split.
  - exists (w1 ++ w2)%list. rewrite E1 at 1. rewrite E2 at 1. apply app_assoc.
  - intros n v H. destruct (C2 n v H) as [H1 | H1]; [apply C1, H1 |].
    right. rewrite E1. apply part_of_suffix, H1.
Qed.

Lemma star_loop_ok (step : captures -> list ascii -> list state) (greedy : bool) :
  (forall caps s st, In st (step caps s) -> run_ok caps s st) ->
  forall fuel caps s st,
    In st (star_loop step greedy fuel caps s) -> run_ok caps s st.
Proof.
  intros Hstep. induction fuel as [| fuel IH]; intros caps s st Hin.
  - destruct Hin as [<- | []]. apply run_ok_refl.
  - cbn [star_loop] in Hin.
    assert (Hmore : forall st0,
              In st0 (flat_map
                        (fun st1 : state =>
                           if (List.length (snd st1) <? List.length s)%nat
                           then star_loop step greedy fuel (fst st1) (snd st1)
                           else []) (step caps s)) ->
              run_ok caps s st0).
    { intros st0 H0. apply in_flat_map in H0 as [st1 [H1 H2]].
      destruct (List.length (snd st1) <? List.length s)%nat; [| destruct H2].
      apply (run_ok_trans caps s st1); [apply Hstep, H1 | apply IH, H2]. }
    destruct greedy.
    + apply in_app_or in Hin as [Hin | [<- | []]];
        [apply Hmore, Hin | apply run_ok_refl].
    + destruct Hin as [<- | Hin]; [apply run_ok_refl | apply Hmore, Hin].
Qed.

Lemma run_sound (r : regex) :
  forall caps s st, In st (run r caps s) -> run_ok caps s st.
Proof.
  induction r as [| p | r1 IH1 r2 IH2 | r1 IH1 r2 IH2 | greedy r1 IH1 | n r1 IH1 |];
    intros caps s st Hin; cbn [run] in Hin.
  - destruct Hin as [<- | []]. apply run_ok_refl.
  - destruct s as [| c s']; [destruct Hin |].
    destruct (p c); [| destruct Hin]. destruct Hin as [<- | []].
    split; [exists [c]; reflexivity | intros k v H; left; exact H].
  - apply in_flat_map in Hin as [st1 [H1 H2]].
    apply (run_ok_trans caps s st1); [apply IH1, H1 | apply IH2, H2].
  - apply in_app_or in Hin as [Hin | Hin]; [apply IH1, Hin | apply IH2, Hin].
  - apply (star_loop_ok (run r1) greedy IH1 _ _ _ _ Hin).
  - apply in_map_iff in Hin as [st1 [<- H1]].
    destruct (IH1 _ _ _ H1) as [Hw Hc]. split; [exact Hw |].
    cbn [fst]. intros k v [Hkv | Hkv].
    + injection Hkv as _ <-. right. apply part_of_firstn.
    + apply Hc, Hkv.
  - destruct s as [| c [| c' s']]; try destruct Hin as [<- | []]; try apply run_ok_refl.
    + destruct (Ascii.eqb c newline); [| destruct Hin].
      destruct Hin as [<- | []]. apply run_ok_refl.
    + destruct Hin.
Qed.

Lemma group_in (n : nat) (caps : captures) :
  group n caps = [] \/ In (n, group n caps) caps.
Proof.
  induction caps as [| [k v] caps IH]; [left; reflexivity |].
  cbn [group]. destruct (Nat.eqb_spec k n) as [-> | _].
  - right. left. reflexivity.
  - destruct IH as [IH | IH]; [left; exact IH | right; right; exact IH].
Qed.

Lemma match_here_sound (r : regex) (s : list ascii) (st : state) :
  match_here r s = Some st -> run_ok [] s st.
Proof.
  unfold match_here. intros H. apply run_sound with (r := r).
  destruct (run r [] s) as [| st0 l]; [discriminate |].
  injection H as <-. left. reflexivity.
Qed.

(** The group a search captured is a part of the text searched. *)
Lemma search_group_part (r : regex) (n : nat) (s : list ascii) (st : state) :
  search r s = Some st -> part_of (group n (fst st)) s.
Proof.
  induction s as [| c s IH]; cbn [search].
  - destruct (match_here r []) as [st0 |] eqn:E; [| discriminate].
    intros H. injection H as <-. apply match_here_sound in E as [_ Hc].
    destruct (group_in n (fst st0)) as [-> | Hg]; [apply part_of_nil |].
    destruct (Hc _ _ Hg) as [[] | Hp]. exact Hp.
  - destruct (match_here r (c :: s)) as [st0 |] eqn:E.
    + intros H. injection H as <-. apply match_here_sound in E as [_ Hc].
      destruct (group_in n (fst st0)) as [-> | Hg]; [apply part_of_nil |].
      destruct (Hc _ _ Hg) as [[] | Hp]. exact Hp.
    + intros H. apply (part_of_suffix _ [c] s), IH, H.
Qed.

End RegexRuns.

Section SkillsField.

Import Re ResumeFields FieldVocabulary.

Lemma mem_in (s : string) (l : list string) : AIScorer.mem s l = true <-> In s l.
Proof.
  unfold AIScorer.mem. rewrite existsb_exists. split.
  - intros [x [Hx E]]. apply String.eqb_eq in E. subst. exact Hx.
  - intros H. exists s. split; [exact H | apply String.eqb_refl].
Qed.

Lemma add_found_in (text_lower : string) (found : list string) (skill s : string) :
  In s (add_found text_lower found skill) <->
  In s found \/ (s = skill /\ PyStr.contains skill text_lower = true).
Proof.
  unfold add_found.
  destruct (PyStr.contains skill text_lower) eqn:Hc; cbn [andb].
  - destruct (AIScorer.mem skill found) eqn:Hm; cbn [negb].
    + apply mem_in in Hm. split; [auto |]. intros [H | [-> _]]; assumption.
    + rewrite in_app_iff. cbn. split.
      * intros [H | [<- | []]]; auto.
      * intros [H | [-> _]]; auto.
  - split; [auto |]. intros [H | [_ H]]; [exact H | discriminate].
Qed.

Lemma fold_add_found_in (text_lower : string) (keywords found : list string) (s : string) :
  In s (fold_left (add_found text_lower) keywords found) <->
  In s found \/ (In s keywords /\ PyStr.contains s text_lower = true).
Proof.
  revert found. induction keywords as [| k ks IH]; intros found; cbn [fold_left].
  - split; [auto |]. intros [H | [[] _]]. exact H.
  - rewrite IH, add_found_in. cbn [In]. split.
    + intros [[H | [-> H]] | [H1 H2]]; auto.
    + intros [H | [[<- | H1] H2]]; auto.
Qed.

(** The skills extracted from a text are exactly the keywords of the
    vocabulary that occur in the lower-cased text, each once: what the
    skills section adds is found in the whole text as well. *)
Theorem extract_skills_spec (text : string) :
  (forall skill,
     In skill (_extract_skills text) <->
     In skill skills_keywords /\ PyStr.contains skill (PyStr.lower text) = true) /\
  NoDup (_extract_skills text).
Proof.
  split.
  - intros skill. unfold _extract_skills.
    rewrite <- list_elem_of_In, elem_of_elements, elem_of_list_to_set, list_elem_of_In.
    unfold found_skills. rewrite fold_add_found_in. split; [| auto].
    intros [Hsec | H]; [| exact H].
    destruct (search skills_section_pattern (PyStr.chars (PyStr.lower text)))
      as [[caps rest] |] eqn:E; [| destruct Hsec].
    apply filter_In in Hsec as [Hk Hc]. split; [exact Hk |].
    apply (search_group_part _ 1) in E. cbn [fst] in E.
    unfold PyStr.contains. apply part_of_contains.
    apply part_of_trans with (group 1 caps); [apply part_of_contains, Hc | exact E].
  - unfold _extract_skills. apply NoDup_elements.
Qed.

End SkillsField.

Section NameField.

Import Re ResumeFields FieldVocabulary.

Lemma name_pattern_capital (line : list ascii) (st : state) :
  match_here name_pattern line = Some st ->
  exists c rest, line = c :: rest /\ PyStr.is_upper c = true.
Proof.
  unfold match_here, name_pattern. cbn [seqs run].
  destruct line as [| c rest]; [discriminate |].
  destruct (PyStr.is_upper c) eqn:E; [| discriminate].
  intros _. exists c, rest. split; [reflexivity | exact E].
Qed.

Lemma first_name_line_spec (lines : list (list ascii)) (name : string) :
  first_name_line lines = Some name ->
  exists line,
    In line lines /\ PyStr.chars name = PyStr.strip_chars line /\
    (3 < List.length (PyStr.chars name) < 50)%nat /\
    exists c rest, PyStr.chars name = c :: rest /\ PyStr.is_upper c = true.
Proof.
  induction lines as [| line lines IH]; cbn [first_name_line]; [discriminate |].
  intros H.
  assert (Hrest : first_name_line lines = Some name ->
                  exists l, In l (line :: lines) /\ PyStr.chars name = PyStr.strip_chars l /\
                    (3 < List.length (PyStr.chars name) < 50)%nat /\
                    exists c rest, PyStr.chars name = c :: rest /\ PyStr.is_upper c = true).
  { intros H'. destruct (IH H') as [l [Hl Hp]]. exists l. split; [right; exact Hl | exact Hp]. }
  destruct ((3 <? List.length (PyStr.strip_chars line))
            && (List.length (PyStr.strip_chars line) <? 50))%nat eqn:Hlen;
    [| apply Hrest, H].
  destruct (match_here name_pattern (PyStr.strip_chars line)) as [st |] eqn:Hm;
    [| apply Hrest, H].
  injection H as <-. exists line. rewrite chars_of_chars.
  apply andb_true_iff in Hlen as [H3 H50].
  apply Nat.ltb_lt in H3. apply Nat.ltb_lt in H50.
  split; [left; reflexivity |]. split; [reflexivity |]. split; [lia |].
  apply (name_pattern_capital _ st Hm).
Qed.

(** A name, when one is extracted, is one of the first five lines of the
    text with the white space around it removed; it has more than 3 and
    fewer than 50 characters and begins with a capital letter. A text whose
    first five lines are all shorter than four characters has no name. *)
Theorem extract_name_spec (text : string) :
  (forall name, _extract_name text = Some name ->
     exists line,
       In line (firstn 5 (split_lines (PyStr.chars text))) /\
       PyStr.chars name = PyStr.strip_chars line /\
       (3 < List.length (PyStr.chars name) < 50)%nat /\
       exists c rest, PyStr.chars name = c :: rest /\ PyStr.is_upper c = true) /\
  ((forall line, In line (firstn 5 (split_lines (PyStr.chars text))) ->
      (List.length (PyStr.strip_chars line) <= 3)%nat) ->
   _extract_name text = None).
Proof.
  split; [intros name; apply first_name_line_spec |].
  unfold _extract_name. intros Hshort.
  destruct (first_name_line (firstn 5 (split_lines (PyStr.chars text)))) as [name |] eqn:E;
    [| reflexivity].
  apply first_name_line_spec in E as (line & Hin & Hn & Hlen & _).
  specialize (Hshort line Hin). rewrite Hn in Hlen. lia.
Qed.

End NameField.

Section EmailField.

Import Re ResumeFields FieldVocabulary.

Lemma run_seq_in (r1 r2 : regex) (caps : captures) (s : list ascii) (st : state) :
  In st (run (Seq r1 r2) caps s) ->
  exists st1, In st1 (run r1 caps s) /\ In st (run r2 (fst st1) (snd st1)).
Proof. cbn [run]. intros H. apply in_flat_map in H. exact H. Qed.

Lemma run_chr_in (c : ascii) (caps : captures) (s : list ascii) (st : state) :
  In st (run (chr c) caps s) -> s = c :: snd st.
Proof.
  unfold chr. cbn [run]. destruct s as [| x s']; [intros [] |].
  destruct (Ascii.eqb_spec c x) as [-> | _]; [| intros []].
  intros [<- | []]. reflexivity.
Qed.

(** What a way of matching the body consumed holds an at sign. *)
Lemma email_body_at_sign (s : list ascii) (st : state) :
  In st (run email_body [] s) ->
  s = (consumed s st ++ snd st)%list /\ In "@"%char (consumed s st).
Proof.
  intros Hin.
  destruct (run_sound _ _ _ _ Hin) as [[w Hw] _].
  assert (Hc : consumed s st = w).
  { unfold consumed. rewrite Hw at 1 2. rewrite length_app.
    replace (List.length w + List.length (snd st) - List.length (snd st))%nat
      with (List.length w + 0)%nat by lia.
    rewrite firstn_app_2. cbn. apply app_nil_r. }
  rewrite Hc. split; [exact Hw |].
  unfold email_body in Hin. cbn [seqs] in Hin.
  apply run_seq_in in Hin as (st1 & H1 & Hin).
  apply run_seq_in in Hin as (st2 & H2 & Hin).
  apply run_sound in H1 as [[w1 E1] _].
  apply run_chr_in in H2.
  apply run_sound in Hin as [[w3 E3] _].
  assert (E : (w ++ snd st)%list = ((w1 ++ "@"%char :: w3) ++ snd st)%list).
  { rewrite <- Hw, E1, H2, E3, <- app_assoc. reflexivity. }
  apply app_inv_tail in E. rewrite E. apply in_or_app. right. left. reflexivity.
Qed.

Lemma email_at_sound (before : option ascii) (s m rest : list ascii) :
  email_at before s = Some (m, rest) -> s = (m ++ rest)%list /\ In "@"%char m.
Proof.
  unfold email_at. destruct (word_boundary before (hd_error s)); [| discriminate].
  destruct (List.find _ (run email_body [] s)) as [st |] eqn:E; [| discriminate].
  intros H. injection H as <- <-. apply find_some in E as [Hin _].
  apply email_body_at_sign, Hin.
Qed.

Lemma email_search_sound (s : list ascii) :
  forall before m rest,
    email_search before s = Some (m, rest) ->
    (exists front, s = (front ++ m ++ rest)%list) /\ In "@"%char m.
Proof.
  induction s as [| c s IH]; intros before m rest; cbn [email_search].
  - destruct (email_at before []) as [[m0 r0] |] eqn:E; [| discriminate].
    intros H. injection H as <- <-. apply email_at_sound in E as [E Hat].
    split; [exists []; exact E | exact Hat].
  - destruct (email_at before (c :: s)) as [[m0 r0] |] eqn:E.
    + intros H. injection H as <- <-. apply email_at_sound in E as [E Hat].
      split; [exists []; exact E | exact Hat].
    + intros H. apply IH in H as [[front Hf] Hat].
      split; [exists (c :: front); rewrite Hf; reflexivity | exact Hat].
Qed.

(** An address, when one is extracted, is a part of the text and holds an
    at sign; a text without an at sign has no address. *)
Theorem extract_email_spec (text : string) :
  (forall address, _extract_email text = Some address ->
     PyStr.contains address text = true /\ In "@"%char (PyStr.chars address)) /\
  (~ In "@"%char (PyStr.chars text) -> _extract_email text = None).
Proof.
  assert (H : forall address, _extract_email text = Some address ->
                part_of (PyStr.chars address) (PyStr.chars text) /\
                In "@"%char (PyStr.chars address)).
  { intros address. unfold _extract_email.
    destruct (email_search None (PyStr.chars text)) as [[m rest] |] eqn:E; [| discriminate].
    intros Ha. injection Ha as <-. rewrite chars_of_chars.
    apply email_search_sound in E as [[front Hf] Hat].
    split; [exists front, rest; exact Hf | exact Hat]. }
  split.
  - intros address Ha. destruct (H address Ha) as [Hp Hat].
    split; [apply part_of_contains, Hp | exact Hat].
  - intros Hno. destruct (_extract_email text) as [address |] eqn:E; [| reflexivity].
    destruct (H address eq_refl) as [[a [b Hp]] Hat]. exfalso. apply Hno.
    rewrite Hp. apply in_or_app. right. apply in_or_app. left. exact Hat.
Qed.

Lemma email_at_shorter (before : option ascii) (s m rest : list ascii) :
  email_at before s = Some (m, rest) -> (List.length rest < List.length s)%nat.
Proof.
  intros H. apply email_at_sound in H as [-> Hat]. rewrite length_app.
  destruct m; [destruct Hat | simpl; lia].
Qed.

Lemma email_findall_head (s : list ascii) :
  forall fuel before,
    (List.length s < fuel)%nat ->
    hd_error (email_findall fuel before s)
    = match email_search before s with
      | Some (m, _) => Some m
      | None => None
      end.
Proof.
  induction s as [| c s IH]; intros fuel before Hfuel;
    (destruct fuel as [| fuel]; [lia |]); cbn [email_findall email_search].
  - destruct (email_at before []) as [[m rest] |]; reflexivity.
  - destruct (email_at before (c :: s)) as [[m rest] |]; [reflexivity |].
    apply IH. simpl in Hfuel. lia.
Qed.

(** The two pipelines extract the same address from a text: the first
    match that [extract_email_from_text] takes from all the matches is the
    match [_extract_email] searches for. *)
Theorem extract_email_from_text_agrees (text : string) :
  Utils.extract_email_from_text text = ResumeFields._extract_email text.
Proof.
  unfold Utils.extract_email_from_text, _extract_email.
  pose proof (email_findall_head (PyStr.chars text) (S (String.length text)) None) as H.
  assert (Hlen : (List.length (PyStr.chars text) < S (String.length text))%nat).
  { unfold PyStr.chars. clear H. induction text as [| c t IH]; simpl in *; lia. }
  specialize (H Hlen).
  destruct (email_findall (S (String.length text)) None (PyStr.chars text)) as [| m l];
    destruct (email_search None (PyStr.chars text)) as [[m' rest] |];
    cbn in H; try discriminate; [reflexivity |].
  injection H as ->. reflexivity.
Qed.

End EmailField.

Section SectionFields.

Import Re ResumeParser ResumeFields FieldVocabulary.

Lemma part_of_cons (c : ascii) (v s : list ascii) : part_of v s -> part_of v (c :: s).
Proof. apply (part_of_suffix v [c] s). Qed.

Lemma part_of_strip (l : list ascii) : part_of (PyStr.strip_chars l) l.
Proof. destruct (strip_middle l) as [w1 [w2 H]]. exists w1, w2. exact H. Qed.

Lemma part_of_length (v s : list ascii) :
  part_of v s -> (List.length v <= List.length s)%nat.
Proof. intros [a [b ->]]. rewrite !length_app. lia. Qed.

(** The pieces of [split]: the first is a beginning of the text, the others
    are parts of it. *)
Lemma split_lines_pieces (l : list ascii) :
  exists first rest,
    split_lines l = first :: rest /\
    (exists b, l = (first ++ b)%list) /\
    forall x, In x rest -> part_of x l.
Proof.
  induction l as [| c l IH]; cbn [split_lines].
  - exists [], []. split; [reflexivity |]. split; [exists []; reflexivity | intros x []].
  - destruct IH as (first & rest & E & [b Hb] & Hrest).
    destruct (Ascii.eqb c newline).
    + exists [], (split_lines l). split; [reflexivity |].
      split; [exists (c :: l); reflexivity |].
      intros x Hx. apply part_of_cons. rewrite E in Hx. destruct Hx as [<- | Hx].
      * exists [], b. exact Hb.
      * apply Hrest, Hx.
    + rewrite E. exists (c :: first), rest. split; [reflexivity |].
      split; [exists b; rewrite Hb at 1; reflexivity |].
      intros x Hx. apply part_of_cons, Hrest, Hx.
Qed.

Lemma split_lines_part (l x : list ascii) : In x (split_lines l) -> part_of x l.
Proof.
  destruct (split_lines_pieces l) as (first & rest & -> & [b Hb] & Hrest).
  intros [<- | Hx]; [exists [], b; exact Hb | apply Hrest, Hx].
Qed.

Lemma split_entries_pieces (l : list ascii) :
  exists first rest,
    split_entries l = first :: rest /\
    (exists b, l = (first ++ b)%list) /\
    forall x, In x rest -> part_of x l.
Proof.
  induction l as [| c l IH]; cbn [split_entries].
  - exists [], []. split; [reflexivity |]. split; [exists []; reflexivity | intros x []].
  - destruct IH as (first & rest & E & [b Hb] & Hrest).
    destruct (Ascii.eqb c newline
              && match match_here entry_start l with Some _ => true | None => false end).
    + exists [], (split_entries l). split; [reflexivity |].
      split; [exists (c :: l); reflexivity |].
      intros x Hx. apply part_of_cons. rewrite E in Hx. destruct Hx as [<- | Hx].
      * exists [], b. exact Hb.
      * apply Hrest, Hx.
    + rewrite E. exists (c :: first), rest. split; [reflexivity |].
      split; [exists b; rewrite Hb at 1; reflexivity |].
      intros x Hx. apply part_of_cons, Hrest, Hx.
Qed.

Lemma split_entries_part (l x : list ascii) : In x (split_entries l) -> part_of x l.
Proof.
  destruct (split_entries_pieces l) as (first & rest & -> & [b Hb] & Hrest).
  intros [<- | Hx]; [exists [], b; exact Hb | apply Hrest, Hx].
Qed.

Lemma hd_split_lines_part (l : list ascii) : part_of (hd [] (split_lines l)) l.
Proof.
  destruct (split_lines_pieces l) as (first & rest & -> & [b Hb] & _).
  exists [], b. exact Hb.
Qed.

(** The groups of the matches of [findall] are parts of the text. *)
Lemma findall_from_part (r : regex) (n : nat) (fuel : nat) :
  forall s caps, In caps (findall_from fuel r s) -> part_of (group n caps) s.
Proof.
  induction fuel as [| fuel IH]; intros s caps; cbn [findall_from]; [intros [] |].
  assert (Hnext : In caps match s with [] => [] | _ :: s' => findall_from fuel r s' end ->
                  part_of (group n caps) s).
  { destruct s as [| c s']; [intros [] |]. intros H. apply part_of_cons, IH, H. }
  destruct (match_here r s) as [[caps0 rest] |] eqn:E; [| exact Hnext].
  apply match_here_sound in E as [[w Hw] Hc]. cbn [fst snd] in Hw, Hc.
  intros [<- | Hin].
  - destruct (group_in n caps0) as [-> | Hg]; [apply part_of_nil |].
    destruct (Hc _ _ Hg) as [[] | Hp]. exact Hp.
  - destruct (List.length rest <? List.length s)%nat; [| exact (Hnext Hin)].
    rewrite Hw. apply part_of_suffix, IH, Hin.
Qed.

Lemma findall_part (r : regex) (n : nat) (s : list ascii) (caps : captures) :
  In caps (findall r s) -> part_of (group n caps) s.
Proof. apply findall_from_part. Qed.

Lemma search_group_1 (r : regex) (s : list ascii) (caps : captures) (rest : list ascii) :
  search r s = Some (caps, rest) -> part_of (group 1 caps) s.
Proof. intros H. apply (search_group_part r 1 s (caps, rest) H). Qed.

Lemma length_chars (s : string) : List.length (PyStr.chars s) = String.length s.
Proof. unfold PyStr.chars. induction s as [| c s IH]; simpl; [reflexivity | rewrite IH; reflexivity]. Qed.

Lemma strip_chars_idempotent (l : list ascii) :
  PyStr.strip_chars (PyStr.strip_chars l) = PyStr.strip_chars l.
Proof.
  unfold PyStr.strip_chars at 1.
  rewrite (lstrip_fixed _ (strip_no_lead l)).
  unfold PyStr.rstrip_chars.
  rewrite (lstrip_fixed _ (strip_no_trail l)). apply rev_involutive.
Qed.

Lemma strip_of_stripped (l : list ascii) :
  PyStr.strip (PyStr.of_chars (PyStr.strip_chars l)) = PyStr.of_chars (PyStr.strip_chars l).
Proof. unfold PyStr.strip. rewrite chars_of_chars, strip_chars_idempotent. reflexivity. Qed.

(** A certification is a line of the certifications section with the white
    space around it removed; it has more than five characters, it holds one
    of the five keywords when lower-cased, and it is a part of the text. *)
Theorem extract_certifications_spec (text certification : string) :
  In certification (_extract_certifications text) ->
  (5 < String.length certification)%nat /\
  PyStr.strip certification = certification /\
  (exists keyword,
     In keyword certification_keywords /\
     PyStr.contains keyword (PyStr.lower certification) = true) /\
  PyStr.contains certification text = true.
Proof.
  unfold _extract_certifications.
  destruct (search cert_pattern (PyStr.chars text)) as [[caps rest] |] eqn:E;
    [| intros []].
  intros H. apply in_map_iff in H as (entry & <- & H).
  apply filter_In in H as [H Hc].
  apply in_map_iff in H as (line & <- & H).
  unfold is_certification in Hc. apply andb_true_iff in Hc as [Hlen Hkey].
  apply Nat.ltb_lt in Hlen. apply existsb_exists in Hkey as (keyword & Hk & Hin).
  split; [rewrite <- length_chars, chars_of_chars; exact Hlen |].
  split; [apply strip_of_stripped |].
  split.
  - exists keyword. split; [exact Hk |].
    unfold PyStr.contains, PyStr.lower. rewrite !chars_of_chars. exact Hin.
  - unfold PyStr.contains. rewrite chars_of_chars. apply part_of_contains.
    apply part_of_trans with line; [apply part_of_strip |].
    apply part_of_trans with (group 1 caps); [apply split_lines_part, H |].
    apply (search_group_1 _ _ _ _ E).
Qed.

Lemma extract_certifications_spec_witness :
  (5 < String.length "AWS Certified Developer")%nat /\
  PyStr.contains "AWS Certified Developer" FileExamples.resume_text = true.
Proof.
  destruct (extract_certifications_spec FileExamples.resume_text "AWS Certified Developer")
    as (Hlen & _ & _ & Hpart).
  - vm_compute. left. reflexivity.
  - split; [exact Hlen | exact Hpart].
Defined.

End SectionFields.

Section ParsedFields.

Import Re ResumeParser ResumeFields FieldVocabulary.

Variable _extract_from_pdf : string -> string.
Variable _extract_from_docx : string -> string.

Lemma contains_of_part (l : list ascii) (text : string) :
  part_of l (PyStr.chars text) -> PyStr.contains (PyStr.of_chars l) text = true.
Proof.
  intros H. unfold PyStr.contains. rewrite chars_of_chars. apply part_of_contains, H.
Qed.

Lemma extract_experience_years_nonneg (text : string) :
  (0 <= _extract_experience_years text)%Z.
Proof.
  unfold _extract_experience_years. rewrite scan_patterns_two.
  pose proof (years_found_head_nonneg years_of_experience_pattern
                (PyStr.chars (PyStr.lower text))) as H1.
  pose proof (years_found_head_nonneg experience_years_pattern
                (PyStr.chars (PyStr.lower text))) as H2.
  cbv zeta.
  destruct (Z.max _ _ =? 0)%Z eqn:E; [| lia].
  destruct (_extract_experience text); simpl; lia.
Qed.

Lemma extract_name_part (text name : string) :
  _extract_name text = Some name -> PyStr.contains name text = true.
Proof.
  intros H. apply first_name_line_spec in H as (line & Hin & Hn & _).
  unfold PyStr.contains. rewrite Hn. apply part_of_contains.
  apply part_of_trans with line; [apply part_of_strip |].
  apply split_lines_part. revert Hin. apply in_firstn.
Qed.

Lemma extract_email_part (text address : string) :
  _extract_email text = Some address -> PyStr.contains address text = true.
Proof.
  unfold _extract_email.
  destruct (email_search None (PyStr.chars text)) as [[m rest] |] eqn:E; [| discriminate].
  intros H. injection H as <-. apply contains_of_part.
  apply email_search_sound in E as [[front Hf] _]. exists front, rest. exact Hf.
Qed.

Lemma extract_experience_part (text : string) (job : ExperienceEntry) :
  In job (_extract_experience text) ->
  PyStr.contains (exp_title job) text = true /\
  forall duration, exp_duration job = Some duration ->
                   PyStr.contains duration text = true.
Proof.
  unfold _extract_experience.
  destruct (search exp_pattern (PyStr.chars text)) as [[caps rest] |] eqn:E;
    [| intros []].
  intros H. apply in_map_iff in H as (m & <- & H). cbn [exp_title exp_duration].
  apply search_group_1 in E.
  split.
  - unfold PyStr.strip. rewrite chars_of_chars. apply contains_of_part.
    apply part_of_trans with (group 1 m); [apply part_of_strip |].
    apply part_of_trans with (group 1 caps); [apply findall_part with (1 := H) | exact E].
  - intros duration Hd. injection Hd as <-. apply contains_of_part.
    apply part_of_trans with (group 1 caps); [apply findall_part with (1 := H) | exact E].
Qed.

Lemma extract_education_part (text : string) (edu : EducationEntry) :
  In edu (_extract_education text) ->
  PyStr.contains (edu_degree edu) text = true /\
  PyStr.contains (edu_details edu) text = true /\
  (String.length (edu_details edu) <= 200)%nat.
Proof.
  unfold _extract_education.
  destruct (search edu_pattern (PyStr.chars text)) as [[caps rest] |] eqn:E;
    [| intros []].
  intros H. apply in_map_iff in H as (m & <- & H). cbn [edu_degree edu_details].
  apply search_group_1 in E.
  split; [| split].
  - apply contains_of_part.
    apply part_of_trans with (group 1 m); [apply part_of_strip |].
    apply part_of_trans with (group 1 caps); [apply findall_part with (1 := H) | exact E].
  - apply contains_of_part.
    apply part_of_trans with (group 1 caps); [apply part_of_firstn | exact E].
  - rewrite <- length_chars, chars_of_chars. apply firstn_le_length.
Qed.

Lemma extract_education_shared (text : string) (edu1 edu2 : EducationEntry) :
  In edu1 (_extract_education text) -> In edu2 (_extract_education text) ->
  edu_details edu1 = edu_details edu2.
Proof.
  unfold _extract_education.
  destruct (search edu_pattern (PyStr.chars text)) as [[caps rest] |];
    [| intros []].
  intros H1 H2. apply in_map_iff in H1 as (m1 & <- & _).
  apply in_map_iff in H2 as (m2 & <- & _). reflexivity.
Qed.

Lemma extract_projects_count (text : string) :
  (List.length (_extract_projects text) <= 5)%nat.
Proof.
  unfold _extract_projects.
  destruct (search proj_pattern (PyStr.chars text)) as [[caps rest] |];
    [| simpl; lia].
  cbv zeta. rewrite length_map.
  etransitivity; [apply List.filter_length_le |]. apply firstn_le_length.
Qed.

Lemma extract_projects_part (text : string) (project : ProjectEntry) :
  In project (_extract_projects text) ->
  PyStr.contains (proj_title project) text = true /\
  PyStr.contains (proj_description project) text = true /\
  (20 < String.length (proj_description project) <= 300)%nat.
Proof.
  unfold _extract_projects.
  destruct (search proj_pattern (PyStr.chars text)) as [[caps rest] |] eqn:E;
    [| intros []].
  intros H. apply in_map_iff in H as (entry & <- & H).
  cbn [proj_title proj_description].
  apply filter_In in H as [H Hlen]. apply Nat.ltb_lt in Hlen.
  apply in_firstn, split_entries_part in H. apply search_group_1 in E.
  pose proof (part_of_trans _ _ _ H E) as Hentry.
  split; [| split].
  - apply contains_of_part.
    apply part_of_trans with (hd [] (split_lines entry)); [apply part_of_strip |].
    apply part_of_trans with entry; [apply hd_split_lines_part | exact Hentry].
  - apply contains_of_part.
    apply part_of_trans with entry; [apply part_of_firstn | exact Hentry].
  - rewrite <- length_chars, chars_of_chars.
    pose proof (part_of_length _ _ (part_of_strip entry)) as Hs.
    rewrite length_firstn. lia.
Qed.

Lemma extract_certifications_part (text certification : string) :
  In certification (_extract_certifications text) ->
  PyStr.contains certification text = true.
Proof.
  unfold _extract_certifications.
  destruct (search cert_pattern (PyStr.chars text)) as [[caps rest] |] eqn:E;
    [| intros []].
  intros H. apply in_map_iff in H as (entry & <- & H).
  apply filter_In in H as [H _].
  apply in_map_iff in H as (line & <- & H).
  apply contains_of_part.
  apply part_of_trans with line; [apply part_of_strip |].
  apply part_of_trans with (group 1 caps); [apply split_lines_part, H |].
  apply (search_group_1 _ _ _ _ E).
Qed.

(** What [parse] returns is taken from the text it read: the name, the
    address, the titles and durations of the jobs, the degrees and details
    of the education entries, the titles and descriptions of the projects
    and the certifications are all parts of [raw_text]. The years of
    experience are not negative. There are at most five projects, each
    with a description of more than 20 and at most 300 characters. The
    details of an education entry have at most 200 characters, and they are
    the same for all the entries. *)
Theorem parse_fields_come_from_text (file_path : string) (data : ResumeData) :
  ResumeFields.parse _extract_from_pdf _extract_from_docx file_path = inr data ->
  (0 <= experience_years data)%Z /\
  (forall name, candidate_name data = Some name ->
     PyStr.contains name (raw_text data) = true) /\
  (forall address, candidate_email data = Some address ->
     PyStr.contains address (raw_text data) = true) /\
  (forall job, In job (experience_details data) ->
     PyStr.contains (exp_title job) (raw_text data) = true /\
     forall duration, exp_duration job = Some duration ->
                      PyStr.contains duration (raw_text data) = true) /\
  (forall edu, In edu (education data) ->
     PyStr.contains (edu_degree edu) (raw_text data) = true /\
     PyStr.contains (edu_details edu) (raw_text data) = true /\
     (String.length (edu_details edu) <= 200)%nat) /\
  (forall edu1 edu2, In edu1 (education data) -> In edu2 (education data) ->
     edu_details edu1 = edu_details edu2) /\
  (List.length (projects data) <= 5)%nat /\
  (forall project, In project (projects data) ->
     PyStr.contains (proj_title project) (raw_text data) = true /\
     PyStr.contains (proj_description project) (raw_text data) = true /\
     (20 < String.length (proj_description project) <= 300)%nat) /\
  (forall certification, In certification (certifications data) ->
     PyStr.contains certification (raw_text data) = true).
Proof.
  unfold ResumeFields.parse, ResumeParser.parse.
  destruct (extract_text _extract_from_pdf _extract_from_docx file_path) as [e | text];
    cbn [bind]; [discriminate |].
  intros H. injection H as <-.
  cbn [raw_text candidate_name candidate_email experience_years experience_details
       education projects certifications].
  split; [apply extract_experience_years_nonneg |].
  split; [apply extract_name_part |].
  split; [apply extract_email_part |].
  split; [apply extract_experience_part |].
  split; [apply extract_education_part |].
  split; [apply extract_education_shared |].
  split; [apply extract_projects_count |].
  split; [apply extract_projects_part | apply extract_certifications_part].
Qed.

End ParsedFields.

Section ParsedFieldsExamples.

Import ResumeParser ResumeFields FileExamples.

Lemma parse_fields_come_from_text_witness :
  exists data,
    ResumeFields.parse read_file read_file "cv.pdf" = inr data /\
    candidate_name data = Some "Asha Verma" /\
    experience_years data = 5%Z /\
    (forall name, candidate_name data = Some name ->
       PyStr.contains name (raw_text data) = true) /\
    (List.length (projects data) <= 5)%nat.
Proof.
  destruct (ResumeFields.parse read_file read_file "cv.pdf") as [e | data] eqn:E;
    [vm_compute in E; discriminate |].
  exists data. split; [reflexivity |].
  destruct (parse_fields_come_from_text read_file read_file "cv.pdf" data E)
    as (_ & Hname & _ & _ & _ & _ & Hcount & _).
  split; [vm_compute in E; injection E as <-; reflexivity |].
  split; [vm_compute in E; injection E as <-; reflexivity |].
  split; [exact Hname | exact Hcount].
Defined.

End ParsedFieldsExamples.

Section Pipeline.

Import AIScorer ResumeParser ResumeFields.

Local Open Scope Q_scope.

Variable _extract_from_pdf : string -> string.
Variable _extract_from_docx : string -> string.
Variable Embedding : Type.
Variable encode : string -> Embedding.
Variable cosine_similarity : Embedding -> Embedding -> Q.

Lemma mem_supported (ext : string) :
  mem ext [".pdf"; ".docx"; ".doc"] = true <-> In ext [".pdf"; ".docx"; ".doc"].
Proof.
  unfold mem. rewrite existsb_exists. split.
  - intros (x & Hx & E). apply String.eqb_eq in E. subst x. exact Hx.
  - intros H. exists ext. split; [exact H | apply String.eqb_refl].
Qed.

Lemma supported_extract_text (file_path : string) :
  In (file_ext_of file_path) [".pdf"; ".docx"; ".doc"] ->
  extract_text _extract_from_pdf _extract_from_docx file_path
  = inr (if String.eqb (file_ext_of file_path) ".pdf"
         then _extract_from_pdf file_path
         else _extract_from_docx file_path).
Proof.
  intros H. unfold extract_text.
  destruct (String.eqb (file_ext_of file_path) ".pdf") eqn:E; [reflexivity |].
  assert (Hm : mem (file_ext_of file_path) [".docx"; ".doc"] = true).
  { apply mem_supported in H. unfold mem in *. cbn [existsb] in *.
    rewrite E in H. exact H. }
  rewrite Hm. reflexivity.
Qed.

Lemma default_overall_le_100 (resume_data : ResumeData) (job_role : JobRole)
      (r : ScoreResult) :
  calculate_overall_score Embedding encode cosine_similarity resume_data job_role None
    = inr r ->
  overall_score r <= 100.
Proof.
  intros Hr.
  apply calculate_overall_score_inv in Hr
    as (ws & wk & we & wd & wp & Ls & Lk & Le & Ld & Lp & Ho & _).
  vm_compute in Ls, Lk, Le, Ld, Lp.
  injection Ls as <-. injection Lk as <-. injection Le as <-.
  injection Ld as <-. injection Lp as <-.
  rewrite Ho. apply round2_le_100. unfold weighted_sum.
  pose proof (proj2 (semantic_score_range Embedding encode cosine_similarity
                       (raw_text resume_data) (job_description job_role))).
  pose proof (proj2 (skills_score_range (skills resume_data) (required_skills job_role))).
  pose proof (experience_score_le_100 (experience_years resume_data)
                                      (required_experience job_role)).
  pose proof (proj2 (education_score_range (education resume_data) (job_title job_role))).
  pose proof (projects_score_le_100 Embedding encode cosine_similarity
                (projects resume_data) (job_description job_role)).
  lra.
Qed.


End Pipeline.

Section PipelineExamples.

Import AIScorer ResumeParser ResumeFields MoreExamples FileExamples.

Local Open Scope Q_scope.


End PipelineExamples.

Section Upload.

Import AIScorer ResumeParser ResumeFields UploadVocabulary.

Variable _extract_from_pdf : string -> string.
Variable _extract_from_docx : string -> string.

Lemma chars_app (a b : string) :
  PyStr.chars (a ++ b) = (PyStr.chars a ++ PyStr.chars b)%list.
Proof.
  unfold PyStr.chars. induction a as [| c a IH]; simpl; [reflexivity | rewrite IH; reflexivity].
Qed.

Lemma rfind_from_app (c : ascii) (a b : list ascii) :
  forall i last,
    rfind_from c (a ++ b) i last
    = rfind_from c b (i + Z.of_nat (List.length a))%Z (rfind_from c a i last).
Proof.
  induction a as [| x a IH]; intros i last.
  - simpl. f_equal. lia.
  - cbn [app rfind_from List.length]. rewrite IH. f_equal. lia.
Qed.

Lemma rfind_from_shift (c : ascii) (b : list ascii) :
  forall i last,
    rfind_from c b i last
    = if (rfind c b <? 0)%Z then last else (i + rfind c b)%Z.
Proof.
  unfold rfind. induction b as [| x b IH]; intros i last; [reflexivity |].
  cbn [rfind_from]. rewrite (IH (i + 1)%Z). rewrite (IH (0 + 1)%Z).
  destruct (rfind_from c b 0 (-1) <? 0)%Z eqn:E.
  - destruct (Ascii.eqb x c); simpl; [f_equal; lia | reflexivity].
  - apply Z.ltb_ge in E.
    destruct (0 + 1 + rfind_from c b 0 (-1) <? 0)%Z eqn:E'; [apply Z.ltb_lt in E'; lia |].
    lia.
Qed.

Lemma rfind_app (c : ascii) (a b : list ascii) :
  rfind c (a ++ b)
  = if (rfind c b <? 0)%Z then rfind c a else (Z.of_nat (List.length a) + rfind c b)%Z.
Proof.
  unfold rfind at 1. rewrite rfind_from_app, rfind_from_shift. reflexivity.
Qed.

Lemma rfind_absent (c : ascii) (l : list ascii) : ~ In c l -> rfind c l = (-1)%Z.
Proof.
  unfold rfind. generalize 0%Z as i.
  induction l as [| x l IH]; intros i Hno; [reflexivity |].
  cbn [rfind_from]. destruct (Ascii.eqb_spec x c) as [-> | _].
  - exfalso. apply Hno. left. reflexivity.
  - apply IH. intros H. apply Hno. right. exact H.
Qed.

Lemma skip_leading_dots_cases (n : nat) (p : list ascii) (i d : nat) :
  skip_leading_dots n p i d = (p, []) \/
  skip_leading_dots n p i d = (firstn d p, skipn d p).
Proof.
  revert i. induction n as [| n IH]; intros i; cbn [skip_leading_dots]; [left; reflexivity |].
  destruct (nth_error p i) as [x |]; [| left; reflexivity].
  destruct (negb (Ascii.eqb x ".")); [right; reflexivity | apply IH].
Qed.

Lemma hex_digit_plain (c : ascii) :
  is_hex_digit c = true -> c <> "."%char /\ c <> "/"%char.
Proof.
  intros H. split; intros ->; vm_compute in H; discriminate.
Qed.

(** An extension that is not empty starts at the last dot. *)
Lemma splitext_ext (path : string) :
  PyStr.chars (snd (splitext path)) = [] \/
  ((rfind "/" (PyStr.chars path) < rfind "." (PyStr.chars path))%Z /\
   PyStr.chars (snd (splitext path))
   = skipn (Z.to_nat (rfind "." (PyStr.chars path))) (PyStr.chars path)).
Proof.
  unfold splitext.
  destruct (Z.ltb_spec (rfind "/" (PyStr.chars path)) (rfind "." (PyStr.chars path)))
    as [Hlt | _]; [| left; cbn [snd]; apply chars_of_chars].
  destruct (skip_leading_dots_cases
              (Z.to_nat (rfind "." (PyStr.chars path) - (rfind "/" (PyStr.chars path) + 1)))
              (PyStr.chars path)
              (Z.to_nat (rfind "/" (PyStr.chars path) + 1))
              (Z.to_nat (rfind "." (PyStr.chars path)))) as [-> | ->];
    cbn [snd]; rewrite chars_of_chars; [left; reflexivity | right].
  split; [exact Hlt | reflexivity].
Qed.

Lemma file_path_chars (token filename : string) :
  PyStr.chars (Main.file_path token filename)
  = (PyStr.chars "uploads/resumes/"
     ++ (PyStr.chars token ++ "_"%char :: PyStr.chars filename))%list.
Proof.
  unfold Main.file_path, Main.unique_filename, Main.UPLOAD_DIR.
  rewrite !chars_app. reflexivity.
Qed.

(** The saved path of a file with an extension has the extension of the
    file. *)
Lemma file_path_ext (token filename : string) :
  hex_token token -> plain_name filename ->
  PyStr.chars (snd (splitext filename)) <> [] ->
  snd (splitext (Main.file_path token filename)) = snd (splitext filename).
Proof.
  intros Hhex Hplain Hext.
  destruct (splitext_ext filename) as [E | [Hlt E]]; [contradiction |].
  rewrite (rfind_absent "/" _ Hplain) in Hlt.
  set (p := PyStr.chars filename) in *.
  set (dot := rfind "." p) in *.
  assert (Hq : PyStr.chars (Main.file_path token filename)
               = ((PyStr.chars "uploads/resumes/" ++ PyStr.chars token ++ ["_"%char]) ++ p)%list).
  { rewrite file_path_chars. rewrite <- !app_assoc. reflexivity. }
  assert (Hfirst : exists x tail,
             (PyStr.chars token ++ "_"%char :: p)%list = x :: tail /\ x <> "."%char /\
             ~ In "/"%char (x :: tail)).
  { unfold hex_token in Hhex. fold p in Hplain.
    assert (Hno : ~ In "/"%char (PyStr.chars token ++ "_"%char :: p)%list).
    { intros H. apply in_app_or in H as [H | [H | H]].
      - rewrite forallb_forall in Hhex. apply Hhex, hex_digit_plain in H as [_ H].
        apply H. reflexivity.
      - discriminate.
      - exact (Hplain H). }
    destruct (PyStr.chars token) as [| t ts] eqn:Et.
    - exists "_"%char, p. split; [reflexivity |]. split; [discriminate | exact Hno].
    - exists t, (ts ++ "_"%char :: p)%list. split; [reflexivity |].
      split; [| exact Hno].
      cbn [forallb] in Hhex. apply andb_true_iff in Hhex as [Ht _].
      apply hex_digit_plain, Ht. }
  destruct Hfirst as (x & tail & Htail & Hx & Hno).
  assert (Hsep : rfind "/" (PyStr.chars (Main.file_path token filename)) = 15%Z).
  { rewrite file_path_chars, rfind_app. fold p.
    rewrite Htail, (rfind_absent "/" _ Hno). reflexivity. }
  assert (Hdot : rfind "." (PyStr.chars (Main.file_path token filename))
                 = (Z.of_nat (List.length (PyStr.chars "uploads/resumes/"
                                           ++ PyStr.chars token ++ ["_"%char])) + dot)%Z).
  { rewrite Hq, rfind_app. fold dot.
    destruct (Z.ltb_spec dot 0); [lia | reflexivity]. }
  assert (Hlen : (17 <= List.length (PyStr.chars "uploads/resumes/"
                                     ++ PyStr.chars token ++ ["_"%char]))%nat).
  { rewrite !length_app. simpl. lia. }
  set (pre := (PyStr.chars "uploads/resumes/" ++ PyStr.chars token ++ ["_"%char])%list) in *.
  apply (f_equal PyStr.of_chars) in E.
  assert (Hof : forall s, PyStr.of_chars (PyStr.chars s) = s)
    by (intros s; apply string_of_list_ascii_of_string).
  rewrite Hof in E. rewrite E.
  unfold splitext. rewrite Hsep, Hdot.
  destruct (Z.ltb_spec 15 (Z.of_nat (List.length pre) + dot)) as [_ | Hge]; [| lia].
  replace (Z.to_nat (Z.of_nat (List.length pre) + dot - (15 + 1)))
    with (S (Z.to_nat (Z.of_nat (List.length pre) + dot - 17))) by lia.
  cbn [skip_leading_dots].
  assert (Hnth : nth_error (PyStr.chars (Main.file_path token filename))
                           (Z.to_nat (15 + 1)) = Some x).
  { rewrite file_path_chars. fold p. rewrite Htail. reflexivity. }
  rewrite Hnth.
  destruct (Ascii.eqb_spec x ".") as [-> | _]; [contradiction |].
  cbn [negb snd]. f_equal.
  rewrite Hq.
  replace (Z.to_nat (Z.of_nat (List.length pre) + dot))
    with (List.length pre + Z.to_nat dot)%nat by lia.
  rewrite skipn_app, skipn_all2 by lia.
  replace (List.length pre + Z.to_nat dot - List.length pre)%nat with (Z.to_nat dot) by lia.
  reflexivity.
Qed.


End Upload.

Section UploadExamples.

Import AIScorer ResumeParser ResumeFields UploadVocabulary FileExamples.


End UploadExamples.
